(** * mine-calculator: the calculation core of [src/App.jsx]

    A shallow embedding of the pure functions of the mining calculator
    (numeric input normaliser, probability rules, expected-value breakdown,
    crafting comparator and persisted-state migration), and the properties
    of them that the specification states.

    Modelling choices.
    - A JavaScript number is an IEEE 754 binary64 value: [spec_float] with
      precision 53 and maximal exponent 1024, rounding to nearest even.  The
      arithmetic operators are the correctly rounded operations of
      [SpecFloat]; nothing is idealised to real arithmetic.
    - A JavaScript value is a tree ([value]); an object is the list of its
      own enumerable properties in insertion order.  The order in which
      JavaScript lists integer-like keys first is not modelled; the content
      of every object that the functions build does not depend on it.
    - Property keys are ordinary data properties.  The accessor [__proto__]
      is outside the model: a well-formed document ([parsed]) has no such
      key.
    - A string is a sequence of 8-bit code units.
    - The built-in conversions [Number(string)] and [String(number)] are
      parameters of the development.
    - An exception is the result [None]; the ones that the modelled code
      can raise are the TypeError of [String(object)] and the TypeError of
      reading a property of [null] or [undefined].
    - The calculators take numbers; the supply modes are strings and a
      recipe maps a resource to a number, as the data model has them. *)

From Stdlib Require Import ZArith List String Ascii Bool Lia.
From Stdlib Require Import SpecFloat DecimalString.
Import ListNotations.

Set Warnings "-register-all".
Local Open Scope Z_scope.

(** ** JavaScript numbers *)

Module Num.

Definition prec : Z := 53.
Definition emax : Z := 1024.

Definition num : Type := spec_float.

Definition zero : num := S754_zero false.
Definition NaN : num := S754_nan.

(** An integer literal. *)
Definition ofZ (z : Z) : num := binary_normalize prec emax z 0 false.

Definition add : num -> num -> num := SFadd prec emax.
Definition sub : num -> num -> num := SFsub prec emax.
Definition mul : num -> num -> num := SFmul prec emax.
Definition div : num -> num -> num := SFdiv prec emax.

(** A decimal literal [m / 10^k]: both [m] and [10^k] are integers that
    binary64 holds exactly (for the literals of the source), so the
    correctly rounded quotient is the double nearest to the decimal. *)
Definition decimal (m : Z) (k : Z) : num := div (ofZ m) (ofZ (10 ^ k)).

(** [x < y], [x <= y] and [x === y] on numbers; false when either is NaN. *)
Definition ltb : num -> num -> bool := SFltb.
Definition leb : num -> num -> bool := SFleb.
Definition eqb : num -> num -> bool := SFeqb.

(** [Number.isFinite] on a number. *)
Definition isFinite (x : num) : bool :=
  match x with
  | S754_zero _ | S754_finite _ _ _ => true
  | S754_infinity _ | S754_nan => false
  end.

Definition isZero (x : num) : bool :=
  match x with
  | S754_zero _ => true
  | _ => false
  end.

(** [Math.max(x, y)]: NaN if either is NaN, and [+0] is larger than [-0]. *)
Definition max (x y : num) : num :=
  match SFcompare x y with
  | None => NaN
  | Some Lt => y
  | Some Gt => x
  | Some Eq => match x with S754_zero true => y | _ => x end
  end.

(** [Math.min(x, y)]: NaN if either is NaN, and [-0] is smaller than [+0]. *)
Definition min (x y : num) : num :=
  match SFcompare x y with
  | None => NaN
  | Some Lt => x
  | Some Gt => y
  | Some Eq => match x with S754_zero false => y | _ => x end
  end.

(** ToBoolean on a number: [0], [-0] and NaN are falsy. *)
Definition truthy (x : num) : bool :=
  match x with
  | S754_zero _ | S754_nan => false
  | _ => true
  end.

(** [x] is a number (not NaN) with sign bit [s]. *)
Definition signed (s : bool) (x : num) : Prop :=
  match x with
  | S754_zero s' | S754_infinity s' | S754_finite s' _ _ => s' = s
  | S754_nan => False
  end.

(** SameValueZero: equal as values, NaN like NaN and [+0] like [-0]. *)
Definition same (x y : num) : Prop :=
  x = y \/ (isZero x = true /\ isZero y = true).

End Num.

Abbreviation num := Num.num.

Declare Scope num_scope.
Delimit Scope num_scope with num.
Infix "+" := Num.add : num_scope.
Infix "-" := Num.sub : num_scope.
Infix "*" := Num.mul : num_scope.
Infix "/" := Num.div : num_scope.
Infix "<?" := Num.ltb : num_scope.
Infix "<=?" := Num.leb : num_scope.
Infix "==" := Num.same (at level 70, no associativity) : num_scope.

(** ** Utilities *)

(** [clamp01]: a non-finite value becomes 0, a finite one is clamped. *)
Definition clamp01 (x : num) : num :=
  if negb (Num.isFinite x) then Num.zero
  else Num.max Num.zero (Num.min (Num.ofZ 1) x).

Definition netSell (gross feeRate : num) : num :=
  (gross * (Num.ofZ 1 - feeRate))%num.

(** [arr.reduce((a, b) => a + b, 0)] *)
Definition sum (arr : list num) : num :=
  fold_left (fun a b => (a + b)%num) arr Num.zero.

(** ** Domain rules *)

(** The shard drop count per enhancement level of the pick. *)
Definition SAGE_SHARDS_BY_ENH : list (Z * Z) :=
  [ (5, 4); (6, 4); (7, 4); (8, 5); (9, 5); (10, 5);
    (11, 6); (12, 6); (13, 7); (14, 7); (15, 12) ].

Fixpoint table_get (t : list (Z * Z)) (level : Z) : option Z :=
  match t with
  | [] => None
  | (l, n) :: t' => if Z.eqb l level then Some n else table_get t' level
  end.

(** [SAGE_SHARDS_BY_ENH[level] ?? 0] *)
Definition shardsPerDigOf (level : Z) : num :=
  match table_get SAGE_SHARDS_BY_ENH level with
  | Some n => Num.ofZ n
  | None => Num.zero
  end.

Record GemRule := { gem_prob : num; gem_count : num }.

Definition gemExpertRule (level : num) : GemRule :=
  if Num.eqb level (Num.ofZ 1) then
    {| gem_prob := Num.decimal 3 2; gem_count := Num.ofZ 1 |}
  else if Num.eqb level (Num.ofZ 2) then
    {| gem_prob := Num.decimal 7 2; gem_count := Num.ofZ 1 |}
  else if Num.eqb level (Num.ofZ 3) then
    {| gem_prob := Num.decimal 10 2; gem_count := Num.ofZ 2 |}
  else {| gem_prob := Num.zero; gem_count := Num.zero |}.

Record FlameRule := { flame_prob : num; flame_ingots : num }.

Definition flamingPickRule (level : num) : FlameRule :=
  if negb (Num.isFinite level) || (level <=? Num.zero)%num then
    {| flame_prob := Num.zero; flame_ingots := Num.ofZ 1 |}
  else if (Num.ofZ 10 <=? level)%num then
    {| flame_prob := Num.decimal 15 2; flame_ingots := Num.ofZ 1 |}
  else {| flame_prob := (level / Num.ofZ 100)%num; flame_ingots := Num.ofZ 1 |}.

(** ** Expected value breakdown *)

Record EVInput := {
  staminaPerDig : num;
  shardsPerDig : num;
  shardsPerIngot : num;
  ingotGrossPrice : num;
  gemDropProb : num;
  gemDropCount : num;
  gemGrossPrice : num;
  flamingIngotProb : num;
  sellFeeRate : num
}.

Record EVBreakdown := {
  pFlame : num;
  ev_staminaPerDig : num;
  ev_shardsPerIngot : num;
  ingotNet : num;
  gemNet : num;
  ingotFromShardsPerDig : num;
  ingotFromShardsValuePerDig : num;
  ingotFromFlamePerDig : num;
  ingotFromFlameValuePerDig : num;
  gemValuePerDig : num;
  totalPerDig : num;
  totalPerStamina : num
}.

Definition miningEVBreakdown (i : EVInput) : EVBreakdown :=
  let spd := Num.max (Num.ofZ 1) (staminaPerDig i) in
  let spi := Num.max (Num.ofZ 1) (shardsPerIngot i) in
  let p := clamp01 (flamingIngotProb i) in
  let ingotNet := netSell (Num.max Num.zero (ingotGrossPrice i)) (sellFeeRate i) in
  let gemNet := netSell (Num.max Num.zero (gemGrossPrice i)) (sellFeeRate i) in
  let ingotFromShardsPerDig :=
    ((Num.ofZ 1 - p) * (Num.max Num.zero (shardsPerDig i) / spi))%num in
  let ingotFromShardsValuePerDig := (ingotFromShardsPerDig * ingotNet)%num in
  let ingotFromFlamePerDig := (p * Num.ofZ 1)%num in
  let ingotFromFlameValuePerDig := (ingotFromFlamePerDig * ingotNet)%num in
  let gemValuePerDig :=
    (clamp01 (gemDropProb i) * Num.max Num.zero (gemDropCount i) * gemNet)%num in
  let totalPerDig :=
    (ingotFromShardsValuePerDig + ingotFromFlameValuePerDig + gemValuePerDig)%num in
  let totalPerStamina := (totalPerDig / spd)%num in
  {| pFlame := p;
     ev_staminaPerDig := spd;
     ev_shardsPerIngot := spi;
     ingotNet := ingotNet;
     gemNet := gemNet;
     ingotFromShardsPerDig := ingotFromShardsPerDig;
     ingotFromShardsValuePerDig := ingotFromShardsValuePerDig;
     ingotFromFlamePerDig := ingotFromFlamePerDig;
     ingotFromFlameValuePerDig := ingotFromFlameValuePerDig;
     gemValuePerDig := gemValuePerDig;
     totalPerDig := totalPerDig;
     totalPerStamina := totalPerStamina |}.

(** ** JavaScript values *)

Local Open Scope string_scope.

Inductive value : Type :=
| VUndef
| VNull
| VBool (b : bool)
| VNum (n : num)
| VStr (s : string)
| VArr (l : list value)
| VObj (o : list (string * value)).

(** The own enumerable properties of an object, in insertion order. *)
Abbreviation obj := (list (string * value)).

Module Obj.
Section Props.
Context {A : Type}.

Fixpoint own (o : list (string * A)) (k : string) : option A :=
  match o with
  | [] => None
  | (k', v) :: o' => if String.eqb k' k then Some v else own o' k
  end.

(** [o[k] = v]: an existing property keeps its place, a new one is
    added last. *)
Fixpoint assign (k : string) (v : A) (o : list (string * A)) : list (string * A) :=
  match o with
  | [] => [(k, v)]
  | (k', v') :: o' =>
      if String.eqb k' k then (k', v) :: o' else (k', v') :: assign k v o'
  end.

Definition keys (o : list (string * A)) : list string := map fst o.

Definition has (o : list (string * A)) (k : string) : bool :=
  match own o k with Some _ => true | None => false end.
End Props.
End Obj.

(** [o[k]], [undefined] when [o] has no such property. *)
Definition prop (o : obj) (k : string) : value :=
  match Obj.own o k with
  | Some v => v
  | None => VUndef
  end.

(** [v.k] for a non-nullish [v] and a key that is neither an index nor a
    built-in property: only an object has it. *)
Definition member (v : value) (k : string) : value :=
  match v with
  | VObj o => prop o k
  | _ => VUndef
  end.

(** [v.k = x] on an object. *)
Definition setMember (v : value) (k : string) (x : value) : value :=
  match v with
  | VObj o => VObj (Obj.assign k x o)
  | _ => v
  end.

Definition nullish (v : value) : bool :=
  match v with
  | VUndef | VNull => true
  | _ => false
  end.

(** [a ?? b] *)
Definition coalesce (a b : value) : value := if nullish a then b else a.

Definition truthy (v : value) : bool :=
  match v with
  | VUndef | VNull => false
  | VBool b => b
  | VNum n => Num.truthy n
  | VStr s => negb (String.eqb s "")
  | VArr _ | VObj _ => true
  end.

(** [a || b] *)
Definition orElse (a b : value) : value := if truthy a then a else b.

(** The key of the array index [i]. *)
Definition indexKey (i : nat) : string := NilEmpty.string_of_uint (Nat.to_uint i).

Fixpoint indexed {A : Type} (i : nat) (l : list A) : list (string * A) :=
  match l with
  | [] => []
  | x :: l' => (indexKey i, x) :: indexed (S i) l'
  end.

Fixpoint chars (s : string) : list value :=
  match s with
  | EmptyString => []
  | String c s' => VStr (String c EmptyString) :: chars s'
  end.

(** [Object.entries(v)] for a non-nullish [v]; also what [{...v}] copies. *)
Definition ownEntries (v : value) : obj :=
  match v with
  | VObj o => o
  | VArr l => indexed 0 l
  | VStr s => indexed 0 (chars s)
  | _ => []
  end.

(** [{...out, ...src}] *)
Definition spread (src : value) (out : obj) : obj :=
  fold_left (fun o kv => Obj.assign (fst kv) (snd kv) o) (ownEntries src) out.

(** ** Numeric input normaliser *)

Definition isSpace (c : ascii) : bool :=
  match nat_of_ascii c with
  | 9%nat | 10%nat | 11%nat | 12%nat | 13%nat | 32%nat | 160%nat => true
  | _ => false
  end.

Fixpoint trimStart (s : string) : string :=
  match s with
  | EmptyString => EmptyString
  | String c s' => if isSpace c then trimStart s' else s
  end.

Fixpoint trimEnd (s : string) : string :=
  match s with
  | EmptyString => EmptyString
  | String c s' =>
      match trimEnd s' with
      | EmptyString => if isSpace c then EmptyString else String c EmptyString
      | t => String c t
      end
  end.

(** [s.trim()] *)
Definition trim (s : string) : string := trimEnd (trimStart s).

Section Normaliser.

(** [Number(t)] on a string. *)
Variable Number_str : string -> num.

Definition toNum (v : value) (fallback : num) : num :=
  match v with
  | VNum n => if Num.isFinite n then n else fallback
  | VStr s =>
      let t := trim s in
      if String.eqb t "" then fallback
      else if String.eqb t "-" || String.eqb t "." || String.eqb t "-." then fallback
      else
        let n := Number_str t in
        if Num.isFinite n then n else fallback
  | _ => fallback
  end.

(** The sell-fee rate of the root component, from the stored [feePct]. *)
Definition feeRate (s : obj) : num :=
  let v := (toNum (prop s "feePct") Num.zero / Num.ofZ 100)%num in
  Num.max Num.zero (Num.min (Num.decimal 5 1) v).

End Normaliser.

(** ** Deep merge and state migration *)

Definition isPlainObject (x : value) : bool :=
  match x with
  | VObj _ => true
  | _ => false
  end.

(** [deepMerge(base, patch)].  The assignment [out[k] = v] is that of an
    ordinary data property.  This is the source for a patch that has no key
    [__proto__] (there the source calls the prototype setter), as every
    [parsed] document is; the result is given by its own properties, and
    nothing is modelled of the order in which JavaScript lists them. *)
Fixpoint deepMerge (base patch : value) {struct patch} : value :=
  match base, patch with
  | VObj b, VObj p =>
      VObj
        ((fix loop (out : obj) (entries : obj) {struct entries} : obj :=
            match entries with
            | [] => out
            | (k, v) :: rest =>
                loop
                  (Obj.assign k
                     (if isPlainObject (prop out k) && isPlainObject v
                      then deepMerge (prop out k) v
                      else v)
                     out)
                  rest
            end) b p)
  | _, _ => coalesce patch base
  end.

(** The value that one round of the loop of [deepMerge] stores, for the
    present value [b] of the property and the patch value [v]. *)
Definition mergeValue (b v : value) : value :=
  if isPlainObject b && isPlainObject v then deepMerge b v else v.

(** One round of the loop of [deepMerge]: [out[k] = ...]. *)
Definition mergeProp (out : obj) (k : string) (v : value) : obj :=
  Obj.assign k (mergeValue (prop out k) v) out.

(** The loop of [deepMerge] over [Object.entries(patch)]. *)
Fixpoint mergeEntries (out : obj) (entries : obj) : obj :=
  match entries with
  | [] => out
  | (k, v) :: rest => mergeEntries (mergeProp out k v) rest
  end.

Fixpoint joinWith (sep : string) (parts : list string) : string :=
  match parts with
  | [] => ""
  | [s] => s
  | s :: rest => s ++ sep ++ joinWith sep rest
  end.

Fixpoint sequence {A : Type} (l : list (option A)) : option (list A) :=
  match l with
  | [] => Some []
  | None :: _ => None
  | Some x :: l' =>
      match sequence l' with
      | Some xs => Some (x :: xs)
      | None => None
      end
  end.

(** A step that may throw; [None] is the exception. *)
Notation "x <- e ;; k" :=
  (match e with Some x => k | None => None end)
  (at level 61, e at next level, right associativity).

Section Migration.

(** [String(n)] on a number. *)
Variable String_num : num -> string.

(** [String(v)].  [None] is the TypeError of the conversion of an object to
    a primitive: an own property [toString] of a parsed document is not
    callable and hides [Object.prototype.toString], and [valueOf] returns
    the object itself.  An array joins the strings of its elements, the
    empty string standing for [null] and [undefined]. *)
Fixpoint toString (v : value) : option string :=
  match v with
  | VUndef => Some "undefined"
  | VNull => Some "null"
  | VBool b => Some (if b then "true" else "false")
  | VNum n => Some (String_num n)
  | VStr s => Some s
  | VArr l =>
      option_map (joinWith ",")
        (sequence
           (map (fun e => if nullish e then Some "" else toString e) l))
  | VObj o => if Obj.has o "toString" then None else Some "[object Object]"
  end.

(** The loop of the step v1 -> v2 over [Object.entries(oldPrices)]. *)
Fixpoint normalizePrices (entries : obj) (normalized : obj) : option obj :=
  match entries with
  | [] => Some normalized
  | (k, v) :: rest =>
      let text :=
        if isPlainObject v then
          let market :=
            coalesce
              (coalesce (coalesce (member v "market") (member v "grossSell"))
                 (member v "buy"))
              (VNum Num.zero) in
          toString (coalesce market (VStr ""))
        else toString (coalesce v (VStr "")) in
      match text with
      | Some t =>
          normalizePrices rest
            (Obj.assign k (VObj [("market", VStr t)]) normalized)
      | None => None
      end
  end.

Definition potionRowDetailsClosed : obj :=
  [ ("p100", VBool false); ("p300", VBool false);
    ("p500", VBool false); ("p700", VBool false) ].

Definition emptyFeedbacks : obj :=
  [ ("nextId", VNum (Num.ofZ 1)); ("items", VArr []) ].

(** v0 -> v1: the open state of the potion rows. *)
Definition migrate_v0_v1 (s : value) : value :=
  VObj
    (Obj.assign "potionRowDetailsOpen"
       (VObj
          (spread (orElse (member s "potionRowDetailsOpen") (VObj []))
             potionRowDetailsClosed))
       (spread s [])).

(** v1 -> v2: a price entry [{grossSell, buy}] becomes [{market}]. *)
Definition migrate_v1_v2 (defaults : obj) (s : value) : option value :=
  let oldPrices := orElse (member s "prices") (VObj []) in
  normalized <- normalizePrices (ownEntries oldPrices) [] ;;
  Some
    (VObj
       (Obj.assign "prices"
          (deepMerge (prop defaults "prices") (VObj normalized))
          (spread s []))).

(** v2 -> v3: the feedback list. *)
Definition migrate_v2_v3 (s : value) : value :=
  VObj
    (Obj.assign "feedbacks"
       (VObj
          (spread (orElse (member s "feedbacks") (VObj [])) emptyFeedbacks))
       (spread s [])).

(** v3 -> v4: the admin mode. *)
Definition migrate_v3_v4 (s : value) : value :=
  VObj (Obj.assign "adminMode" (VBool false) (spread s [])).

Definition migrateState (raw : value) (defaults : obj) : option value :=
  let incoming := if isPlainObject raw then raw else VObj [] in
  let incomingVer :=
    match member incoming "schemaVersion" with
    | VNum n => if Num.isFinite n then n else Num.zero
    | _ => Num.zero
    end in
  let s := deepMerge (VObj defaults) incoming in
  let s := if (incomingVer <? Num.ofZ 1)%num then migrate_v0_v1 s else s in
  s <- (if (incomingVer <? Num.ofZ 2)%num then migrate_v1_v2 defaults s
        else Some s) ;;
  let s := if (incomingVer <? Num.ofZ 3)%num then migrate_v2_v3 s else s in
  let s := if (incomingVer <? Num.ofZ 4)%num then migrate_v3_v4 s else s in
  Some (setMember s "schemaVersion" (prop defaults "schemaVersion")).

(** The initialiser of [useLocalStorageState], after [JSON.parse]: a
    failed migration is caught and the initial value is kept. *)
Definition loadState (parsed : value) (initialValue : obj) : value :=
  match migrateState parsed initialValue with
  | Some s => s
  | None => VObj initialValue
  end.

End Migration.

(** ** Application state *)

Definition price (p : string) : value := VObj [("market", VStr p)].

Definition qty (n : Z) : value := VNum (Num.ofZ n).

Definition defaultState : obj :=
  [ ("schemaVersion", VNum (Num.ofZ 4));
    ("activeMenu", VStr "potion");
    ("feePct", VStr "5");
    ("themeMode", VStr "light");
    ("sageEnhLevel", VNum (Num.ofZ 15));
    ("gemExpertLevel", VNum (Num.ofZ 3));
    ("flamingPickLevel", VNum (Num.ofZ 0));
    ("staminaPerDig", VStr "10");
    ("shardsPerIngot", VStr "16");
    ("ingotGrossPrice", VStr "6000");
    ("gemGrossPrice", VStr "12000");
    ("potionPrices",
      VObj [ ("p100", VStr "14000"); ("p300", VStr "70000");
             ("p500", VStr "160000"); ("p700", VStr "210000") ]);
    ("potionRowDetailsOpen",
      VObj [ ("p100", VBool false); ("p300", VBool false);
             ("p500", VBool false); ("p700", VBool false) ]);
    ("abilityGrossSell", VStr "18000");
    ("lifeGrossSell",
      VObj [ ("low", VStr "9000"); ("mid", VStr "30000"); ("high", VStr "60000") ]);
    ("prices",
      VObj [ ("ingot", price "6000"); ("stone", price "773");
             ("deepCobble", price "281"); ("redstone", price "97");
             ("copper", price "100"); ("diamond", price "2900");
             ("iron", price "700"); ("lapis", price "100");
             ("gold", price "570"); ("amethyst", price "78") ]);
    ("modes",
      VObj [ ("ingot", VStr "opportunity"); ("stone", VStr "owned");
             ("deepCobble", VStr "owned"); ("redstone", VStr "owned");
             ("copper", VStr "owned"); ("diamond", VStr "buy");
             ("iron", VStr "owned"); ("lapis", VStr "owned");
             ("gold", VStr "owned"); ("amethyst", VStr "owned") ]);
    ("recipes",
      VObj [ ("ability", VObj [ ("ingot", qty 3) ]);
             ("low", VObj [ ("ingot", qty 1); ("stone", qty 2);
                            ("redstone", qty 3); ("copper", qty 8) ]);
             ("mid", VObj [ ("ingot", qty 2); ("deepCobble", qty 2);
                            ("diamond", qty 3); ("iron", qty 5); ("lapis", qty 5) ]);
             ("high", VObj [ ("ingot", qty 3); ("diamond", qty 5); ("gold", qty 7);
                             ("iron", qty 7); ("amethyst", qty 20);
                             ("copper", qty 30) ]) ]);
    ("feedbacks", VObj [ ("nextId", VNum (Num.ofZ 1)); ("items", VArr []) ]);
    ("adminMode", VBool false) ].

(** ** Crafting profit *)

Definition unitCostByMode (mode : string) (marketPrice feeRate : num) : num :=
  if String.eqb mode "owned" then Num.zero
  else if String.eqb mode "buy" then Num.max Num.zero marketPrice
  else netSell (Num.max Num.zero marketPrice) feeRate.

Record Cost := {
  cost_key : string;
  cost_qty : num;
  cost_unitCost : num;
  cost_mode : string;
  cost_market : num
}.

(** [x || 0] on a number. *)
Definition orZero (x : num) : num := if Num.truthy x then x else Num.zero.

Record Profit := { revenue : num; totalCost : num; profit : num }.

Definition craftProfit (productGrossSellPrice feeRate : num) (costs : list Cost)
  : Profit :=
  let revenue := netSell (Num.max Num.zero productGrossSellPrice) feeRate in
  let totalCost :=
    fold_left
      (fun acc c => (acc + orZero (cost_unitCost c) * orZero (cost_qty c))%num)
      costs Num.zero in
  {| revenue := revenue; totalCost := totalCost;
     profit := (revenue - totalCost)%num |}.

Record Craft := {
  craft_profit : Profit;
  craft_costs : list Cost;
  craft_buyList : list (string * num)
}.

Section Comparator.

Variable Number_str : string -> num.

(** The supply modes [s.modes], the prices [s.prices] and the fee rate
    that [compare] closes over; a recipe maps a resource to a quantity. *)
Variable modes : list (string * string).
Variable prices : obj.
Variable feeRate : num.

(** [s.modes[k] || "owned"] *)
Definition modeOf (k : string) : string :=
  match Obj.own modes k with
  | Some m => if String.eqb m "" then "owned" else m
  | None => "owned"
  end.

(** [toNum(s.prices[k]?.market ?? 0)] *)
Definition marketOf (k : string) : num :=
  let entry := prop prices k in
  toNum Number_str
    (coalesce (if nullish entry then VUndef else member entry "market")
       (VNum Num.zero))
    Num.zero.

Definition sellIndivNet (recipe : list (string * num)) : num :=
  sum
    (map
       (fun kq =>
          let mode := modeOf (fst kq) in
          if String.eqb mode "buy" then Num.zero
          else
            let market := marketOf (fst kq) in
            (orZero (snd kq) * netSell market feeRate)%num)
       recipe).

Definition craft (productGrossPrice : value) (recipe : list (string * num))
  : Craft :=
  let costs :=
    map
      (fun kq =>
         let mode := modeOf (fst kq) in
         let market := marketOf (fst kq) in
         let unitCost := unitCostByMode mode market feeRate in
         {| cost_key := fst kq; cost_qty := orZero (snd kq);
            cost_unitCost := unitCost; cost_mode := mode;
            cost_market := market |})
      recipe in
  let buyList :=
    map (fun c => (cost_key c, orZero (cost_qty c)))
      (filter (fun c => String.eqb (cost_mode c) "buy") costs) in
  {| craft_profit :=
       craftProfit (toNum Number_str productGrossPrice Num.zero) feeRate costs;
     craft_costs := costs;
     craft_buyList := buyList |}.

(** The row of the comparison table: crafting is shown as the better
    choice when [x.profit - x.sellIndivNet >= 0]. *)
Definition craftingFavoured (productGrossPrice : value)
    (recipe : list (string * num)) : bool :=
  let x := craft productGrossPrice recipe in
  (Num.zero <=? profit (craft_profit x) - sellIndivNet recipe)%num.

End Comparator.

(** ** Further functions of the application *)

(** [x > y] on numbers. *)
Definition gtb (x y : num) : bool := Num.ltb y x.

(** [Number.isFinite(v)] on a value, with the number. *)
Definition finiteNumber (v : value) : option num :=
  match v with
  | VNum n => if Num.isFinite n then Some n else None
  | _ => None
  end.

Section Fields.

Variable Number_str : string -> num.
Variable String_num : num -> string.

(** The number [v] that [sanitizeOnBlur] of [Field] reaches for the text
    [value] and the bounds [min] and [max] of the field; [None] when the
    text is no finite number. *)
Definition blurNumber (value min max : value) : option num :=
  let n := toNum Number_str value Num.NaN in
  if negb (Num.isFinite n) then None
  else
    let v := n in
    let v := match finiteNumber min with Some lo => Num.max lo v | None => v end in
    let v := match finiteNumber max with Some hi => Num.min hi v | None => v end in
    Some v.

(** The text that [sanitizeOnBlur] hands to [onChange]. *)
Definition sanitizeOnBlur (value min max : value) : string :=
  match blurNumber value min max with
  | None => ""
  | Some v => String_num v
  end.

(** The input of [miningEVBreakdown] that the potion page and the ingot
    page build from the state [s], the shard count, the two rules and the
    fee rate. *)
Definition pageEVInput (s : obj) (shards : num) (gemRule : GemRule)
    (flameRule : FlameRule) (fee : num) : EVInput :=
  {| staminaPerDig := toNum Number_str (prop s "staminaPerDig") (Num.ofZ 10);
     shardsPerDig := shards;
     shardsPerIngot := toNum Number_str (prop s "shardsPerIngot") (Num.ofZ 16);
     ingotGrossPrice := toNum Number_str (prop s "ingotGrossPrice") Num.zero;
     gemDropProb := gem_prob gemRule;
     gemDropCount := gem_count gemRule;
     gemGrossPrice := toNum Number_str (prop s "gemGrossPrice") Num.zero;
     flamingIngotProb := flame_prob flameRule;
     sellFeeRate := fee |}.

End Fields.

(** *** The potion page *)

(** A row of the potion table; the label of the row is left out. *)
Record PotionRow := {
  row_key : string;
  row_stamina : num;
  row_cost : num;
  row_revenue : num;
  row_profit : num
}.

Section Potions.

Variable Number_str : string -> num.

(** [results.rows] for [p = s.potionPrices] and [ev.totalPerStamina].
    Reading [p.p100] of [null] or [undefined] throws a TypeError, which is
    [None]; any other value that is no object has no such property. *)
Definition potionRows (p : value) (totalPerStamina : num)
  : option (list PotionRow) :=
  if nullish p then None
  else
    Some
      (map
         (fun r : string * num * num =>
            let '(key, stamina, cost) := r in
            let revenue := (totalPerStamina * stamina)%num in
            let profit := (revenue - cost)%num in
            {| row_key := key; row_stamina := stamina; row_cost := cost;
               row_revenue := revenue; row_profit := profit |})
         [ ("p100", Num.ofZ 100, toNum Number_str (member p "p100") Num.zero);
           ("p300", Num.ofZ 300, toNum Number_str (member p "p300") Num.zero);
           ("p500", Num.ofZ 500, toNum Number_str (member p "p500") Num.zero);
           ("p700", Num.ofZ 700, toNum Number_str (member p "p700") Num.zero) ]).

End Potions.

(** [rows.reduce((acc, cur) => (cur.profit > acc.profit ? cur : acc), rows[0])];
    [None] is the [undefined] of an empty list. *)
Definition bestRow (rows : list PotionRow) : option PotionRow :=
  match rows with
  | [] => None
  | first :: _ =>
      Some
        (fold_left
           (fun acc cur => if gtb (row_profit cur) (row_profit acc) then cur else acc)
           rows first)
  end.

(** [results.best] of the potion page. *)
Definition potionBest (Number_str : string -> num) (p : value)
    (totalPerStamina : num) : option PotionRow :=
  rows <- potionRows Number_str p totalPerStamina ;;
  bestRow rows.

(** [toggleRow(key)] of the potion page, as the update of the state [p]. *)
Definition toggleRow (key : string) (p : value) : value :=
  let details := member p "potionRowDetailsOpen" in
  let flag := if nullish details then VUndef else member details key in
  VObj
    (Obj.assign "potionRowDetailsOpen"
       (VObj (Obj.assign key (VBool (negb (truthy flag))) (spread details [])))
       (spread p [])).

(** *** Supply modes on the profile page *)

Definition materialKeysForUI : list string :=
  [ "ingot"; "diamond"; "gold"; "iron"; "lapis"; "amethyst"; "copper";
    "redstone"; "stone"; "deepCobble" ].

(** [{...o}] for an object whose values have one type. *)
Definition copyOf {A : Type} (o : list (string * A)) : list (string * A) :=
  fold_left (fun acc kv => Obj.assign (fst kv) (snd kv) acc) o [].

(** The modes after the bulk choice [v] of the profile page: ["custom"]
    changes nothing, ["all_buy"] sets every listed material to buy and any
    other choice sets them to owned. *)
Definition applyModePreset (v : string) (modes : list (string * string))
  : list (string * string) :=
  if String.eqb v "custom" then modes
  else
    let mode := if String.eqb v "all_buy" then "buy" else "owned" in
    fold_left (fun acc key => Obj.assign key mode (copyOf acc))
      materialKeysForUI (copyOf modes).

(** The mode that the mode select of a material stores for the option
    [v]. *)
Definition modeOfChoice (v : num) : string :=
  if Num.eqb v Num.zero then "owned"
  else if Num.eqb v (Num.ofZ 1) then "buy"
  else "opportunity".

(** The option that the mode select of the material [k] shows. *)
Definition choiceOfMode (modes : list (string * string)) (k : string) : num :=
  match Obj.own modes k with
  | Some m =>
      if String.eqb m "owned" || String.eqb m "opportunity" || String.eqb m "buy"
      then
        if String.eqb m "owned" then Num.zero
        else if String.eqb m "buy" then Num.ofZ 1
        else Num.ofZ 2
      else Num.zero
  | None => Num.zero
  end.

(** [{...p.modes, [k]: mode}] of the mode select. *)
Definition setMode (modes : list (string * string)) (k : string) (v : num)
  : list (string * string) :=
  Obj.assign k (modeOfChoice v) (copyOf modes).

(** *** The shared price document *)

(** The update of the state [p] by a snapshot [data] of the shared price
    document: each of the six price fields is taken from the snapshot when
    it is there, and kept otherwise. *)
Definition applyPriceSnapshot (data : obj) (p : value) : value :=
  let field := fun (k : string) (o : obj) =>
    Obj.assign k (coalesce (prop data k) (member p k)) o in
  VObj
    (field "potionPrices"
       (field "lifeGrossSell"
          (field "abilityGrossSell"
             (field "prices"
                (field "gemGrossPrice"
                   (field "ingotGrossPrice" (spread p []))))))).

Definition sharedPriceKeys : list string :=
  [ "ingotGrossPrice"; "gemGrossPrice"; "prices"; "abilityGrossSell";
    "lifeGrossSell"; "potionPrices" ].

(** The schema version that [migrateState] reads from the raw document:
    0 unless the document is a plain object whose [schemaVersion] is a
    finite number. *)
Definition incomingVersion (raw : value) : num :=
  let incoming := if isPlainObject raw then raw else VObj [] in
  match member incoming "schemaVersion" with
  | VNum n => if Num.isFinite n then n else Num.zero
  | _ => Num.zero
  end.

(** The object that [migrateState] merges into the defaults. *)
Definition incomingOf (raw : value) : value :=
  if isPlainObject raw then raw else VObj [].

(** A price entry that holds a market text and nothing else. *)
Definition marketOnly (v : value) : Prop :=
  exists t, v = VObj [ ("market", VStr t) ].

(** The keys that the steps of [migrateState] assign. *)
Definition migratedKeys : list string :=
  [ "potionRowDetailsOpen"; "prices"; "feedbacks"; "adminMode"; "schemaVersion" ].

(** [r] has no key twice and agrees with [r0] outside the keys that the
    migration steps assign. *)
Definition untouched (r0 r : obj) : Prop :=
  NoDup (Obj.keys r) /\
  forall k, ~ In k migratedKeys -> Obj.own r k = Obj.own r0 k.

(** The text of a price entry [v] in the step v1 -> v2. *)
Definition priceText (String_num : num -> string) (v : value) : option string :=
  if isPlainObject v then
    toString String_num
      (coalesce
         (coalesce
            (coalesce (coalesce (member v "market") (member v "grossSell"))
               (member v "buy"))
            (VNum Num.zero))
         (VStr ""))
  else toString String_num (coalesce v (VStr "")).

(** The order of the numbers other than NaN: the class of the number, then
    exponent and mantissa. *)
Definition rank (x : num) : Z * Z * Z :=
  match x with
  | S754_infinity true => (-2, 0, 0)
  | S754_finite true m e => (-1, - e, Zneg m)
  | S754_zero _ => (0, 0, 0)
  | S754_nan => (0, 0, 0)
  | S754_finite false m e => (1, e, Zpos m)
  | S754_infinity false => (2, 0, 0)
  end.

Definition rankCompare (a b : Z * Z * Z) : comparison :=
  let '(a1, a2, a3) := a in
  let '(b1, b2, b3) := b in
  match Z.compare a1 b1 with
  | Eq => match Z.compare a2 b2 with
          | Eq => Z.compare a3 b3
          | c => c
          end
  | c => c
  end.

(** Hypotheses and goals about [rankCompare] become linear arithmetic. *)
Ltac rank_cases :=
  unfold rankCompare in *;
  repeat match goal with
         | t : (Z * Z * Z)%type |- _ => destruct t as [[? ?] ?]
         end;
  repeat (match goal with
          | H : context [Z.compare ?a ?b] |- _ => destruct (Z.compare_spec a b)
          | |- context [Z.compare ?a ?b] => destruct (Z.compare_spec a b)
          end; cbv iota in *);
  try congruence; try lia.

(** ** Well-formed documents *)

Fixpoint distinct (ks : list string) : bool :=
  match ks with
  | [] => true
  | k :: ks' => negb (existsb (String.eqb k) ks') && distinct ks'
  end.

(** A value as [JSON.parse] returns it: no [undefined] inside, the keys of
    an object pairwise distinct and none of them the accessor [__proto__]. *)
Fixpoint parsed (v : value) : bool :=
  match v with
  | VUndef => false
  | VNull | VBool _ | VNum _ | VStr _ => true
  | VArr l => forallb parsed l
  | VObj o =>
      distinct (map fst o)
      && negb (existsb (String.eqb "__proto__") (map fst o))
      && forallb (fun kv => parsed (snd kv)) o
  end.

(** The raw input of the migration: a parsed document, or [undefined]. *)
Definition wellFormed (raw : value) : bool :=
  match raw with
  | VUndef => true
  | _ => parsed raw
  end.

(** No object inside [v] has an own property [toString]. *)
Fixpoint printable (v : value) : bool :=
  match v with
  | VArr l => forallb printable l
  | VObj o =>
      negb (Obj.has o "toString") && forallb (fun kv => printable (snd kv)) o
  | _ => true
  end.

(** The keys of every object inside [v] are pairwise distinct. *)
Fixpoint distinctKeys (v : value) : bool :=
  match v with
  | VArr l => forallb distinctKeys l
  | VObj o =>
      distinct (map fst o) && forallb (fun kv => distinctKeys (snd kv)) o
  | _ => true
  end.

(** [s] starts with the keys of [d], has no key twice, and each of its
    values under a key of [d] is kept when it is merged into the value of
    [d]: merging [s] into [d] gives [s] again. *)
Definition absorbedBy (d s : obj) : Prop :=
  NoDup (Obj.keys s) /\
  (exists ext, Obj.keys s = Obj.keys d ++ ext)%list /\
  (forall k bv rv, Obj.own d k = Some bv -> Obj.own s k = Some rv ->
                   mergeValue bv rv = rv).

(** Every property of [d] is a property of [s], and not [undefined]. *)
Definition definedOn (d s : obj) : Prop :=
  forall k, Obj.has d k = true -> Obj.has s k = true /\ prop s k <> VUndef.

(** The invariant of the migration steps against [defaultState]. *)
Definition kept (r : obj) : Prop :=
  absorbedBy defaultState r /\ definedOn defaultState r.

Definition isUndefined (v : value) : bool :=
  match v with
  | VUndef => true
  | _ => false
  end.

(** Every field of [d] is a field of [m], at any depth: where [d] and [m]
    both hold a plain object, every property of [d] is a property of [m],
    not [undefined], and holds in turn every field of the property of
    [d].  Nothing is asked where [m] holds something else than a plain
    object. *)
Fixpoint covers (d m : value) {struct d} : bool :=
  match d with
  | VObj ds =>
      if isPlainObject m then
        forallb
          (fun kv =>
             negb (isUndefined (member m (fst kv)))
             && covers (snd kv) (member m (fst kv)))
          ds
      else true
  | _ => true
  end.

(** The group [g] of the document [m] is a plain object that has every
    field of the group [g] of the defaults. *)
Definition groupPresent (g : string) (m : value) : Prop :=
  isPlainObject (member m g) = true /\
  forall k, Obj.has (ownEntries (prop defaultState g)) k = true ->
            member (member m g) k <> VUndef.

(** Induction on a value, with the hypothesis for every element of an
    array and every property value of an object. *)
Section ValueInduction.

Variable P : value -> Prop.
Hypothesis HUndef : P VUndef.
Hypothesis HNull : P VNull.
Hypothesis HBool : forall b, P (VBool b).
Hypothesis HNum : forall n, P (VNum n).
Hypothesis HStr : forall s, P (VStr s).
Hypothesis HArr : forall l, Forall P l -> P (VArr l).
Hypothesis HObj : forall o, Forall (fun kv => P (snd kv)) o -> P (VObj o).

Fixpoint value_induction (v : value) : P v :=
  match v with
  | VUndef => HUndef
  | VNull => HNull
  | VBool b => HBool b
  | VNum n => HNum n
  | VStr s => HStr s
  | VArr l =>
      HArr l
        ((fix elements (l : list value) : Forall P l :=
            match l with
            | [] => Forall_nil P
            | x :: l' => Forall_cons x (value_induction x) (elements l')
            end) l)
  | VObj o =>
      HObj o
        ((fix properties (o : obj) : Forall (fun kv => P (snd kv)) o :=
            match o with
            | [] => Forall_nil _
            | kv :: o' =>
                Forall_cons kv
                  (match kv as p return P (snd p) with
                   | (_, x) => value_induction x
                   end)
                  (properties o')
            end) o)
  end.

End ValueInduction.

(** ** The scenarios of the specification *)

(** Enhancement level 15, fire-skill level 10, stamina 10 per action, 16
    shards per ingot, ingot price 6000, fee rate 0.05; the gem inputs are
    free. *)
Definition scenarioEV (gemProb gemCount gemPrice : num) : EVInput :=
  {| staminaPerDig := Num.ofZ 10;
     shardsPerDig := shardsPerDigOf 15;
     shardsPerIngot := Num.ofZ 16;
     ingotGrossPrice := Num.ofZ 6000;
     gemDropProb := gemProb;
     gemDropCount := gemCount;
     gemGrossPrice := gemPrice;
     flamingIngotProb := flame_prob (flamingPickRule (Num.ofZ 10));
     sellFeeRate := Num.decimal 5 2 |}.

(** The ingot value of one action: the first two summands of [totalPerDig]. *)
Definition ingotValuePerDig (r : EVBreakdown) : num :=
  (ingotFromShardsValuePerDig r + ingotFromFlameValuePerDig r)%num.

(** A recipe of 3 units of one resource at market price 6000 in mode
    opportunity. *)
Definition scenarioModes : list (string * string) := [ ("ingot", "opportunity") ].
Definition scenarioPrices : obj := [ ("ingot", VObj [ ("market", VNum (Num.ofZ 6000)) ]) ].
Definition scenarioRecipe : list (string * num) := [ ("ingot", Num.ofZ 3) ].

(** A stored document of the first schema: no [schemaVersion], a fee, and a
    price in the old shape [{grossSell, buy}]. *)
Definition legacyDocument : value :=
  VObj [ ("feePct", VStr "3");
         ("prices",
           VObj [ ("ingot", VObj [ ("grossSell", VStr "5500");
                                   ("buy", VStr "6100") ]) ]) ].

(** A parsed document whose ingot price holds an object with an own
    property [toString]. *)
Definition unprintableDocument : value :=
  VObj [ ("prices",
           VObj [ ("ingot",
                    VObj [ ("market", VObj [ ("toString", VNum (Num.ofZ 1)) ]) ]) ]) ].

(** A stand-in for [String(n)] where the conversion of numbers plays no
    part. *)
Definition anyStringOfNumber (n : num) : string := "0".

(** Two inputs that differ at most in the replacement probability. *)
Definition sameButFlame (i j : EVInput) : Prop :=
  staminaPerDig i = staminaPerDig j /\
  shardsPerDig i = shardsPerDig j /\
  shardsPerIngot i = shardsPerIngot j /\
  ingotGrossPrice i = ingotGrossPrice j /\
  gemDropProb i = gemDropProb j /\
  gemDropCount i = gemDropCount j /\
  gemGrossPrice i = gemGrossPrice j /\
  sellFeeRate i = sellFeeRate j.

(** * Properties *)

Local Open Scope list_scope.

(** ** The definitions on small inputs *)

Example shards_at_level_15 : shardsPerDigOf 15 = Num.ofZ 12.
Proof. reflexivity. Qed.

Example shards_outside_the_table : shardsPerDigOf 4 = Num.zero.
Proof. reflexivity. Qed.

Example flame_at_level_5 :
  flame_prob (flamingPickRule (Num.ofZ 5)) = Num.decimal 5 2.
Proof. vm_compute; reflexivity. Qed.

Example flame_at_level_10 :
  flame_prob (flamingPickRule (Num.ofZ 10)) = Num.decimal 15 2.
Proof. vm_compute; reflexivity. Qed.

Example gem_at_level_3 :
  gemExpertRule (Num.ofZ 3)
  = {| gem_prob := Num.decimal 10 2; gem_count := Num.ofZ 2 |}.
Proof. vm_compute; reflexivity. Qed.

Example clamp01_above : clamp01 (Num.ofZ 7) = Num.ofZ 1.
Proof. vm_compute; reflexivity. Qed.

Example clamp01_nan : clamp01 Num.NaN = Num.zero.
Proof. reflexivity. Qed.

Example trim_spaces : trim "  12.5 " = "12.5".
Proof. reflexivity. Qed.

Example toNum_typing : toNum (fun _ => Num.NaN) (VStr " -. ") (Num.ofZ 16) = Num.ofZ 16.
Proof. reflexivity. Qed.

Example toNum_null : toNum (fun _ => Num.NaN) VNull (Num.ofZ 10) = Num.ofZ 10.
Proof. reflexivity. Qed.

Example deepMerge_nested :
  deepMerge
    (VObj [ ("a", VObj [ ("x", VStr "1"); ("y", VStr "2") ]); ("b", VStr "3") ])
    (VObj [ ("a", VObj [ ("y", VStr "5") ]); ("c", VNull) ])
  = VObj [ ("a", VObj [ ("x", VStr "1"); ("y", VStr "5") ]); ("b", VStr "3");
           ("c", VNull) ].
Proof. reflexivity. Qed.

Example deepMerge_array_wins :
  deepMerge (VObj [ ("a", VObj [ ("x", VStr "1") ]) ])
    (VObj [ ("a", VArr [ VStr "z" ]) ])
  = VObj [ ("a", VArr [ VStr "z" ]) ].
Proof. reflexivity. Qed.

Example toString_array :
  toString anyStringOfNumber (VArr [ VStr "a"; VNull; VArr [ VBool true; VStr "b" ] ])
  = Some "a,,true,b".
Proof. reflexivity. Qed.

Example toString_own_toString :
  toString anyStringOfNumber (VObj [ ("toString", VNum (Num.ofZ 1)) ]) = None.
Proof. reflexivity. Qed.

(** The empty stored document migrates to the default document. *)
Example migrate_empty :
  migrateState anyStringOfNumber (VObj []) defaultState = Some (VObj defaultState).
Proof. vm_compute; reflexivity. Qed.

Example migrate_undefined :
  migrateState anyStringOfNumber VUndef defaultState = Some (VObj defaultState).
Proof. vm_compute; reflexivity. Qed.

(** A stored fee survives the migration, and the version becomes 4. *)
Example migrate_legacy :
  exists m,
    migrateState anyStringOfNumber legacyDocument defaultState = Some m /\
    member m "feePct" = VStr "3" /\
    member m "schemaVersion" = VNum (Num.ofZ 4) /\
    member (member m "prices") "ingot" = VObj [ ("market", VStr "6000") ].
Proof. eexists. vm_compute. repeat split; reflexivity. Qed.

Example fee_rate_of_default :
  feeRate (fun _ => Num.ofZ 5) defaultState = Num.decimal 5 2.
Proof. vm_compute; reflexivity. Qed.

Example fee_rate_is_capped :
  feeRate (fun _ => Num.ofZ 80) defaultState = Num.decimal 5 1.
Proof. vm_compute; reflexivity. Qed.

(** ** The expected-value scenario *)

(** C1 (as the code computes it): at enhancement level 15, fire-skill level
    10, 16 shards per ingot, ingot price 6000 and fee rate 0.05 the normal
    path yields 0.6375 ingots per action, the replacement path 0.15, the net
    ingot price is 5700, and the ingot value of one action is 4488.75,
    whatever the gem inputs are. *)
Theorem scenario_ev_breakdown (gemProb gemCount gemPrice : num) :
  let r := miningEVBreakdown (scenarioEV gemProb gemCount gemPrice) in
  ingotFromShardsPerDig r = Num.decimal 6375 4 /\
  ingotFromFlamePerDig r = Num.decimal 15 2 /\
  ingotNet r = Num.ofZ 5700 /\
  ingotValuePerDig r = Num.decimal 448875 2.
Proof.
  cbv zeta. unfold ingotValuePerDig, miningEVBreakdown, scenarioEV.
  cbn [ingotFromShardsPerDig ingotFromFlamePerDig ingotNet
       ingotFromShardsValuePerDig ingotFromFlameValuePerDig flamingIngotProb
       shardsPerDig shardsPerIngot ingotGrossPrice sellFeeRate].
  repeat split; vm_compute; reflexivity.
Qed.

(** C1 (as the specification states it) fails: the ingot value of one action
    in the scenario is not 4493.25. *)
Lemma scenario_ev_total_is_not_4493_25 :
  let r := miningEVBreakdown (scenarioEV Num.zero Num.zero Num.zero) in
  ~ (ingotFromShardsPerDig r = Num.decimal 6375 4 /\
     ingotFromFlamePerDig r = Num.decimal 15 2 /\
     ingotNet r = Num.ofZ 5700 /\
     ingotValuePerDig r = Num.decimal 449325 2).
Proof.
  cbv zeta. intros (_ & _ & _ & H). vm_compute in H. discriminate H.
Qed.

(** ** The crafting scenario *)

(** C2 (as the code computes it): for 3 units of a resource at 6000 in mode
    opportunity, fee rate 0.05 and a product price of 18000, the total cost
    is 17100, the revenue 17100, the profit 0 and the raw-sell baseline
    17100; profit minus baseline is -17100, which is below 0, so the table
    shows selling the materials as the better choice. *)
Theorem scenario_craft_comparison (Number_str : string -> num) :
  let fee := Num.decimal 5 2 in
  let x := craft Number_str scenarioModes scenarioPrices fee
             (VNum (Num.ofZ 18000)) scenarioRecipe in
  let baseline := sellIndivNet Number_str scenarioModes scenarioPrices fee
                    scenarioRecipe in
  totalCost (craft_profit x) = Num.ofZ 17100 /\
  revenue (craft_profit x) = Num.ofZ 17100 /\
  profit (craft_profit x) = Num.zero /\
  baseline = Num.ofZ 17100 /\
  (profit (craft_profit x) - baseline)%num = Num.ofZ (-17100) /\
  craftingFavoured Number_str scenarioModes scenarioPrices fee
    (VNum (Num.ofZ 18000)) scenarioRecipe = false.
Proof.
  cbv zeta. repeat split; vm_compute; reflexivity.
Qed.

(** C2 (as the specification states it) fails: profit minus baseline is not
    0 in the scenario, and crafting is not the choice shown. *)
Lemma scenario_craft_delta_is_not_zero :
  let parse := fun _ : string => Num.NaN in
  let fee := Num.decimal 5 2 in
  let x := craft parse scenarioModes scenarioPrices fee
             (VNum (Num.ofZ 18000)) scenarioRecipe in
  let baseline := sellIndivNet parse scenarioModes scenarioPrices fee
                    scenarioRecipe in
  ~ (totalCost (craft_profit x) = Num.ofZ 17100 /\
     revenue (craft_profit x) = Num.ofZ 17100 /\
     profit (craft_profit x) = Num.zero /\
     baseline = Num.ofZ 17100 /\
     (profit (craft_profit x) - baseline)%num = Num.zero /\
     craftingFavoured parse scenarioModes scenarioPrices fee
       (VNum (Num.ofZ 18000)) scenarioRecipe = true).
Proof.
  cbv zeta. intros (_ & _ & _ & _ & H & _). vm_compute in H. discriminate H.
Qed.

(** ** Facts about binary64 comparison, [Math.max] and [Math.min] *)

Module NumFacts.

Lemma compare_swap (x y : num) :
  SFcompare y x = option_map CompOpp (SFcompare x y).
Proof.
  destruct x as [sx|sx| |sx mx ex], y as [sy|sy| |sy my ey]; simpl;
    try destruct sx; try destruct sy; simpl; try reflexivity.
  - rewrite (Z.compare_antisym ex ey).
    destruct (Z.compare ex ey); simpl; try reflexivity.
    change (Pos.compare_cont Eq my mx) with (Pos.compare my mx).
    change (Pos.compare_cont Eq mx my) with (Pos.compare mx my).
    rewrite (Pos.compare_antisym mx my).
    destruct (Pos.compare mx my); reflexivity.
  - rewrite (Z.compare_antisym ex ey).
    destruct (Z.compare ex ey); simpl; try reflexivity.
    change (Pos.compare_cont Eq my mx) with (Pos.compare my mx).
    change (Pos.compare_cont Eq mx my) with (Pos.compare mx my).
    rewrite (Pos.compare_antisym mx my). reflexivity.
Qed.

Lemma compare_none (x y : num) :
  SFcompare x y = None -> x = Num.NaN \/ y = Num.NaN.
Proof.
  destruct x as [sx|sx| |sx mx ex], y as [sy|sy| |sy my ey]; simpl;
    try destruct sx; try destruct sy; simpl; intro H;
    try discriminate H; auto.
Qed.

Lemma compare_refl (x : num) : x <> Num.NaN -> SFcompare x x = Some Eq.
Proof.
  destruct x as [s|s| |s m e]; simpl; intro H.
  - reflexivity.
  - destruct s; reflexivity.
  - contradiction H; reflexivity.
  - rewrite Z.compare_refl.
    change (Pos.compare_cont Eq m m) with (Pos.compare m m).
    rewrite Pos.compare_refl. destruct s; reflexivity.
Qed.

Lemma leb_refl (x : num) : x <> Num.NaN -> Num.leb x x = true.
Proof.
  intro H. unfold Num.leb, SFleb. rewrite (compare_refl x H). reflexivity.
Qed.

Lemma leb_not_nan (x y : num) :
  Num.leb x y = true -> x <> Num.NaN /\ y <> Num.NaN.
Proof.
  unfold Num.leb, SFleb.
  destruct x as [sx|sx| |sx mx ex], y as [sy|sy| |sy my ey]; simpl;
    intro H; try discriminate H; split; discriminate.
Qed.

Lemma gt_leb (x y : num) : SFcompare x y = Some Gt -> Num.leb y x = true.
Proof.
  intro H. unfold Num.leb, SFleb. rewrite (compare_swap x y), H. reflexivity.
Qed.

Lemma eq_leb (x y : num) : SFcompare x y = Some Eq -> Num.leb y x = true.
Proof.
  intro H. unfold Num.leb, SFleb. rewrite (compare_swap x y), H. reflexivity.
Qed.

(** [Math.min(hi, x)] is [hi] or [x], and at most [hi]. *)
Lemma min_le (hi x : num) :
  hi <> Num.NaN -> x <> Num.NaN ->
  Num.leb (Num.min hi x) hi = true /\ Num.min hi x <> Num.NaN.
Proof.
  intros Hhi Hx. unfold Num.min.
  destruct (SFcompare hi x) as [[ | | ]|] eqn:E.
  - assert (Hxhi : Num.leb x hi = true) by (apply eq_leb; exact E).
    destruct hi as [[|]|s| |s m e]; auto using leb_refl.
  - auto using leb_refl.
  - split; [apply gt_leb; exact E | exact Hx].
  - destruct (compare_none _ _ E); contradiction.
Qed.

(** [Math.max(lo, z)] lies between [lo] and [hi] when [z] is at most [hi]. *)
Lemma max_between (lo hi z : num) :
  Num.leb lo hi = true -> Num.leb z hi = true ->
  Num.leb lo (Num.max lo z) = true /\ Num.leb (Num.max lo z) hi = true.
Proof.
  intros Hlo Hz. destruct (leb_not_nan _ _ Hlo) as [Hl _].
  destruct (leb_not_nan _ _ Hz) as [Hzn _]. unfold Num.max.
  destruct (SFcompare lo z) as [[ | | ]|] eqn:E.
  - assert (Hlz : Num.leb lo z = true)
      by (unfold Num.leb, SFleb; rewrite E; reflexivity).
    destruct lo as [[|]|s| |s m e]; auto using leb_refl.
  - split; [unfold Num.leb, SFleb; rewrite E; reflexivity | exact Hz].
  - auto using leb_refl.
  - destruct (compare_none _ _ E); contradiction.
Qed.

(** Clamping a number that is not NaN into [[lo, hi]]. *)
Lemma clamp_between (lo hi x : num) :
  Num.leb lo hi = true -> x <> Num.NaN ->
  Num.leb lo (Num.max lo (Num.min hi x)) = true /\
  Num.leb (Num.max lo (Num.min hi x)) hi = true.
Proof.
  intros Hlo Hx. destruct (leb_not_nan _ _ Hlo) as [_ Hh].
  destruct (min_le hi x Hh Hx) as [Hm _].
  apply max_between; assumption.
Qed.

Lemma finite_not_nan (x : num) : Num.isFinite x = true -> x <> Num.NaN.
Proof. destruct x; simpl; intros H; discriminate. Qed.

(** [Math.max(0, x)] for a non-negative [x] is [x], up to the sign of
    zero. *)
Lemma max_zero_nonneg (x : num) :
  Num.leb Num.zero x = true -> (Num.max Num.zero x == x)%num.
Proof.
  unfold Num.leb, SFleb, Num.max, Num.same.
  destruct x as [s|s| |s m e]; simpl; try destruct s; simpl;
    intro H; try discriminate H; auto.
Qed.

(** [Math.max(0, x)] is [x] itself for a non-negative [x] other than
    [-0]. *)
Lemma max_zero_exact (x : num) :
  Num.leb Num.zero x = true -> x <> S754_zero true -> Num.max Num.zero x = x.
Proof.
  unfold Num.leb, SFleb, Num.max.
  destruct x as [s|s| |s m e]; simpl; try destruct s; simpl;
    intros H Hz; try discriminate H; try reflexivity.
  contradiction Hz; reflexivity.
Qed.

(** *** Rounding never produces NaN from a non-negative mantissa *)

Lemma iter_pos_inv {A : Type} (P : A -> Prop) (f : A -> A) :
  (forall a, P a -> P (f a)) ->
  forall (n : positive) (a : A), P a -> P (iter_pos f n a).
Proof.
  intros Hf. induction n as [n IH|n IH| ]; intros a Ha; simpl; auto.
Qed.

Lemma shr_1_nonneg (mrs : shr_record) :
  0 <= shr_m mrs -> 0 <= shr_m (shr_1 mrs).
Proof.
  destruct mrs as [m r s]. simpl.
  destruct m as [|[p|p| ]|[p|p| ]]; simpl; lia.
Qed.

Lemma shr_nonneg (mrs : shr_record) (e n : Z) :
  0 <= shr_m mrs -> 0 <= shr_m (fst (shr mrs e n)).
Proof.
  intro H. unfold shr. destruct n; simpl; try exact H.
  apply (iter_pos_inv (fun r => 0 <= shr_m r)); auto using shr_1_nonneg.
Qed.

Lemma shr_fexp_nonneg (m e : Z) (l : location) :
  0 <= m -> 0 <= shr_m (fst (shr_fexp Num.prec Num.emax m e l)).
Proof.
  intro H. unfold shr_fexp. apply shr_nonneg.
  destruct l as [|[ | | ]]; simpl; exact H.
Qed.

Lemma round_nearest_even_nonneg (m : Z) (l : location) :
  0 <= m -> 0 <= round_nearest_even m l.
Proof.
  intro H. unfold round_nearest_even.
  destruct l as [|[ | | ]]; try destruct (Z.even m); lia.
Qed.

(** The result of rounding a non-negative mantissa carries the given
    sign; it is not NaN. *)
Lemma binary_round_aux_signed (s : bool) (m e : Z) (l : location) :
  0 <= m -> Num.signed s (binary_round_aux Num.prec Num.emax s m e l).
Proof.
  intro H. unfold binary_round_aux.
  pose proof (shr_fexp_nonneg m e l H) as H1.
  destruct (shr_fexp Num.prec Num.emax m e l) as [mrs' e'].
  simpl in H1.
  pose proof (shr_fexp_nonneg
                (round_nearest_even (shr_m mrs') (loc_of_shr_record mrs'))
                e' loc_Exact (round_nearest_even_nonneg _ _ H1)) as H2.
  destruct (shr_fexp Num.prec Num.emax
              (round_nearest_even (shr_m mrs') (loc_of_shr_record mrs'))
              e' loc_Exact) as [mrs'' e''].
  simpl in H2.
  destruct (shr_m mrs'') as [|p|p]; unfold Num.signed.
  - reflexivity.
  - destruct (Z.leb e'' (Num.emax - Num.prec)); reflexivity.
  - lia.
Qed.

Lemma div_core_nonneg (m1 m2 : positive) (e1 e2 : Z) :
  0 <= fst (fst (SFdiv_core_binary Num.prec Num.emax (Zpos m1) e1 (Zpos m2) e2)).
Proof.
  unfold SFdiv_core_binary.
  set (s := Z.sub (Z.sub e1 e2) _).
  set (m' := match s with Zpos _ => Z.shiftl (Zpos m1) s | Z0 => Zpos m1 | Zneg _ => Z0 end).
  assert (Hm : 0 <= m').
  { subst m'. destruct s; try lia. apply Z.shiftl_nonneg. lia. }
  pose proof (Z.div_pos m' (Zpos m2) Hm ltac:(lia)) as Hq.
  unfold Z.div in Hq.
  destruct (Z.div_eucl m' (Zpos m2)) as [q r]. simpl. exact Hq.
Qed.

(** The quotient of two finite numbers, the divisor not zero, carries the
    exclusive or of their signs; it is never NaN. *)
Lemma div_finite_signed (sx sy : bool) (mx my : positive) (ex ey : Z) :
  Num.signed (xorb sx sy)
    (Num.div (S754_finite sx mx ex) (S754_finite sy my ey)).
Proof.
  unfold Num.div, SFdiv.
  pose proof (div_core_nonneg mx my ex ey) as H.
  destruct (SFdiv_core_binary Num.prec Num.emax (Zpos mx) ex (Zpos my) ey)
    as [[mz ez] lz].
  simpl in H. apply binary_round_aux_signed. exact H.
Qed.


(** *** Addition up to the sign of zero *)

Lemma same_refl (x : num) : (x == x)%num.
Proof. left; reflexivity. Qed.

Lemma same_trans (x y z : num) : (x == y)%num -> (y == z)%num -> (x == z)%num.
Proof.
  unfold Num.same. intros [->|[Hx Hy]] [->|[Hy' Hz]]; auto.
Qed.

Lemma add_zero_r (a : num) : (a + Num.zero == a)%num.
Proof.
  unfold Num.same, Num.add, Num.zero.
  destruct a as [[|]|s| |s m e]; simpl; auto.
Qed.

Lemma add_same_l (a a' b : num) : (a == a')%num -> (a + b == a' + b)%num.
Proof.
  intros [->|[Ha Ha']]; [apply same_refl|].
  unfold Num.same, Num.add.
  destruct a as [sa|sa| |sa ma ea]; try discriminate Ha.
  destruct a' as [sa'|sa'| |sa' ma' ea']; try discriminate Ha'.
  destruct b as [sb|sb| |sb mb eb]; simpl; auto.
  destruct sa, sa', sb; simpl; auto.
Qed.

Lemma mul_same_l (a a' b : num) : (a == a')%num -> (a * b == a' * b)%num.
Proof.
  intros [->|[Ha Ha']]; [apply same_refl|].
  unfold Num.same, Num.mul.
  destruct a as [sa|sa| |sa ma ea]; try discriminate Ha.
  destruct a' as [sa'|sa'| |sa' ma' ea']; try discriminate Ha'.
  destruct b as [sb|sb| |sb mb eb]; simpl; auto.
Qed.

End NumFacts.

(** ** The replacement rule of the expected-value breakdown *)

Lemma clamp01_between (x : num) :
  Num.leb Num.zero (clamp01 x) = true /\ Num.leb (clamp01 x) (Num.ofZ 1) = true.
Proof.
  unfold clamp01. destruct (Num.isFinite x) eqn:F; simpl.
  - apply NumFacts.clamp_between.
    + vm_compute; reflexivity.
    + apply NumFacts.finite_not_nan; exact F.
  - split; vm_compute; reflexivity.
Qed.

(** [Math.max(0, x)] is NaN or carries the sign bit 0. *)
Lemma max_zero_signed (x : num) :
  Num.max Num.zero x = Num.NaN \/ Num.signed false (Num.max Num.zero x).
Proof.
  unfold Num.max, Num.zero.
  destruct x as [[|]|[|]| |[|] m e]; simpl; auto.
Qed.

(** [Math.max(1, x)] is NaN or a number above zero. *)
Lemma max_one_positive (x : num) :
  match Num.max (Num.ofZ 1) x with
  | S754_nan | S754_finite false _ _ | S754_infinity false => True
  | _ => False
  end.
Proof.
  unfold Num.max.
  destruct x as [[|]|[|]| |[|] m e]; try (vm_compute; exact I).
  destruct (SFcompare (Num.ofZ 1) (S754_finite false m e)) as [[ | | ]|];
    try exact I; vm_compute; exact I.
Qed.

(** The shard term before the replacement probability is applied is NaN or
    carries the sign bit 0. *)
Lemma unreduced_signed (base spi : num) :
  let y := (Num.max Num.zero base / Num.max (Num.ofZ 1) spi)%num in
  y = Num.NaN \/ Num.signed false y.
Proof.
  cbv zeta.
  destruct (max_zero_signed base) as [-> | Ha]; [left; reflexivity|].
  pose proof (max_one_positive spi) as Hb.
  destruct (Num.max Num.zero base) as [sa|sa| |sa ma ea];
    destruct (Num.max (Num.ofZ 1) spi) as [sb|[|]| |[|] mb eb];
    simpl in Ha; try contradiction; subst; simpl; auto.
  right. apply (NumFacts.div_finite_signed false false).
Qed.

(** C3 (as the code computes it): with [p] the replacement probability
    clamped into [[0, 1]], the normal path yields
    [(1 - p) * (max(0, shardsPerDig) / max(1, shardsPerIngot))] ingots per
    action and the replacement path [p * 1]; the replacement is not added to
    an unreduced normal term.  At [p = 1] the normal-path yield is 0 whenever
    the unreduced shard term is a finite number. *)
Theorem replacement_substitutes_normal_yield (i : EVInput) :
  let r := miningEVBreakdown i in
  let p := pFlame r in
  let unreduced :=
    (Num.max Num.zero (shardsPerDig i) / Num.max (Num.ofZ 1) (shardsPerIngot i))%num in
  p = clamp01 (flamingIngotProb i) /\
  Num.leb Num.zero p = true /\ Num.leb p (Num.ofZ 1) = true /\
  ingotFromShardsPerDig r = ((Num.ofZ 1 - p) * unreduced)%num /\
  ingotFromFlamePerDig r = (p * Num.ofZ 1)%num /\
  (p = Num.ofZ 1 -> Num.isFinite unreduced = true ->
   ingotFromShardsPerDig r = Num.zero).
Proof.
  cbv zeta. unfold miningEVBreakdown; cbn [pFlame ingotFromShardsPerDig ingotFromFlamePerDig].
  destruct (clamp01_between (flamingIngotProb i)) as [H0 H1].
  repeat split; try assumption.
  intros Hp Hfin. rewrite Hp.
  change (Num.ofZ 1 - Num.ofZ 1)%num with Num.zero.
  destruct (unreduced_signed (shardsPerDig i) (shardsPerIngot i)) as [E | S].
  - rewrite E in Hfin. discriminate Hfin.
  - destruct (Num.max Num.zero (shardsPerDig i) / Num.max (Num.ofZ 1) (shardsPerIngot i))%num
      as [s|s| |s m e]; simpl in S; try discriminate Hfin; subst; reflexivity.
Qed.

(** At fire probability 1 and the shards of level 15 the normal path yields
    nothing. *)
Lemma replacement_substitutes_normal_yield_witness :
  ingotFromShardsPerDig
    (miningEVBreakdown
       {| staminaPerDig := Num.ofZ 10; shardsPerDig := Num.ofZ 12;
          shardsPerIngot := Num.ofZ 16; ingotGrossPrice := Num.ofZ 6000;
          gemDropProb := Num.zero; gemDropCount := Num.zero;
          gemGrossPrice := Num.zero; flamingIngotProb := Num.ofZ 1;
          sellFeeRate := Num.decimal 5 2 |}) = Num.zero.
Proof.
  apply (replacement_substitutes_normal_yield
           {| staminaPerDig := Num.ofZ 10; shardsPerDig := Num.ofZ 12;
              shardsPerIngot := Num.ofZ 16; ingotGrossPrice := Num.ofZ 6000;
              gemDropProb := Num.zero; gemDropCount := Num.zero;
              gemGrossPrice := Num.zero; flamingIngotProb := Num.ofZ 1;
              sellFeeRate := Num.decimal 5 2 |}); vm_compute; reflexivity.
Defined.

(** C3 (as the specification states it) fails: for a base shard yield of -4
    the code floors the yield at 0, so the normal-path yield is not
    [(1 - p) * (shardsPerDig / shardsPerIngot)]. *)
Lemma normal_yield_is_floored_at_zero :
  let i := {| staminaPerDig := Num.ofZ 10; shardsPerDig := Num.ofZ (-4);
              shardsPerIngot := Num.ofZ 16; ingotGrossPrice := Num.ofZ 6000;
              gemDropProb := Num.zero; gemDropCount := Num.zero;
              gemGrossPrice := Num.zero; flamingIngotProb := Num.zero;
              sellFeeRate := Num.decimal 5 2 |} in
  ingotFromShardsPerDig (miningEVBreakdown i)
  <> ((Num.ofZ 1 - clamp01 (flamingIngotProb i))
      * (shardsPerDig i / shardsPerIngot i))%num.
Proof.
  cbv zeta. vm_compute. discriminate.
Qed.

(** ** Independence of the gem value from the replacement probability *)

(** C4: two inputs that differ only in the replacement probability have the
    same gem value per action, which is
    [clamp01(gemDropProb) * max(0, gemDropCount) * gemNet], where the net
    gem price [gemNet] is [max(0, gemGrossPrice) * (1 - sellFeeRate)]: the
    value is a function of the drop probability, the drop count, the gross
    gem price and the fee rate alone. *)
Theorem gem_value_independent_of_flame (i j : EVInput) :
  sameButFlame i j ->
  gemValuePerDig (miningEVBreakdown i) = gemValuePerDig (miningEVBreakdown j) /\
  gemValuePerDig (miningEVBreakdown i)
  = (clamp01 (gemDropProb i) * Num.max Num.zero (gemDropCount i)
     * gemNet (miningEVBreakdown i))%num /\
  gemNet (miningEVBreakdown i)
  = (Num.max Num.zero (gemGrossPrice i) * (Num.ofZ 1 - sellFeeRate i))%num /\
  gemValuePerDig (miningEVBreakdown j)
  = (clamp01 (gemDropProb i) * Num.max Num.zero (gemDropCount i)
     * (Num.max Num.zero (gemGrossPrice i) * (Num.ofZ 1 - sellFeeRate i)))%num.
Proof.
  intros (_ & _ & _ & _ & Hp & Hc & Hg & Hf).
  unfold miningEVBreakdown, netSell; cbn [gemValuePerDig gemNet].
  rewrite Hp, Hc, Hg, Hf. repeat split; reflexivity.
Qed.

Lemma gem_value_independent_of_flame_witness :
  let i := scenarioEV (Num.decimal 10 2) (Num.ofZ 2) (Num.ofZ 12000) in
  let j :=
    {| staminaPerDig := Num.ofZ 10; shardsPerDig := shardsPerDigOf 15;
       shardsPerIngot := Num.ofZ 16; ingotGrossPrice := Num.ofZ 6000;
       gemDropProb := Num.decimal 10 2; gemDropCount := Num.ofZ 2;
       gemGrossPrice := Num.ofZ 12000; flamingIngotProb := Num.zero;
       sellFeeRate := Num.decimal 5 2 |} in
  (gemValuePerDig (miningEVBreakdown i) = gemValuePerDig (miningEVBreakdown j) /\
   gemValuePerDig (miningEVBreakdown i)
   = (clamp01 (gemDropProb i) * Num.max Num.zero (gemDropCount i)
      * gemNet (miningEVBreakdown i))%num /\
   gemNet (miningEVBreakdown i)
   = (Num.max Num.zero (gemGrossPrice i) * (Num.ofZ 1 - sellFeeRate i))%num /\
   gemValuePerDig (miningEVBreakdown j)
   = (clamp01 (gemDropProb i) * Num.max Num.zero (gemDropCount i)
      * (Num.max Num.zero (gemGrossPrice i) * (Num.ofZ 1 - sellFeeRate i)))%num) /\
  gemValuePerDig (miningEVBreakdown j) = Num.ofZ 2280 /\
  gemNet (miningEVBreakdown i) = Num.ofZ 11400.
Proof.
  cbv zeta. split; [|split; vm_compute; reflexivity].
  apply (gem_value_independent_of_flame
           (scenarioEV (Num.decimal 10 2) (Num.ofZ 2) (Num.ofZ 12000))
           {| staminaPerDig := Num.ofZ 10; shardsPerDig := shardsPerDigOf 15;
              shardsPerIngot := Num.ofZ 16; ingotGrossPrice := Num.ofZ 6000;
              gemDropProb := Num.decimal 10 2; gemDropCount := Num.ofZ 2;
              gemGrossPrice := Num.ofZ 12000; flamingIngotProb := Num.zero;
              sellFeeRate := Num.decimal 5 2 |}).
  unfold sameButFlame; simpl; repeat split; reflexivity.
Defined.

(** ** Unit cost per supply mode *)

(** C8: for a market rate that is at least 0, and every fee rate (so every
    fee rate in [[0, 1]]), the unit cost is 0 in mode owned, the market rate
    itself in mode buy, and [marketPrice * (1 - feeRate)] in mode
    opportunity.  The equalities are those of JavaScript numbers (the rate
    [-0] costs [0]); for every rate other than [-0] the values are
    identical. *)
Theorem unit_cost_by_mode (marketPrice feeRate : num) :
  Num.leb Num.zero marketPrice = true ->
  unitCostByMode "owned" marketPrice feeRate = Num.zero /\
  (unitCostByMode "buy" marketPrice feeRate == marketPrice)%num /\
  (unitCostByMode "opportunity" marketPrice feeRate
   == marketPrice * (Num.ofZ 1 - feeRate))%num /\
  (marketPrice <> S754_zero true ->
   unitCostByMode "buy" marketPrice feeRate = marketPrice /\
   unitCostByMode "opportunity" marketPrice feeRate
   = (marketPrice * (Num.ofZ 1 - feeRate))%num).
Proof.
  intro H. unfold unitCostByMode, netSell. simpl.
  pose proof (NumFacts.max_zero_nonneg marketPrice H) as Hm.
  repeat split; [exact Hm | apply NumFacts.mul_same_l; exact Hm | |];
    rewrite (NumFacts.max_zero_exact marketPrice H) by assumption;
    reflexivity.
Qed.

Lemma unit_cost_by_mode_witness :
  unitCostByMode "owned" (Num.ofZ 6000) (Num.decimal 5 2) = Num.zero /\
  unitCostByMode "buy" (Num.ofZ 6000) (Num.decimal 5 2) = Num.ofZ 6000 /\
  unitCostByMode "opportunity" (Num.ofZ 6000) (Num.decimal 5 2)
  = (Num.ofZ 6000 * (Num.ofZ 1 - Num.decimal 5 2))%num.
Proof.
  destruct (unit_cost_by_mode (Num.ofZ 6000) (Num.decimal 5 2))
    as (Howned & _ & _ & Hexact); [vm_compute; reflexivity|].
  destruct Hexact as [Hbuy Hopp]; [vm_compute; discriminate|].
  exact (conj Howned (conj Hbuy Hopp)).
Defined.

(** ** The numeric input normaliser *)

Section NormaliserFacts.

Variable Number_str : string -> num.

Lemma toNum_isFinite (v : value) (fallback : num) :
  Num.isFinite fallback = true ->
  Num.isFinite (toNum Number_str v fallback) = true.
Proof.
  intro Hf. unfold toNum. destruct v as [ | |b|n|s|l|o]; try exact Hf.
  - destruct (Num.isFinite n) eqn:E; [exact E | exact Hf].
  - destruct (String.eqb (trim s) ""); [exact Hf|].
    destruct (String.eqb (trim s) "-" || String.eqb (trim s) "."
              || String.eqb (trim s) "-."); [exact Hf|].
    destruct (Num.isFinite (Number_str (trim s))) eqn:E; [exact E | exact Hf].
Qed.

(** C9: for a finite fallback the normaliser returns a finite number on
    every value (it is a total function: nothing is raised).  A value that
    is neither a string nor a number gives the fallback; so does a string
    whose trimmed form is empty, ["-"], ["."] or ["-."], and any other
    string whose numeric parse is not finite; a finite number is returned
    as it is. *)
Theorem toNum_contract (v : value) (fallback : num) :
  Num.isFinite fallback = true ->
  Num.isFinite (toNum Number_str v fallback) = true /\
  ((forall n, v <> VNum n) -> (forall s, v <> VStr s) ->
   toNum Number_str v fallback = fallback) /\
  (forall s, v = VStr s -> In (trim s) [""; "-"; "."; "-."] ->
   toNum Number_str v fallback = fallback) /\
  (forall s, v = VStr s -> Num.isFinite (Number_str (trim s)) = false ->
   toNum Number_str v fallback = fallback) /\
  (forall n, v = VNum n -> Num.isFinite n = true ->
   toNum Number_str v fallback = n).
Proof.
  intro Hf. split; [apply toNum_isFinite; exact Hf|].
  split; [|split; [|split]].
  - intros Hn Hs. destruct v as [ | |b|n|s|l|o]; try reflexivity.
    + contradiction (Hn n); reflexivity.
    + contradiction (Hs s); reflexivity.
  - intros s -> Hin. unfold toNum. simpl in Hin.
    destruct Hin as [<- | [<- | [<- | [<- | []]]]]; reflexivity.
  - intros s -> Hnf. unfold toNum.
    destruct (String.eqb (trim s) ""); [reflexivity|].
    destruct (String.eqb (trim s) "-" || String.eqb (trim s) "."
              || String.eqb (trim s) "-."); [reflexivity|].
    rewrite Hnf. reflexivity.
  - intros n -> Hn. unfold toNum. rewrite Hn. reflexivity.
Qed.


End NormaliserFacts.

(** With a parser that knows no numeral, the text ["abc"] gives the
    fallback 7. *)
Lemma toNum_contract_witness :
  Num.isFinite (toNum (fun _ => Num.NaN) (VStr "abc") (Num.ofZ 7)) = true.
Proof.
  apply (toNum_contract (fun _ => Num.NaN) (VStr "abc") (Num.ofZ 7)).
  vm_compute; reflexivity.
Defined.

(** ** The raw-sell baseline *)

Section BaselineFacts.

Variable Number_str : string -> num.
Variable modes : list (string * string).
Variable prices : obj.
Variable feeRate : num.

Lemma sum_skips_zero {A : Type} (skip : A -> bool) (f : A -> num)
    (l : list A) (a a' : num) :
  (a == a')%num ->
  (fold_left (fun x y => (x + y)%num)
     (map (fun x => if skip x then Num.zero else f x) l) a
   == fold_left (fun x y => (x + y)%num)
        (map f (filter (fun x => negb (skip x)) l)) a')%num.
Proof.
  revert a a'. induction l as [|x l IH]; intros a a' H; simpl.
  - exact H.
  - destruct (skip x); simpl.
    + apply IH. eapply NumFacts.same_trans; [apply NumFacts.add_zero_r | exact H].
    + apply IH. apply NumFacts.add_same_l. exact H.
Qed.

(** The mode that the comparison uses for a resource is buy exactly when
    the stored mode of the resource is the text ["buy"]. *)
Lemma modeOf_buy (k : string) :
  String.eqb (modeOf modes k) "buy"
  = match Obj.own modes k with
    | Some m => String.eqb m "buy"
    | None => false
    end.
Proof.
  unfold modeOf. destruct (Obj.own modes k) as [m|]; [|reflexivity].
  destruct (String.eqb_spec m "") as [->|_]; reflexivity.
Qed.

(** C7: for every recipe, every stored mode assignment [modes] and every
    stored price list [prices], the raw-sell baseline is the sum, over the
    recipe entries whose stored mode is not ["buy"], of
    [quantity * (market * (1 - feeRate))], where [market] is the stored
    market price of the resource as a number (0 when it is missing or no
    number), a missing quantity counts as 0 and the sum is that of
    JavaScript numbers.  Entry by entry: an entry whose stored mode is
    ["buy"] adds exactly 0 to the baseline, and every other entry (owned,
    opportunity, no stored mode or any other text) adds its after-fee
    value. *)
Theorem raw_sell_baseline (recipe : list (string * num)) :
  let market := fun k : string =>
    toNum Number_str
      (coalesce
         (if nullish (prop prices k) then VUndef
          else member (prop prices k) "market")
         (VNum Num.zero))
      Num.zero in
  let term := fun kq : string * num =>
    (orZero (snd kq) * (market (fst kq) * (Num.ofZ 1 - feeRate)))%num in
  let isBuy := fun kq : string * num =>
    match Obj.own modes (fst kq) with
    | Some m => String.eqb m "buy"
    | None => false
    end in
  (sellIndivNet Number_str modes prices feeRate recipe
   == sum (map term (filter (fun kq => negb (isBuy kq)) recipe)))%num /\
  (forall kq,
     sellIndivNet Number_str modes prices feeRate (recipe ++ [kq])
     = (sellIndivNet Number_str modes prices feeRate recipe
        + (if isBuy kq then Num.zero else term kq))%num) /\
  (forall kq,
     Obj.own modes (fst kq) = Some "buy" ->
     sellIndivNet Number_str modes prices feeRate [kq] = Num.zero) /\
  (forall kq,
     In (Obj.own modes (fst kq)) [None; Some "owned"; Some "opportunity"] ->
     sellIndivNet Number_str modes prices feeRate [kq]
     = (Num.zero + term kq)%num).
Proof.
  cbv zeta.
  assert (T : forall kq : string * num,
             (if String.eqb (modeOf modes (fst kq)) "buy" then Num.zero
              else (orZero (snd kq)
                    * netSell (marketOf Number_str prices (fst kq)) feeRate)%num)
             = (if match Obj.own modes (fst kq) with
                   | Some m => String.eqb m "buy"
                   | None => false
                   end
                then Num.zero
                else (orZero (snd kq)
                      * (marketOf Number_str prices (fst kq)
                         * (Num.ofZ 1 - feeRate)))%num)).
  { intro kq. rewrite modeOf_buy. reflexivity. }
  assert (E : forall l,
             sellIndivNet Number_str modes prices feeRate l
             = sum (map (fun kq : string * num =>
                      if match Obj.own modes (fst kq) with
                         | Some m => String.eqb m "buy"
                         | None => false
                         end
                      then Num.zero
                      else (orZero (snd kq)
                            * (marketOf Number_str prices (fst kq)
                               * (Num.ofZ 1 - feeRate)))%num) l)).
  { intro l. unfold sellIndivNet. f_equal. apply map_ext. exact T. }
  split; [|split; [|split]].
  - rewrite E. unfold sum.
    apply (sum_skips_zero
             (fun kq : string * num =>
                match Obj.own modes (fst kq) with
                | Some m => String.eqb m "buy"
                | None => false
                end)).
    apply NumFacts.same_refl.
  - intro kq. rewrite !E. unfold sum.
    rewrite map_app, fold_left_app. reflexivity.
  - intros kq Hk. rewrite E. unfold sum. simpl. rewrite Hk. reflexivity.
  - intros kq Hk. rewrite E. unfold sum. simpl.
    destruct Hk as [<-|[<-|[<-|[]]]]; reflexivity.
Qed.

End BaselineFacts.

(** ** Objects as property lists *)

Module ObjFacts.
Section Props.
Context {A : Type}.
Implicit Types (o done rest : list (string * A)) (k : string) (v w : A).

Lemma own_assign_same k v o : Obj.own (Obj.assign k v o) k = Some v.
Proof.
  induction o as [|[k' v'] o IH]; simpl.
  - rewrite String.eqb_refl. reflexivity.
  - destruct (String.eqb k' k) eqn:E; simpl; rewrite E; auto.
Qed.

Lemma own_assign_other k k' v o :
  k <> k' -> Obj.own (Obj.assign k v o) k' = Obj.own o k'.
Proof.
  intro Hk. induction o as [|[k0 v0] o IH]; simpl.
  - apply String.eqb_neq in Hk. rewrite Hk. reflexivity.
  - destruct (String.eqb k0 k) eqn:E; simpl.
    + apply String.eqb_eq in E. subst k0.
      apply String.eqb_neq in Hk. rewrite Hk. reflexivity.
    + rewrite IH. reflexivity.
Qed.

Lemma own_none k o : Obj.own o k = None <-> ~ In k (Obj.keys o).
Proof.
  induction o as [|[k' v'] o IH]; simpl.
  - tauto.
  - destruct (String.eqb_spec k' k) as [->|Hn].
    + split; [discriminate | intro H; contradiction H; auto].
    + rewrite IH. tauto.
Qed.

Lemma own_in k v o : Obj.own o k = Some v -> In (k, v) o.
Proof.
  induction o as [|[k' v'] o IH]; simpl; [discriminate|].
  destruct (String.eqb_spec k' k) as [->|Hn].
  - intro H; injection H as ->. auto.
  - auto.
Qed.

Lemma in_own k v o : NoDup (Obj.keys o) -> In (k, v) o -> Obj.own o k = Some v.
Proof.
  induction o as [|[k' v'] o IH]; simpl; [tauto|].
  intros Hd [E | Hin].
  - injection E as -> ->. rewrite String.eqb_refl. reflexivity.
  - inversion Hd as [|? ? Hk Hd']; subst.
    destruct (String.eqb_spec k' k) as [->|Hn].
    + contradiction Hk. apply (in_map fst) in Hin. exact Hin.
    + auto.
Qed.

Lemma has_in k o : Obj.has o k = true <-> In k (Obj.keys o).
Proof.
  unfold Obj.has. pose proof (own_none k o) as H.
  destruct (Obj.own o k).
  - split; [|reflexivity]. intros _.
    destruct (in_dec string_dec k (Obj.keys o)) as [Hi|Hi]; [exact Hi|].
    apply H in Hi. discriminate Hi.
  - split; [discriminate|]. intro Hi. destruct H as [H _].
    contradiction (H eq_refl).
Qed.

Lemma assign_absent k v o : ~ In k (Obj.keys o) -> Obj.assign k v o = o ++ [(k, v)].
Proof.
  induction o as [|[k' v'] o IH]; simpl; intro H; [reflexivity|].
  destruct (String.eqb_spec k' k) as [->|Hn].
  - contradiction H; auto.
  - rewrite IH; auto.
Qed.

Lemma assign_middle k v w done rest :
  ~ In k (Obj.keys done) ->
  Obj.assign k v (done ++ (k, w) :: rest) = done ++ (k, v) :: rest.
Proof.
  induction done as [|[k' v'] done IH]; simpl; intro H.
  - rewrite String.eqb_refl. reflexivity.
  - destruct (String.eqb_spec k' k) as [->|Hn].
    + contradiction H; auto.
    + rewrite IH; auto.
Qed.

Lemma own_middle k w done rest :
  ~ In k (Obj.keys done) -> Obj.own (done ++ (k, w) :: rest) k = Some w.
Proof.
  induction done as [|[k' v'] done IH]; simpl; intro H.
  - rewrite String.eqb_refl. reflexivity.
  - destruct (String.eqb_spec k' k) as [->|Hn].
    + contradiction H; auto.
    + auto.
Qed.


Lemma keys_assign_present k v o :
  In k (Obj.keys o) -> Obj.keys (Obj.assign k v o) = Obj.keys o.
Proof.
  induction o as [|[k' v'] o IH]; simpl; [tauto|].
  destruct (String.eqb_spec k' k) as [->|Hn]; simpl.
  - reflexivity.
  - intros [E|Hin]; [contradiction|].
    change (k' :: Obj.keys (Obj.assign k v o) = k' :: Obj.keys o).
    rewrite IH; auto.
Qed.

(** Assignment keeps the keys in place and adds at most one at the end. *)
Lemma keys_assign k v o :
  exists ext, Obj.keys (Obj.assign k v o) = Obj.keys o ++ ext.
Proof.
  destruct (in_dec string_dec k (Obj.keys o)) as [Hi|Hi].
  - exists []. rewrite app_nil_r. apply keys_assign_present; exact Hi.
  - exists [k]. rewrite (assign_absent k v o Hi).
    unfold Obj.keys. rewrite map_app. reflexivity.
Qed.

Lemma NoDup_keys_assign k v o :
  NoDup (Obj.keys o) -> NoDup (Obj.keys (Obj.assign k v o)).
Proof.
  intro H. destruct (in_dec string_dec k (Obj.keys o)) as [Hi|Hi].
  - rewrite keys_assign_present; assumption.
  - rewrite (assign_absent k v o Hi). unfold Obj.keys. rewrite map_app. simpl.
    apply NoDup_app; [exact H | constructor; [simpl; tauto | constructor] |].
    intros x Hx [<-|[]]. exact (Hi Hx).
Qed.

Lemma in_keys_assign k k' v o :
  In k' (Obj.keys o) -> In k' (Obj.keys (Obj.assign k v o)).
Proof.
  intro H. destruct (keys_assign k v o) as [ext ->]. apply in_or_app; auto.
Qed.

End Props.

Lemma distinct_NoDup (ks : list string) : distinct ks = true <-> NoDup ks.
Proof.
  induction ks as [|k ks IH]; simpl.
  - split; [constructor | reflexivity].
  - rewrite andb_true_iff, negb_true_iff, IH. split.
    + intros [Hn Hd]. constructor; [|exact Hd].
      intro Hin. assert (E : existsb (String.eqb k) ks = true).
      { apply existsb_exists. exists k. split; [exact Hin | apply String.eqb_refl]. }
      rewrite E in Hn. discriminate Hn.
    + intro H. inversion H as [|? ? Hk Hd]; subst. split; [|exact Hd].
      destruct (existsb (String.eqb k) ks) eqn:E; [|reflexivity].
      apply existsb_exists in E. destruct E as [x [Hx Ex]].
      apply String.eqb_eq in Ex. subst x. contradiction.
Qed.

End ObjFacts.

(** ** Deep merge *)

Module MergeFacts.
Import ObjFacts.

Lemma deepMerge_obj (b p : obj) :
  deepMerge (VObj b) (VObj p) = VObj (mergeEntries b p).
Proof.
  reflexivity.
Qed.

Lemma mergeValue_obj (b p : obj) :
  mergeValue (VObj b) (VObj p) = VObj (mergeEntries b p).
Proof. unfold mergeValue. simpl andb. cbv iota. apply deepMerge_obj. Qed.

Lemma mergeValue_left (b v : value) :
  isPlainObject b = false -> mergeValue b v = v.
Proof. intro H. unfold mergeValue. rewrite H. reflexivity. Qed.

Lemma mergeValue_right (b v : value) :
  isPlainObject v = false -> mergeValue b v = v.
Proof. intro H. unfold mergeValue. rewrite H, andb_false_r. reflexivity. Qed.

Lemma prop_absent (o : obj) (k : string) :
  ~ In k (Obj.keys o) -> prop o k = VUndef.
Proof. intro H. unfold prop. apply own_none in H. rewrite H. reflexivity. Qed.

Lemma keys_mergeEntries (out entries : obj) :
  exists ext, Obj.keys (mergeEntries out entries) = Obj.keys out ++ ext.
Proof.
  revert out. induction entries as [|[k v] es IH]; intro out; simpl.
  - exists []. rewrite app_nil_r. reflexivity.
  - destruct (IH (mergeProp out k v)) as [ext ->]. unfold mergeProp.
    destruct (keys_assign k (mergeValue (prop out k) v) out) as [ext' ->].
    exists (ext' ++ ext). rewrite app_assoc. reflexivity.
Qed.

Lemma NoDup_keys_mergeEntries (out entries : obj) :
  NoDup (Obj.keys out) -> NoDup (Obj.keys (mergeEntries out entries)).
Proof.
  revert out. induction entries as [|[k v] es IH]; intros out H; simpl.
  - exact H.
  - apply IH. unfold mergeProp. apply NoDup_keys_assign. exact H.
Qed.

(** What the merged object holds at [k], when the keys of the patch are
    pairwise distinct. *)
Lemma own_mergeEntries (out entries : obj) (k : string) :
  NoDup (Obj.keys entries) ->
  Obj.own (mergeEntries out entries) k
  = match Obj.own entries k with
    | Some v => Some (mergeValue (prop out k) v)
    | None => Obj.own out k
    end.
Proof.
  revert out. induction entries as [|[k0 v0] es IH]; intros out H; simpl.
  - reflexivity.
  - inversion H as [|? ? Hk Hd]; subst. rewrite (IH _ Hd).
    destruct (String.eqb_spec k0 k) as [->|Hn].
    + apply own_none in Hk. rewrite Hk. unfold mergeProp.
      apply own_assign_same.
    + unfold mergeProp, prop. rewrite (own_assign_other k0 k _ _ Hn).
      reflexivity.
Qed.

(** Entries under new keys are added at the end, in their order. *)
Lemma mergeEntries_new (done entries : obj) :
  NoDup (Obj.keys done ++ Obj.keys entries) ->
  mergeEntries done entries = done ++ entries.
Proof.
  revert done. induction entries as [|[k v] es IH]; intros done H; simpl.
  - rewrite app_nil_r. reflexivity.
  - assert (Hk : ~ In k (Obj.keys done)).
    { intro Hin. apply NoDup_remove_2 in H. apply H. apply in_or_app; auto. }
    unfold mergeProp. rewrite (prop_absent _ _ Hk).
    rewrite mergeValue_left by reflexivity.
    rewrite (assign_absent _ _ _ Hk). rewrite IH.
    + rewrite <- app_assoc. reflexivity.
    + unfold Obj.keys. rewrite map_app. simpl. rewrite <- app_assoc. exact H.
Qed.

(** A patch that repeats the keys of the base in their order, each value
    being kept by the merge, is returned as it is. *)
Lemma mergeEntries_absorb_from (todoB todoR done rest : obj) :
  Forall2 (fun b r => fst b = fst r /\ mergeValue (snd b) (snd r) = snd r)
    todoB todoR ->
  NoDup (Obj.keys done ++ Obj.keys todoB ++ Obj.keys rest) ->
  mergeEntries (done ++ todoB) (todoR ++ rest) = done ++ todoR ++ rest.
Proof.
  intro HF. revert done.
  induction HF as [|[k bv] [k' rv] todoB todoR [Hk Hv] HF IH]; intros done H.
  - simpl. rewrite app_nil_r. apply mergeEntries_new. exact H.
  - simpl in Hk, Hv. subst k'. simpl.
    assert (Hd : ~ In k (Obj.keys done)).
    { intro Hin. simpl in H. apply NoDup_remove_2 in H. apply H.
      apply in_or_app; auto. }
    unfold mergeProp, prop. rewrite (own_middle k bv done todoB Hd).
    rewrite Hv. rewrite (assign_middle k rv bv done todoB Hd).
    change (done ++ (k, rv) :: todoB) with (done ++ [(k, rv)] ++ todoB).
    rewrite app_assoc. rewrite IH.
    + rewrite <- app_assoc. reflexivity.
    + unfold Obj.keys. rewrite map_app. simpl. rewrite <- app_assoc. exact H.
Qed.

Lemma pairing (b r : obj) (R : value -> value -> Prop) :
  Obj.keys r = Obj.keys b ->
  (forall k bv rv, In (k, bv) b -> In (k, rv) r -> R bv rv) ->
  Forall2 (fun x y => fst x = fst y /\ R (snd x) (snd y)) b r.
Proof.
  revert r. induction b as [|[k bv] b IH]; intros [|[k' rv] r] Hk H;
    try discriminate Hk; constructor.
  - simpl in Hk. injection Hk as -> Hk. simpl. split; [reflexivity|].
    apply (H k); simpl; auto.
  - simpl in Hk. injection Hk as -> Hk. apply IH; [exact Hk|].
    intros k0 bv0 rv0 Hb Hr. apply (H k0); simpl; auto.
Qed.

Lemma split_keys (r : obj) (ks ext : list string) :
  Obj.keys r = ks ++ ext ->
  exists r1 r2, r = r1 ++ r2 /\ Obj.keys r1 = ks /\ Obj.keys r2 = ext.
Proof.
  revert r. induction ks as [|k ks IH]; intros r H.
  - exists [], r. auto.
  - destruct r as [|[k' v] r]; [discriminate H|].
    simpl in H. injection H as -> H.
    destruct (IH r H) as (r1 & r2 & -> & H1 & H2).
    exists ((k, v) :: r1), r2. simpl. rewrite H1. auto.
Qed.

(** The absorption lemma: merging [r] into [b] gives [r] again when [r]
    starts with the keys of [b] and every value of [r] under a key of [b]
    is kept by the merge. *)
Lemma mergeEntries_absorb (b r : obj) :
  NoDup (Obj.keys r) ->
  (exists ext, Obj.keys r = Obj.keys b ++ ext) ->
  (forall k bv rv, Obj.own b k = Some bv -> Obj.own r k = Some rv ->
                   mergeValue bv rv = rv) ->
  mergeEntries b r = r.
Proof.
  intros Hd [ext Hk] H.
  destruct (split_keys r _ _ Hk) as (r1 & r2 & -> & H1 & H2).
  assert (Hdb : NoDup (Obj.keys b)).
  { rewrite Hk in Hd. apply NoDup_app_remove_r in Hd. exact Hd. }
  apply (mergeEntries_absorb_from b r1 [] r2).
  - apply (pairing b r1 (fun bv rv => mergeValue bv rv = rv)); [exact H1|].
    intros k bv rv Hb Hr. apply (H k).
    + apply in_own; assumption.
    + apply in_own; [exact Hd | apply in_or_app; auto].
  - simpl. rewrite H2. rewrite <- Hk. exact Hd.
Qed.

End MergeFacts.

(** ** Idempotence of the merge *)

Module IdempotenceFacts.
Import ObjFacts MergeFacts.

Lemma distinctKeys_obj (o : obj) :
  distinctKeys (VObj o) = true ->
  NoDup (Obj.keys o) /\ Forall (fun kv => distinctKeys (snd kv) = true) o.
Proof.
  simpl. rewrite andb_true_iff, forallb_forall, distinct_NoDup.
  intros [Hd Hf]. split; [exact Hd | apply Forall_forall; exact Hf].
Qed.

Lemma distinctKeys_own (o : obj) (k : string) (v : value) :
  distinctKeys (VObj o) = true -> Obj.own o k = Some v -> distinctKeys v = true.
Proof.
  intros H Hk. destruct (distinctKeys_obj o H) as [_ Hf].
  rewrite Forall_forall in Hf. apply (Hf (k, v)). apply own_in. exact Hk.
Qed.

(** Merging a value into itself changes nothing. *)
Lemma mergeValue_self (b : value) :
  distinctKeys b = true -> mergeValue b b = b.
Proof.
  induction b as [ | |c|n|s|l _|o IH] using value_induction; intro H;
    try (apply mergeValue_left; reflexivity).
  rewrite mergeValue_obj. f_equal.
  destruct (distinctKeys_obj o H) as [Hd Hf].
  apply mergeEntries_absorb.
  - exact Hd.
  - exists []. rewrite app_nil_r. reflexivity.
  - intros k bv rv Hb Hr. rewrite Hb in Hr. injection Hr as <-.
    rewrite Forall_forall in IH. apply (IH (k, bv)).
    + apply own_in. exact Hb.
    + apply (distinctKeys_own o k bv H Hb).
Qed.

(** Merging the result of a merge into the same base changes nothing. *)
Lemma mergeValue_idem (v b : value) :
  distinctKeys b = true -> distinctKeys v = true ->
  mergeValue b (mergeValue b v) = mergeValue b v.
Proof.
  revert b.
  induction v as [ | |c|n|s|l _|p IH] using value_induction; intros b Hb Hv;
    try (match goal with
         | |- mergeValue _ (mergeValue _ ?x) = _ =>
             rewrite (mergeValue_right b x) by reflexivity;
             apply mergeValue_right; reflexivity
         end).
  destruct b as [ | |c|n|s|l|bl];
    try (match goal with
         | |- mergeValue ?y (mergeValue _ ?x) = _ =>
             rewrite (mergeValue_left y x) by reflexivity;
             apply mergeValue_left; reflexivity
         end).
  rewrite !mergeValue_obj. f_equal.
  destruct (distinctKeys_obj bl Hb) as [Hdb _].
  destruct (distinctKeys_obj p Hv) as [Hdp _].
  apply mergeEntries_absorb.
  - apply NoDup_keys_mergeEntries. exact Hdb.
  - apply keys_mergeEntries.
  - intros k bv rv Hbk Hrk.
    rewrite (own_mergeEntries bl p k Hdp) in Hrk.
    unfold prop in Hrk. rewrite Hbk in Hrk.
    destruct (Obj.own p k) as [v'|] eqn:Hpk.
    + injection Hrk as <-.
      rewrite Forall_forall in IH. apply (IH (k, v')).
      * apply own_in. exact Hpk.
      * apply (distinctKeys_own bl k bv Hb Hbk).
      * apply (distinctKeys_own p k v' Hv Hpk).
    + injection Hrk as <-. apply mergeValue_self.
      apply (distinctKeys_own bl k bv Hb Hbk).
Qed.

Lemma parsed_distinctKeys (v : value) : parsed v = true -> distinctKeys v = true.
Proof.
  induction v as [ | |c|n|s|l IH|o IH] using value_induction; simpl; intro H;
    try reflexivity.
  - rewrite forallb_forall in *. rewrite Forall_forall in IH. auto.
  - rewrite !andb_true_iff in H. destruct H as [[Hd _] Hf].
    rewrite Hd. simpl. rewrite forallb_forall in *.
    rewrite Forall_forall in IH. auto.
Qed.

(** *** Object spread *)

Lemma assign_all_new (acc es : obj) :
  NoDup (Obj.keys acc ++ Obj.keys es) ->
  fold_left (fun o kv => Obj.assign (fst kv) (snd kv) o) es acc = acc ++ es.
Proof.
  revert acc. induction es as [|[k v] es IH]; intros acc H; simpl.
  - rewrite app_nil_r. reflexivity.
  - assert (Hk : ~ In k (Obj.keys acc)).
    { intro Hin. apply NoDup_remove_2 in H. apply H. apply in_or_app; auto. }
    rewrite (assign_absent _ _ _ Hk). rewrite IH.
    + rewrite <- app_assoc. reflexivity.
    + unfold Obj.keys. rewrite map_app. simpl. rewrite <- app_assoc. exact H.
Qed.

(** [{...s}] is [s]. *)
Lemma spread_self (s : obj) : NoDup (Obj.keys s) -> spread (VObj s) [] = s.
Proof. intro H. unfold spread. simpl. apply (assign_all_new [] s). exact H. Qed.

Lemma keys_spread (src : value) (out : obj) :
  exists ext, Obj.keys (spread src out) = Obj.keys out ++ ext.
Proof.
  unfold spread. revert out.
  induction (ownEntries src) as [|[k v] es IH]; intro out; simpl.
  - exists []. rewrite app_nil_r. reflexivity.
  - destruct (IH (Obj.assign k v out)) as [ext ->].
    destruct (keys_assign k v out) as [ext' ->].
    exists (ext' ++ ext). rewrite app_assoc. reflexivity.
Qed.

Lemma NoDup_keys_spread (src : value) (out : obj) :
  NoDup (Obj.keys out) -> NoDup (Obj.keys (spread src out)).
Proof.
  unfold spread. revert out.
  induction (ownEntries src) as [|[k v] es IH]; intros out H; simpl.
  - exact H.
  - apply IH. apply NoDup_keys_assign. exact H.
Qed.

(** An object literal of non-object defaults followed by a spread is kept
    when merged into the defaults. *)
Lemma spread_absorbed (src : value) (base : obj) :
  NoDup (Obj.keys base) ->
  (forall k bv, Obj.own base k = Some bv -> isPlainObject bv = false) ->
  mergeValue (VObj base) (VObj (spread src base)) = VObj (spread src base).
Proof.
  intros Hd Hb. rewrite mergeValue_obj. f_equal. apply mergeEntries_absorb.
  - apply NoDup_keys_spread. exact Hd.
  - apply keys_spread.
  - intros k bv rv Hk _. apply mergeValue_left. apply (Hb k bv Hk).
Qed.

(** *** The invariant [absorbedBy] *)

Lemma absorbed_merge (d entries : obj) :
  distinctKeys (VObj d) = true -> distinctKeys (VObj entries) = true ->
  absorbedBy d (mergeEntries d entries).
Proof.
  intros Hd He.
  destruct (distinctKeys_obj d Hd) as [Hnd _].
  destruct (distinctKeys_obj entries He) as [Hne _].
  repeat split.
  - apply NoDup_keys_mergeEntries. exact Hnd.
  - apply keys_mergeEntries.
  - intros k bv rv Hbk Hrk.
    rewrite (own_mergeEntries d entries k Hne) in Hrk.
    unfold prop in Hrk. rewrite Hbk in Hrk.
    destruct (Obj.own entries k) as [v'|] eqn:Hek; injection Hrk as <-.
    + apply mergeValue_idem.
      * apply (distinctKeys_own d k bv Hd Hbk).
      * apply (distinctKeys_own entries k v' He Hek).
    + apply mergeValue_self. apply (distinctKeys_own d k bv Hd Hbk).
Qed.

Lemma absorbed_assign (d s : obj) (k : string) (x : value) :
  absorbedBy d s -> In k (Obj.keys s) ->
  (forall bv, Obj.own d k = Some bv -> mergeValue bv x = x) ->
  absorbedBy d (Obj.assign k x s).
Proof.
  intros (Hn & Hk & Hv) Hin Hx. repeat split.
  - apply NoDup_keys_assign. exact Hn.
  - rewrite (keys_assign_present k x s Hin). exact Hk.
  - intros k' bv rv Hb Hr. destruct (string_dec k k') as [<-|Hne].
    + rewrite own_assign_same in Hr. injection Hr as <-. apply Hx. exact Hb.
    + rewrite (own_assign_other k k' x s Hne) in Hr. apply (Hv k' bv rv Hb Hr).
Qed.

Lemma absorbed_keys (d s : obj) (k : string) :
  absorbedBy d s -> In k (Obj.keys d) -> In k (Obj.keys s).
Proof.
  intros (_ & [ext ->] & _) H. apply in_or_app; auto.
Qed.

Lemma absorbed_fixpoint (d s : obj) : absorbedBy d s -> mergeEntries d s = s.
Proof.
  intros (Hn & Hk & Hv). apply mergeEntries_absorb; assumption.
Qed.

End IdempotenceFacts.

(** ** State migration *)

Section MigrationFacts.
Import ObjFacts MergeFacts IdempotenceFacts.

Variable String_num : num -> string.

Lemma Forall_assign {A : Type} (P : string * A -> Prop) (k : string) (x : A)
    (o : list (string * A)) :
  Forall P o -> P (k, x) -> Forall P (Obj.assign k x o).
Proof.
  intros Ho Hx. induction o as [|[k' v'] o IH]; simpl.
  - constructor; [exact Hx | constructor].
  - inversion Ho as [|? ? Hh Ht]; subst.
    destruct (String.eqb_spec k' k) as [->|Hn]; constructor; auto.
Qed.

Lemma distinctKeys_assign (o : obj) (k : string) (x : value) :
  distinctKeys (VObj o) = true -> distinctKeys x = true ->
  distinctKeys (VObj (Obj.assign k x o)) = true.
Proof.
  intros Ho Hx. destruct (distinctKeys_obj o Ho) as [Hd Hf].
  simpl. rewrite andb_true_iff. split.
  - apply distinct_NoDup. apply (NoDup_keys_assign k x o Hd).
  - apply forallb_forall. apply Forall_forall.
    apply (Forall_assign (fun kv => distinctKeys (snd kv) = true)); auto.
Qed.

Lemma normalizePrices_distinct (entries acc normalized : obj) :
  normalizePrices String_num entries acc = Some normalized ->
  distinctKeys (VObj acc) = true -> distinctKeys (VObj normalized) = true.
Proof.
  revert acc. induction entries as [|[k v] es IH]; intros acc H Hacc; simpl in H.
  - injection H as <-. exact Hacc.
  - destruct (if isPlainObject v then _ else _) as [t|]; [|discriminate H].
    apply (IH _ H). apply distinctKeys_assign; [exact Hacc | reflexivity].
Qed.

(** *** The invariant of the migration steps *)

Lemma defaultState_distinct : distinctKeys (VObj defaultState) = true.
Proof. vm_compute; reflexivity. Qed.

Lemma defaultState_key (k : string) :
  Obj.has defaultState k = true -> In k (Obj.keys defaultState).
Proof. apply has_in. Qed.

Lemma defined_assign (d s : obj) (k : string) (x : value) :
  definedOn d s -> x <> VUndef -> definedOn d (Obj.assign k x s).
Proof.
  intros H Hx k' Hk'. destruct (H k' Hk') as [Hh Hp]. split.
  - apply has_in. apply in_keys_assign. apply has_in. exact Hh.
  - unfold prop. destruct (string_dec k k') as [<-|Hne].
    + rewrite own_assign_same. exact Hx.
    + rewrite (own_assign_other k k' x s Hne). exact Hp.
Qed.

Lemma mergeValue_defined (b v : value) : v <> VUndef -> mergeValue b v <> VUndef.
Proof.
  intro H. unfold mergeValue.
  destruct b as [ | |c|n|s|l|bl]; simpl; try exact H.
  destruct v as [ | |c|n|s|l|p]; simpl; try exact H. discriminate.
Qed.

Lemma parsed_own (o : obj) (k : string) (v : value) :
  parsed (VObj o) = true -> Obj.own o k = Some v -> parsed v = true.
Proof.
  simpl. rewrite !andb_true_iff, forallb_forall. intros [_ Hf] Hk.
  apply (Hf (k, v)). apply own_in. exact Hk.
Qed.

Lemma parsed_defined (v : value) : parsed v = true -> v <> VUndef.
Proof. intros H ->. discriminate H. Qed.

(** The merge of a parsed document into the defaults. *)
Lemma kept_merge (incoming : obj) :
  parsed (VObj incoming) = true -> kept (mergeEntries defaultState incoming).
Proof.
  intro Hp. pose proof (parsed_distinctKeys _ Hp) as Hd. split.
  - apply absorbed_merge; [apply defaultState_distinct | exact Hd].
  - intros k Hk.
    destruct (distinctKeys_obj incoming Hd) as [Hn _].
    assert (E := own_mergeEntries defaultState incoming k Hn).
    assert (Hv : exists v, Obj.own (mergeEntries defaultState incoming) k = Some v
                           /\ v <> VUndef).
    { rewrite E. destruct (Obj.own incoming k) as [v|] eqn:Hi.
      - eexists; split; [reflexivity|]. apply mergeValue_defined.
        apply parsed_defined. apply (parsed_own incoming k v Hp Hi).
      - clear E. unfold Obj.has in Hk.
        destruct (Obj.own defaultState k) as [dv|] eqn:Ed; [|discriminate Hk].
        exists dv. split; [reflexivity|].
        apply own_in in Ed. vm_compute in Ed.
        repeat (destruct Ed as [Ed|Ed]; [injection Ed as _ <-; discriminate|]).
        contradiction. }
    destruct Hv as [v [Hv Hne]]. unfold Obj.has, prop. rewrite Hv. auto.
Qed.

(** An assignment to a property of the defaults. *)
Lemma kept_set (r : obj) (k : string) (x : value) :
  kept r -> Obj.has defaultState k = true -> x <> VUndef ->
  (forall bv, Obj.own defaultState k = Some bv -> mergeValue bv x = x) ->
  kept (Obj.assign k x r).
Proof.
  intros [Ha Hd] Hk Hx Hm. split.
  - apply absorbed_assign; [exact Ha | | exact Hm].
    apply (absorbed_keys defaultState r k Ha). apply has_in. exact Hk.
  - apply defined_assign; assumption.
Qed.

(** A migration step [{...s, k: x}]. *)
Lemma kept_assign (r : obj) (k : string) (x : value) :
  kept r -> Obj.has defaultState k = true -> x <> VUndef ->
  (forall bv, Obj.own defaultState k = Some bv -> mergeValue bv x = x) ->
  kept (Obj.assign k x (spread (VObj r) [])).
Proof.
  intros H Hk Hx Hm.
  rewrite (spread_self r) by (destruct H as [[Hn _] _]; exact Hn).
  apply kept_set; assumption.
Qed.

Lemma kept_v0_v1 (r : obj) :
  kept r ->
  exists r', migrate_v0_v1 (VObj r) = VObj r' /\ kept r' /\
             prop r' "prices" = prop r "prices".
Proof.
  intro H. eexists. split; [reflexivity|]. split.
  - apply kept_assign; [exact H | reflexivity | discriminate |].
    intros bv Hbv. vm_compute in Hbv. injection Hbv as <-.
    apply (spread_absorbed _ potionRowDetailsClosed).
    + apply distinct_NoDup. reflexivity.
    + intros k bv Hk. apply own_in in Hk. simpl in Hk.
      repeat (destruct Hk as [Hk|Hk]; [injection Hk as _ <-; reflexivity|]).
      contradiction.
  - destruct H as [[Hn _] _]. rewrite (spread_self r Hn).
    unfold prop. rewrite own_assign_other by discriminate. reflexivity.
Qed.

Lemma prices_absorbed (normalized : obj) :
  distinctKeys (VObj normalized) = true ->
  forall bv, Obj.own defaultState "prices" = Some bv ->
  mergeValue bv (deepMerge (prop defaultState "prices") (VObj normalized))
  = deepMerge (prop defaultState "prices") (VObj normalized).
Proof.
  intros Hn bv Hbv.
  pose proof (distinctKeys_own _ _ _ defaultState_distinct Hbv) as Hd.
  unfold prop. rewrite Hbv.
  assert (Ho : exists o, bv = VObj o)
    by (vm_compute in Hbv; injection Hbv as <-; eexists; reflexivity).
  destruct Ho as [o ->].
  change (deepMerge (VObj o) (VObj normalized))
    with (mergeValue (VObj o) (VObj normalized)).
  apply mergeValue_idem; assumption.
Qed.

Lemma kept_v1_v2 (r : obj) (s' : value) :
  kept r -> migrate_v1_v2 String_num defaultState (VObj r) = Some s' ->
  exists r', s' = VObj r' /\ kept r'.
Proof.
  intros H E. unfold migrate_v1_v2 in E.
  destruct (normalizePrices String_num _ []) as [normalized|] eqn:En;
    [|discriminate E].
  injection E as <-. eexists. split; [reflexivity|].
  pose proof (normalizePrices_distinct _ _ _ En eq_refl) as Hn.
  apply kept_assign; [exact H | reflexivity | discriminate | ].
  exact (prices_absorbed normalized Hn).
Qed.

Lemma kept_v2_v3 (r : obj) :
  kept r -> exists r', migrate_v2_v3 (VObj r) = VObj r' /\ kept r'.
Proof.
  intro H. eexists. split; [reflexivity|].
  apply kept_assign; [exact H | reflexivity | discriminate |].
  intros bv Hbv. vm_compute in Hbv. injection Hbv as <-.
  apply (spread_absorbed _ emptyFeedbacks).
  - apply distinct_NoDup. reflexivity.
  - intros k bv Hk. apply own_in in Hk. simpl in Hk.
    repeat (destruct Hk as [Hk|Hk]; [injection Hk as _ <-; reflexivity|]).
    contradiction.
Qed.

Lemma kept_v3_v4 (r : obj) :
  kept r -> exists r', migrate_v3_v4 (VObj r) = VObj r' /\ kept r'.
Proof.
  intro H. eexists. split; [reflexivity|].
  apply kept_assign; [exact H | reflexivity | discriminate |].
  intros bv Hbv. vm_compute in Hbv. injection Hbv as <-.
  apply mergeValue_left. reflexivity.
Qed.

(** *** One pass and a second pass *)

Lemma incoming_parsed (raw : value) :
  wellFormed raw = true ->
  exists il, (if isPlainObject raw then raw else VObj []) = VObj il
             /\ parsed (VObj il) = true.
Proof.
  destruct raw as [ | |c|n|s|l|o]; simpl; intro H; eexists; split;
    try reflexivity; exact H.
Qed.

Lemma step_v0_v1 (c : bool) (r : obj) :
  kept r ->
  exists r', (if c then migrate_v0_v1 (VObj r) else VObj r) = VObj r'
             /\ kept r' /\ prop r' "prices" = prop r "prices".
Proof.
  intro H. destruct c; [apply kept_v0_v1; exact H|].
  exists r. auto.
Qed.

Lemma step_v1_v2 (c : bool) (r : obj) (s' : value) :
  kept r ->
  (if c then migrate_v1_v2 String_num defaultState (VObj r) else Some (VObj r))
  = Some s' ->
  exists r', s' = VObj r' /\ kept r'.
Proof.
  intros H E. destruct c; [apply (kept_v1_v2 r s' H E)|].
  injection E as <-. exists r. auto.
Qed.

Lemma step_v2_v3 (c : bool) (r : obj) :
  kept r ->
  exists r', (if c then migrate_v2_v3 (VObj r) else VObj r) = VObj r' /\ kept r'.
Proof.
  intro H. destruct c; [apply kept_v2_v3; exact H|]. exists r. auto.
Qed.

Lemma step_v3_v4 (c : bool) (r : obj) :
  kept r ->
  exists r', (if c then migrate_v3_v4 (VObj r) else VObj r) = VObj r' /\ kept r'.
Proof.
  intro H. destruct c; [apply kept_v3_v4; exact H|]. exists r. auto.
Qed.

(** What one pass returns. *)
Lemma migrateState_kept (raw m : value) :
  wellFormed raw = true ->
  migrateState String_num raw defaultState = Some m ->
  exists mo, m = VObj mo /\ kept mo
             /\ Obj.own mo "schemaVersion" = Some (VNum (Num.ofZ 4)).
Proof.
  intros Hw E. unfold migrateState in E.
  destruct (incoming_parsed raw Hw) as [il [Ei Hp]]. rewrite Ei in E.
  cbv zeta in E. rewrite deepMerge_obj in E.
  pose proof (kept_merge il Hp) as H0.
  set (ver := match member (VObj il) "schemaVersion" with
              | VNum n => if Num.isFinite n then n else Num.zero
              | _ => Num.zero
              end) in E.
  destruct (step_v0_v1 (ver <? Num.ofZ 1)%num _ H0) as (r1 & E1 & H1 & _).
  rewrite E1 in E.
  destruct (if (ver <? Num.ofZ 2)%num
            then migrate_v1_v2 String_num defaultState (VObj r1)
            else Some (VObj r1)) as [s2|] eqn:E2; [|discriminate E].
  destruct (step_v1_v2 _ r1 s2 H1 E2) as (r2 & -> & H2).
  destruct (step_v2_v3 (ver <? Num.ofZ 3)%num _ H2) as (r3 & E3 & H3).
  rewrite E3 in E.
  destruct (step_v3_v4 (ver <? Num.ofZ 4)%num _ H3) as (r4 & E4 & H4).
  rewrite E4 in E. injection E as <-.
  eexists. split; [reflexivity|]. split.
  - apply kept_set; [exact H4 | reflexivity | discriminate |].
    intros bv Hbv. vm_compute in Hbv. injection Hbv as <-.
    apply mergeValue_left. reflexivity.
  - apply own_assign_same.
Qed.


(** *** When the conversion to a string succeeds *)

Lemma printable_obj (o : obj) :
  printable (VObj o) = true ->
  Obj.has o "toString" = false /\ Forall (fun kv => printable (snd kv) = true) o.
Proof.
  simpl. rewrite andb_true_iff, negb_true_iff, forallb_forall.
  intros [Hh Hf]. split; [exact Hh | apply Forall_forall; exact Hf].
Qed.

Lemma printable_prop (o : obj) (k : string) :
  printable (VObj o) = true -> printable (prop o k) = true.
Proof.
  intro H. destruct (printable_obj o H) as [_ Hf]. unfold prop.
  destruct (Obj.own o k) as [v|] eqn:E; [|reflexivity].
  rewrite Forall_forall in Hf. apply (Hf (k, v)). apply own_in. exact E.
Qed.

Lemma printable_member (v : value) (k : string) :
  printable v = true -> printable (member v k) = true.
Proof.
  destruct v as [ | |c|n|s|l|o]; try reflexivity. apply printable_prop.
Qed.

Lemma printable_coalesce (a b : value) :
  printable a = true -> printable b = true -> printable (coalesce a b) = true.
Proof. intros Ha Hb. unfold coalesce. destruct (nullish a); assumption. Qed.

Lemma toString_printable (v : value) :
  printable v = true -> exists t, toString String_num v = Some t.
Proof.
  induction v as [ | |c|n|s|l IH|o _] using value_induction; intro H;
    try (eexists; reflexivity).
  - simpl in H. rewrite forallb_forall in H.
    assert (Hs : exists ts,
               sequence
                 (map (fun e => if nullish e then Some ""
                                else toString String_num e) l) = Some ts).
    { induction l as [|x l IHl]; [eexists; reflexivity|].
      inversion IH as [|? ? Hx Hl]; subst.
      destruct (IHl Hl) as [ts Hts]; [intros y Hy; apply H; right; exact Hy|].
      simpl. destruct (nullish x).
      - rewrite Hts. eexists; reflexivity.
      - destruct (Hx (H x (or_introl eq_refl))) as [t ->]. rewrite Hts.
        eexists; reflexivity. }
    destruct Hs as [ts Hts]. simpl. rewrite Hts. eexists; reflexivity.
  - destruct (printable_obj o H) as [Hh _]. simpl. rewrite Hh.
    eexists; reflexivity.
Qed.

Lemma normalizePrices_total (entries acc : obj) :
  Forall (fun kv => printable (snd kv) = true) entries ->
  exists normalized, normalizePrices String_num entries acc = Some normalized.
Proof.
  intro H. revert acc.
  induction H as [|[k v] es Hv Hes IH]; intro acc; simpl.
  - eexists; reflexivity.
  - simpl in Hv.
    assert (Ht : exists t,
               (if isPlainObject v
                then toString String_num
                       (coalesce
                          (coalesce
                             (coalesce
                                (coalesce (member v "market") (member v "grossSell"))
                                (member v "buy"))
                             (VNum Num.zero))
                          (VStr ""))
                else toString String_num (coalesce v (VStr ""))) = Some t).
    { destruct (isPlainObject v); apply toString_printable;
        repeat apply printable_coalesce;
        auto using printable_member. }
    destruct Ht as [t ->]. apply IH.
Qed.

Lemma printable_indexed (l : list value) (i : nat) :
  Forall (fun v => printable v = true) l ->
  Forall (fun kv : string * value => printable (snd kv) = true) (indexed i l).
Proof.
  intro H. revert i. induction H as [|x l Hx Hl IH]; intro i; simpl;
    constructor; auto.
Qed.

Lemma printable_chars (s : string) :
  Forall (fun v => printable v = true) (chars s).
Proof. induction s as [|c s IH]; simpl; constructor; auto. Qed.

Lemma printable_entries (v : value) :
  printable v = true ->
  Forall (fun kv => printable (snd kv) = true) (ownEntries v).
Proof.
  destruct v as [ | |c|n|s|l|o]; intro H; simpl; try constructor.
  - apply printable_indexed. apply printable_chars.
  - apply printable_indexed. simpl in H. rewrite forallb_forall in H.
    apply Forall_forall. exact H.
  - apply (printable_obj o H).
Qed.

Lemma has_assign_other {A : Type} (k k' : string) (x : A) (o : list (string * A)) :
  k <> k' -> Obj.has (Obj.assign k x o) k' = Obj.has o k'.
Proof. intro H. unfold Obj.has. rewrite own_assign_other by exact H. reflexivity. Qed.

Lemma printable_assign (o : obj) (k : string) (x : value) :
  printable (VObj o) = true -> k <> "toString" -> printable x = true ->
  printable (VObj (Obj.assign k x o)) = true.
Proof.
  intros Ho Hk Hx. destruct (printable_obj o Ho) as [Hh Hf].
  simpl. rewrite andb_true_iff, negb_true_iff. split.
  - rewrite has_assign_other by exact Hk. exact Hh.
  - apply forallb_forall. apply Forall_forall.
    apply (Forall_assign (fun kv => printable (snd kv) = true)); auto.
Qed.

Lemma printable_mergeValue (v b : value) :
  printable b = true -> printable v = true -> printable (mergeValue b v) = true.
Proof.
  revert b.
  induction v as [ | |c|n|s|l _|p IH] using value_induction; intros b Hb Hv;
    try (rewrite mergeValue_right by reflexivity; exact Hv).
  destruct b as [ | |c|n|s|l|bl];
    try (rewrite mergeValue_left by reflexivity; exact Hv).
  rewrite mergeValue_obj.
  destruct (printable_obj p Hv) as [Hh Hf]. clear Hv.
  revert bl Hb. induction p as [|[k v] p IHp]; intros bl Hb; simpl.
  - exact Hb.
  - inversion IH as [|? ? IHv IHrest]; subst.
    inversion Hf as [|? ? Hv Hrest]; subst.
    unfold Obj.has in Hh. simpl in Hh.
    destruct (String.eqb_spec k "toString") as [->|Hk]; [discriminate Hh|].
    apply IHp; [exact IHrest | exact Hh | exact Hrest |].
    unfold mergeProp. apply printable_assign; [exact Hb | exact Hk |].
    apply IHv; [apply printable_prop; exact Hb | exact Hv].
Qed.

(** The prices that the step v1 -> v2 reads after the merge of a
    printable document. *)
Lemma merged_prices_printable (incoming : obj) :
  parsed (VObj incoming) = true -> printable (VObj incoming) = true ->
  printable (prop (mergeEntries defaultState incoming) "prices") = true.
Proof.
  intros Hp Hq.
  destruct (distinctKeys_obj incoming (parsed_distinctKeys _ Hp)) as [Hn _].
  unfold prop at 1. rewrite (own_mergeEntries defaultState incoming "prices" Hn).
  pose proof (printable_prop incoming "prices" Hq) as Hi. unfold prop in Hi.
  destruct (Obj.own incoming "prices") as [v|].
  - apply printable_mergeValue; [vm_compute; reflexivity | exact Hi].
  - vm_compute; reflexivity.
Qed.

Lemma printable_orElse (a b : value) :
  printable a = true -> printable b = true -> printable (orElse a b) = true.
Proof. intros Ha Hb. unfold orElse. destruct (truthy a); assumption. Qed.

(** One pass returns a document when the raw document is printable. *)
Lemma migrateState_total (raw : value) :
  wellFormed raw = true -> printable raw = true ->
  exists m, migrateState String_num raw defaultState = Some m.
Proof.
  intros Hw Hq. unfold migrateState.
  destruct (incoming_parsed raw Hw) as [il [Ei Hp]].
  assert (Hqi : printable (VObj il) = true).
  { destruct raw as [ | |c|n|s|l|o]; simpl in Ei; injection Ei as <-;
      try reflexivity; exact Hq. }
  rewrite Ei. cbv zeta. rewrite deepMerge_obj.
  pose proof (kept_merge il Hp) as H0.
  pose proof (merged_prices_printable il Hp Hqi) as Hpr.
  set (ver := match member (VObj il) "schemaVersion" with
              | VNum n => if Num.isFinite n then n else Num.zero
              | _ => Num.zero
              end).
  destruct (step_v0_v1 (ver <? Num.ofZ 1)%num _ H0) as (r1 & E1 & H1 & P1).
  rewrite E1. rewrite <- P1 in Hpr.
  assert (E2 : exists s2,
             (if (ver <? Num.ofZ 2)%num
              then migrate_v1_v2 String_num defaultState (VObj r1)
              else Some (VObj r1)) = Some s2).
  { destruct (ver <? Num.ofZ 2)%num; [|eexists; reflexivity].
    unfold migrate_v1_v2. cbn [member].
    destruct (normalizePrices_total
                (ownEntries (orElse (prop r1 "prices") (VObj []))) [])
      as [normalized ->]; [|eexists; reflexivity].
    apply printable_entries. apply printable_orElse; [exact Hpr | reflexivity]. }
  destruct E2 as [s2 ->]. eexists; reflexivity.
Qed.

(** *** The migration theorems *)


Lemma migrateState_steps (raw : value) (defaults : obj) :
  migrateState String_num raw defaults
  = (let v := incomingVersion raw in
     let s := deepMerge (VObj defaults) (incomingOf raw) in
     let s := if (v <? Num.ofZ 1)%num then migrate_v0_v1 s else s in
     s <- (if (v <? Num.ofZ 2)%num
           then migrate_v1_v2 String_num defaults s else Some s) ;;
     let s := if (v <? Num.ofZ 3)%num then migrate_v2_v3 s else s in
     let s := if (v <? Num.ofZ 4)%num then migrate_v3_v4 s else s in
     Some (setMember s "schemaVersion" (prop defaults "schemaVersion"))).
Proof. reflexivity. Qed.

Lemma incomingOf_object (raw : value) : exists il, incomingOf raw = VObj il.
Proof. destruct raw; simpl; eexists; reflexivity. Qed.

(** *** The migrated document is well formed *)

Lemma parsed_obj (o : obj) :
  parsed (VObj o) = true <->
  NoDup (Obj.keys o) /\ ~ In "__proto__" (Obj.keys o) /\
  Forall (fun kv => parsed (snd kv) = true) o.
Proof.
  simpl. rewrite !andb_true_iff, negb_true_iff, forallb_forall.
  rewrite <- Forall_forall.
  change (map fst o) with (Obj.keys o). rewrite distinct_NoDup.
  assert (P : existsb (String.eqb "__proto__") (Obj.keys o) = false
              <-> ~ In "__proto__" (Obj.keys o)).
  { split.
    - intros H2 Hin.
      assert (E : existsb (String.eqb "__proto__") (Obj.keys o) = true).
      { apply existsb_exists. exists "__proto__". split; [exact Hin|].
        apply String.eqb_refl. }
      rewrite E in H2. discriminate H2.
    - intro H2.
      destruct (existsb (String.eqb "__proto__") (Obj.keys o)) eqn:E;
        [|reflexivity].
      apply existsb_exists in E. destruct E as [x [Hin Hx]].
      apply String.eqb_eq in Hx. subst x. contradiction. }
  rewrite P. tauto.
Qed.

Lemma parsed_assign (o : obj) (k : string) (x : value) :
  parsed (VObj o) = true -> parsed x = true -> k <> "__proto__" ->
  parsed (VObj (Obj.assign k x o)) = true.
Proof.
  rewrite !parsed_obj. intros (Hn & Hp & Hf) Hx Hk. split; [|split].
  - apply NoDup_keys_assign. exact Hn.
  - intro Hin. destruct (in_dec string_dec k (Obj.keys o)) as [Hi|Hi].
    + rewrite (keys_assign_present k x o Hi) in Hin. contradiction.
    + rewrite (assign_absent k x o Hi) in Hin. unfold Obj.keys in Hin.
      rewrite map_app in Hin. apply in_app_or in Hin.
      destruct Hin as [Hin|[Hin|[]]]; [contradiction|].
      apply Hk. exact Hin.
  - apply (Forall_assign (fun kv => parsed (snd kv) = true)); assumption.
Qed.

(** A property of a well-formed object is well formed, if it is there. *)
Lemma parsed_prop (o : obj) (k : string) :
  parsed (VObj o) = true -> prop o k = VUndef \/ parsed (prop o k) = true.
Proof.
  intro H. unfold prop. destruct (Obj.own o k) as [v|] eqn:E; [|left; reflexivity].
  right. apply (parsed_own o k v H E).
Qed.

Lemma parsed_mergeValue (v b : value) :
  parsed v = true -> b = VUndef \/ parsed b = true ->
  parsed (mergeValue b v) = true.
Proof.
  revert b.
  induction v as [ | |c|n|s|l _|p IH] using value_induction; intros b Hv Hb;
    try (rewrite mergeValue_right by reflexivity; exact Hv).
  destruct b as [ | |c|n|s|l|bl];
    try (rewrite mergeValue_left by reflexivity; exact Hv).
  destruct Hb as [Hb|Hb]; [discriminate Hb|].
  rewrite mergeValue_obj.
  apply parsed_obj in Hv. destruct Hv as (_ & Hk & Hf).
  revert bl Hb. induction p as [|[k v] p IHp]; intros bl Hb; simpl.
  - exact Hb.
  - inversion IH as [|? ? IHv IHrest]; subst.
    inversion Hf as [|? ? Hv Hrest]; subst.
    apply IHp; [exact IHrest | | exact Hrest |].
    + intro Hin. apply Hk. right. exact Hin.
    + unfold mergeProp. apply parsed_assign; [exact Hb | |].
      * apply IHv; [exact Hv | apply parsed_prop; exact Hb].
      * intro E. apply Hk. left. exact E.
Qed.

Lemma indexKey_ordinary (i : nat) : indexKey i <> "__proto__".
Proof. unfold indexKey. destruct (Nat.to_uint i); simpl; discriminate. Qed.

Lemma parsed_indexed (l : list value) (i : nat) :
  Forall (fun v => parsed v = true) l ->
  Forall (fun kv : string * value =>
            fst kv <> "__proto__" /\ parsed (snd kv) = true) (indexed i l).
Proof.
  intro H. revert i. induction H as [|x l Hx Hl IH]; intro i; simpl;
    constructor; [|apply IH].
  split; [apply indexKey_ordinary | exact Hx].
Qed.

Lemma parsed_chars (s : string) : Forall (fun v => parsed v = true) (chars s).
Proof. induction s as [|c s IH]; simpl; constructor; auto. Qed.

(** What a spread copies out of a well-formed value. *)
Lemma parsed_entries (v : value) :
  v = VUndef \/ parsed v = true ->
  Forall (fun kv => fst kv <> "__proto__" /\ parsed (snd kv) = true)
    (ownEntries v).
Proof.
  intros [->|H]; [constructor|].
  destruct v as [ | |c|n|s|l|o]; simpl; try constructor.
  - apply parsed_indexed. apply parsed_chars.
  - apply parsed_indexed. simpl in H. rewrite forallb_forall in H.
    apply Forall_forall. exact H.
  - apply parsed_obj in H. destruct H as (_ & Hk & Hf).
    apply Forall_forall. intros [k x] Hin. simpl. split.
    + intros ->. apply Hk. apply (in_map fst) in Hin. exact Hin.
    + rewrite Forall_forall in Hf. apply (Hf (k, x) Hin).
Qed.

Lemma parsed_spread (src : value) (out : obj) :
  src = VUndef \/ parsed src = true -> parsed (VObj out) = true ->
  parsed (VObj (spread src out)) = true.
Proof.
  intros Hs. unfold spread. pose proof (parsed_entries src Hs) as He.
  clear Hs. revert out.
  induction He as [|[k x] es [Hk Hx] _ IH]; intros out Ho; simpl.
  - exact Ho.
  - apply IH. apply parsed_assign; assumption.
Qed.

Lemma parsed_orElse (a b : value) :
  a = VUndef \/ parsed a = true -> parsed b = true ->
  parsed (orElse a b) = true.
Proof.
  intros [->|Ha] Hb; [exact Hb|]. unfold orElse.
  destruct (truthy a); assumption.
Qed.

Lemma normalizePrices_parsed (entries acc normalized : obj) :
  normalizePrices String_num entries acc = Some normalized ->
  Forall (fun kv : string * value => fst kv <> "__proto__") entries ->
  parsed (VObj acc) = true -> parsed (VObj normalized) = true.
Proof.
  revert acc. induction entries as [|[k v] es IH]; intros acc H He Hacc;
    simpl in H.
  - injection H as <-. exact Hacc.
  - destruct (if isPlainObject v then _ else _) as [t|]; [|discriminate H].
    inversion He as [|? ? Hk Hes]; subst.
    apply (IH _ H Hes). apply parsed_assign; [exact Hacc | reflexivity | exact Hk].
Qed.

(** A migration step [{...s, k: x}] under its guard. *)
Lemma parsed_step (c : bool) (r : obj) (k : string) (x : value) :
  parsed (VObj r) = true -> parsed x = true -> k <> "__proto__" ->
  exists r',
    (if c then VObj (Obj.assign k x (spread (VObj r) [])) else VObj r) = VObj r'
    /\ parsed (VObj r') = true
    /\ (c = true -> prop r' k = x)
    /\ (forall k', k' <> k -> prop r' k' = prop r k').
Proof.
  intros Hr Hx Hk. destruct c.
  - eexists. split; [reflexivity|].
    assert (Hn : NoDup (Obj.keys r)) by (apply parsed_obj in Hr; tauto).
    rewrite (spread_self r Hn). split; [|split].
    + apply parsed_assign; assumption.
    + intros _. unfold prop. rewrite own_assign_same. reflexivity.
    + intros k' Hk'. unfold prop. rewrite own_assign_other; [reflexivity|].
      intro E. apply Hk'. symmetry. exact E.
  - exists r. split; [reflexivity|]. split; [exact Hr|].
    split; [discriminate | reflexivity].
Qed.

(** The document that a migration returns is well formed again, and the
    groups that the steps below the stored version build are plain
    objects. *)
Lemma migrateState_parsed (raw m : value) :
  wellFormed raw = true ->
  migrateState String_num raw defaultState = Some m ->
  exists mo,
    m = VObj mo /\ parsed (VObj mo) = true /\
    ((incomingVersion raw <? Num.ofZ 1)%num = true ->
     isPlainObject (prop mo "potionRowDetailsOpen") = true) /\
    ((incomingVersion raw <? Num.ofZ 2)%num = true ->
     isPlainObject (prop mo "prices") = true) /\
    ((incomingVersion raw <? Num.ofZ 3)%num = true ->
     isPlainObject (prop mo "feedbacks") = true).
Proof.
  intros Hw E. rewrite migrateState_steps in E. cbv zeta in E.
  destruct (incoming_parsed raw Hw) as [il [Ei Hp]].
  unfold incomingOf in E. rewrite Ei in E. rewrite deepMerge_obj in E.
  set (v := incomingVersion raw) in *. clearbody v.
  assert (H0 : parsed (VObj (mergeEntries defaultState il)) = true).
  { rewrite <- mergeValue_obj. apply parsed_mergeValue; [exact Hp|].
    right. reflexivity. }
  set (r0 := mergeEntries defaultState il) in *. clearbody r0.
  (* v0 -> v1 *)
  destruct (parsed_step (v <? Num.ofZ 1)%num r0 "potionRowDetailsOpen"
              (VObj (spread (orElse (prop r0 "potionRowDetailsOpen") (VObj []))
                       potionRowDetailsClosed)) H0)
    as (r1 & E1 & H1 & G1 & K1); [ | discriminate | ].
  { apply parsed_spread; [|reflexivity]. right.
    apply parsed_orElse; [apply parsed_prop; exact H0 | reflexivity]. }
  change (if (v <? Num.ofZ 1)%num then migrate_v0_v1 (VObj r0) else VObj r0)
    with (if (v <? Num.ofZ 1)%num
          then VObj (Obj.assign "potionRowDetailsOpen"
                       (VObj (spread (orElse (prop r0 "potionRowDetailsOpen")
                                        (VObj []))
                                potionRowDetailsClosed))
                       (spread (VObj r0) []))
          else VObj r0) in E.
  rewrite E1 in E.
  (* v1 -> v2 *)
  assert (S2 : exists r2 x2,
             (if (v <? Num.ofZ 2)%num
              then migrate_v1_v2 String_num defaultState (VObj r1)
              else Some (VObj r1))
             = Some (if (v <? Num.ofZ 2)%num
                     then VObj (Obj.assign "prices" x2 (spread (VObj r1) []))
                     else VObj r1)
             /\ parsed x2 = true /\ isPlainObject x2 = true
             /\ (if (v <? Num.ofZ 2)%num
                 then VObj (Obj.assign "prices" x2 (spread (VObj r1) []))
                 else VObj r1) = VObj r2).
  { destruct (v <? Num.ofZ 2)%num.
    - unfold migrate_v1_v2 in E |- *.
      destruct (normalizePrices String_num _ []) as [normalized|] eqn:En;
        [|discriminate E].
      eexists. exists (deepMerge (prop defaultState "prices") (VObj normalized)).
      split; [reflexivity|]. split; [|split; [|reflexivity]].
      + change (deepMerge (prop defaultState "prices") (VObj normalized))
          with (mergeValue (prop defaultState "prices") (VObj normalized)).
        apply parsed_mergeValue; [|right; reflexivity].
        apply (normalizePrices_parsed _ _ _ En); [|reflexivity].
        eapply Forall_impl; [|apply parsed_entries].
        * intros a [Ha _]. exact Ha.
        * right. apply parsed_orElse; [|reflexivity].
          apply (parsed_prop r1 "prices" H1).
      + reflexivity.
    - exists r1, (VObj []). repeat split; reflexivity. }
  destruct S2 as (r2' & x2 & E2 & Hx2 & Px2 & _). rewrite E2 in E. clear E2.
  destruct (parsed_step (v <? Num.ofZ 2)%num r1 "prices" x2 H1 Hx2)
    as (r2 & E2 & H2 & G2 & K2); [discriminate|].
  rewrite E2 in E. clear r2'.
  (* v2 -> v3 *)
  destruct (parsed_step (v <? Num.ofZ 3)%num r2 "feedbacks"
              (VObj (spread (orElse (prop r2 "feedbacks") (VObj []))
                       emptyFeedbacks)) H2)
    as (r3 & E3 & H3 & G3 & K3); [ | discriminate | ].
  { apply parsed_spread; [|reflexivity]. right.
    apply parsed_orElse; [apply parsed_prop; exact H2 | reflexivity]. }
  change (if (v <? Num.ofZ 3)%num then migrate_v2_v3 (VObj r2) else VObj r2)
    with (if (v <? Num.ofZ 3)%num
          then VObj (Obj.assign "feedbacks"
                       (VObj (spread (orElse (prop r2 "feedbacks") (VObj []))
                                emptyFeedbacks))
                       (spread (VObj r2) []))
          else VObj r2) in E.
  rewrite E3 in E.
  (* v3 -> v4 *)
  destruct (parsed_step (v <? Num.ofZ 4)%num r3 "adminMode" (VBool false) H3)
    as (r4 & E4 & H4 & _ & K4); [reflexivity | discriminate | ].
  change (if (v <? Num.ofZ 4)%num then migrate_v3_v4 (VObj r3) else VObj r3)
    with (if (v <? Num.ofZ 4)%num
          then VObj (Obj.assign "adminMode" (VBool false) (spread (VObj r3) []))
          else VObj r3) in E.
  rewrite E4 in E. injection E as <-.
  eexists. split; [reflexivity|]. split; [|split; [|split]].
  - apply parsed_assign; [exact H4 | reflexivity | discriminate].
  - intro C. unfold prop at 1. rewrite own_assign_other by discriminate.
    fold (prop r4 "potionRowDetailsOpen").
    rewrite K4, K3, K2 by discriminate. rewrite (G1 C). reflexivity.
  - intro C. unfold prop at 1. rewrite own_assign_other by discriminate.
    fold (prop r4 "prices").
    rewrite K4, K3 by discriminate. rewrite (G2 C). exact Px2.
  - intro C. unfold prop at 1. rewrite own_assign_other by discriminate.
    fold (prop r4 "feedbacks").
    rewrite K4 by discriminate. rewrite (G3 C). reflexivity.
Qed.

(** *** Every field of the defaults, at any depth *)

(** A well-formed document that the merge into [d] leaves as it is has
    every field of [d], wherever it holds a plain object. *)
Lemma covers_fixed (d m : value) :
  distinctKeys d = true -> parsed m = true -> mergeValue d m = m ->
  covers d m = true.
Proof.
  revert m.
  induction d as [ | |c|n|s|l _|ds IH] using value_induction;
    intros m Hd Hm E; try reflexivity.
  destruct m as [ | |c|n|s|l|mo]; try reflexivity.
  rewrite mergeValue_obj in E. injection E as E.
  destruct (distinctKeys_obj ds Hd) as [Hnd Hfd].
  pose proof (parsed_obj mo) as Hmo. apply Hmo in Hm as Hm'.
  destruct Hm' as (Hnm & _ & _).
  cbn [covers isPlainObject]. apply forallb_forall. intros [k dv] Hin.
  cbn [fst snd member].
  pose proof (in_own k dv ds Hnd Hin) as Hk.
  pose proof (own_mergeEntries ds mo k Hnm) as Ho. rewrite E in Ho.
  destruct (Obj.own mo k) as [x|] eqn:Ex.
  - injection Ho as Ho. unfold prop in Ho |- *. rewrite Hk in Ho. rewrite Ex.
    pose proof (parsed_own mo k x Hm Ex) as Hx.
    apply andb_true_iff. split.
    + destruct x; try reflexivity. discriminate Hx.
    + rewrite Forall_forall in IH. apply (IH (k, dv) Hin x).
      * rewrite Forall_forall in Hfd. apply (Hfd (k, dv) Hin).
      * exact Hx.
      * symmetry. exact Ho.
  - rewrite Hk in Ho. discriminate Ho.
Qed.

Lemma covers_group (mo : obj) (g : string) (gd : obj) :
  covers (VObj defaultState) (VObj mo) = true ->
  In (g, VObj gd) defaultState ->
  isPlainObject (prop mo g) = true ->
  forall k, Obj.has gd k = true -> member (prop mo g) k <> VUndef.
Proof.
  intros Hc Hin Hp k Hk. cbn [covers isPlainObject] in Hc.
  rewrite forallb_forall in Hc. specialize (Hc (g, VObj gd) Hin).
  cbn [fst snd member] in Hc. apply andb_true_iff in Hc. destruct Hc as [_ Hc].
  destruct (prop mo g) as [ | |c|n|s|l|go]; try discriminate Hp.
  cbn [covers isPlainObject] in Hc. rewrite forallb_forall in Hc.
  apply has_in in Hk. unfold Obj.keys in Hk. apply in_map_iff in Hk.
  destruct Hk as [[k' dv] [Ek Hk]]. simpl in Ek. subst k'.
  specialize (Hc (k, dv) Hk). cbn [fst snd] in Hc.
  apply andb_true_iff in Hc. destruct Hc as [Hc _].
  intro E. rewrite E in Hc. discriminate Hc.
Qed.

(** C6 (as the code behaves): for a well-formed raw input, whenever the
    migration returns a document, its [schemaVersion] is that of the
    defaults, every property of the default document is a property of it
    and not [undefined], and so is every nested field of the defaults
    wherever the document still holds a plain object at the place of the
    group (a stored value that is no plain object, [null] say, takes the
    place of a whole group of the defaults).  For a document stored below
    version 1, 2 and 3 the groups [potionRowDetailsOpen], [prices] and
    [feedbacks] are always plain objects with every field of the defaults,
    whatever was stored there.  The migration returns a document whenever
    no object inside the raw input has an own property [toString]; and the
    state that the caller keeps, the defaults when the migration throws,
    has the same properties. *)
Theorem migrateState_current_schema (raw : value) :
  wellFormed raw = true ->
  (forall m, migrateState String_num raw defaultState = Some m ->
     member m "schemaVersion" = prop defaultState "schemaVersion" /\
     (forall k, Obj.has defaultState k = true -> member m k <> VUndef) /\
     isPlainObject m = true /\
     covers (VObj defaultState) m = true /\
     ((incomingVersion raw <? Num.ofZ 1)%num = true ->
      groupPresent "potionRowDetailsOpen" m) /\
     ((incomingVersion raw <? Num.ofZ 2)%num = true ->
      groupPresent "prices" m) /\
     ((incomingVersion raw <? Num.ofZ 3)%num = true ->
      groupPresent "feedbacks" m)) /\
  (printable raw = true ->
     exists m, migrateState String_num raw defaultState = Some m) /\
  (let s := loadState String_num raw defaultState in
   member s "schemaVersion" = prop defaultState "schemaVersion" /\
   (forall k, Obj.has defaultState k = true -> member s k <> VUndef) /\
   covers (VObj defaultState) s = true).
Proof.
  intro Hw.
  assert (H1 : forall m, migrateState String_num raw defaultState = Some m ->
     member m "schemaVersion" = prop defaultState "schemaVersion" /\
     (forall k, Obj.has defaultState k = true -> member m k <> VUndef) /\
     isPlainObject m = true /\
     covers (VObj defaultState) m = true /\
     ((incomingVersion raw <? Num.ofZ 1)%num = true ->
      groupPresent "potionRowDetailsOpen" m) /\
     ((incomingVersion raw <? Num.ofZ 2)%num = true ->
      groupPresent "prices" m) /\
     ((incomingVersion raw <? Num.ofZ 3)%num = true ->
      groupPresent "feedbacks" m)).
  { intros m E.
    destruct (migrateState_kept raw m Hw E) as (mo & -> & [Ha Hd] & Hv).
    destruct (migrateState_parsed raw (VObj mo) Hw E)
      as (mo' & Em & Hp & G1 & G2 & G3).
    injection Em as <-.
    assert (Hc : covers (VObj defaultState) (VObj mo) = true).
    { apply covers_fixed; [apply defaultState_distinct | exact Hp |].
      rewrite mergeValue_obj, (absorbed_fixpoint _ _ Ha). reflexivity. }
    split; [simpl; unfold prop at 1; rewrite Hv; reflexivity|].
    split; [intros k Hk; simpl; apply (Hd k Hk)|].
    split; [reflexivity|]. split; [exact Hc|].
    split; [|split]; intro C; split;
      try (apply G1; exact C); try (apply G2; exact C);
      try (apply G3; exact C); cbn [member]; intros k Hk.
    - apply (covers_group mo "potionRowDetailsOpen" potionRowDetailsClosed Hc);
        [simpl; auto 20 | apply G1; exact C | exact Hk].
    - refine (covers_group mo "prices" _ Hc _ (G2 C) k Hk). simpl; auto 20.
    - apply (covers_group mo "feedbacks" emptyFeedbacks Hc);
        [simpl; auto 20 | apply G3; exact C | exact Hk]. }
  split; [exact H1|]. split; [apply migrateState_total; exact Hw|].
  cbv zeta. unfold loadState.
  destruct (migrateState String_num raw defaultState) as [m|] eqn:E.
  - destruct (H1 m eq_refl) as (A & B & _ & C & _). auto.
  - split; [reflexivity|]. split; [|reflexivity].
    intros k Hk. simpl. unfold prop.
    unfold Obj.has in Hk.
    destruct (Obj.own defaultState k) as [dv|] eqn:Ed; [|discriminate Hk].
    apply own_in in Ed. vm_compute in Ed.
    repeat (destruct Ed as [Ed|Ed]; [injection Ed as _ <-; discriminate|]).
    contradiction.
Qed.

End MigrationFacts.


Lemma migrateState_current_schema_witness :
  exists m,
    migrateState anyStringOfNumber
      (VObj [ ("potionRowDetailsOpen", VNull); ("feedbacks", VStr "none") ])
      defaultState = Some m /\
    member m "schemaVersion" = prop defaultState "schemaVersion" /\
    covers (VObj defaultState) m = true /\
    groupPresent "potionRowDetailsOpen" m /\
    groupPresent "prices" m /\
    groupPresent "feedbacks" m.
Proof.
  destruct (migrateState_current_schema anyStringOfNumber
              (VObj [ ("potionRowDetailsOpen", VNull);
                      ("feedbacks", VStr "none") ]) eq_refl)
    as [H [T _]].
  destruct (T eq_refl) as [m E]. exists m. split; [exact E|].
  destruct (H m E) as (A & _ & _ & C & G1 & G2 & G3).
  split; [exact A|]. split; [exact C|].
  split; [apply G1; reflexivity|]. split; [apply G2 | apply G3]; reflexivity.
Defined.

(** C6 (as the specification states it) fails, in two ways.  This
    well-formed document has no migrated document: the conversion of its
    ingot price to a string throws in the step v1 -> v2.  And the
    well-formed document [{potionPrices: null}] has a migrated document
    that lacks a field of the defaults: its [potionPrices] is still
    [null], so the default field [potionPrices.p100] is not in it. *)
Lemma migrateState_not_every_field :
  (wellFormed unprintableDocument = true /\
   migrateState anyStringOfNumber unprintableDocument defaultState = None) /\
  (wellFormed (VObj [ ("potionPrices", VNull) ]) = true /\
   member (prop defaultState "potionPrices") "p100" <> VUndef /\
   exists m,
     migrateState anyStringOfNumber (VObj [ ("potionPrices", VNull) ])
       defaultState = Some m /\
     member m "potionPrices" = VNull /\
     member (member m "potionPrices") "p100" = VUndef).
Proof.
  split; [split; vm_compute; reflexivity|].
  split; [reflexivity|]. split; [discriminate|].
  eexists. split; [vm_compute; reflexivity|]. split; reflexivity.
Qed.

(** * Further properties of the code *)

(** ** Deep merge *)

Section DeepMergeProperties.
Import ObjFacts MergeFacts IdempotenceFacts.

Lemma parsed_keys (p : obj) :
  parsed (VObj p) = true -> NoDup (Obj.keys p).
Proof.
  simpl. rewrite !andb_true_iff. intros [[H _] _].
  apply distinct_NoDup. exact H.
Qed.

(** X1: the own properties of a deep merge of a patch that [JSON.parse]
    returned (no key twice, no key [__proto__], at any depth) into an
    object.  A key that the patch lacks keeps what the base has; a key of
    the patch gets the patch value, except that two plain objects are
    merged in turn.  So arrays, strings, numbers and [null] of the patch
    win over whatever the base has. *)
Theorem deepMerge_property (b p : obj) (k : string) :
  parsed (VObj p) = true ->
  exists r,
    deepMerge (VObj b) (VObj p) = VObj r /\
    Obj.own r k
    = match Obj.own p k with
      | None => Obj.own b k
      | Some v =>
          Some (if isPlainObject (prop b k) && isPlainObject v
                then deepMerge (prop b k) v
                else v)
      end.
Proof.
  intro H. apply parsed_keys in H. exists (mergeEntries b p).
  split; [apply deepMerge_obj|].
  rewrite (own_mergeEntries b p k H). destruct (Obj.own p k); reflexivity.
Qed.

Lemma deepMerge_property_witness :
  exists r,
    deepMerge
      (VObj [ ("a", VObj [ ("x", VStr "1") ]); ("b", VStr "2") ])
      (VObj [ ("a", VNull); ("c", VArr [] ) ]) = VObj r /\
    Obj.own r "a" = Some VNull.
Proof.
  apply (deepMerge_property
           [ ("a", VObj [ ("x", VStr "1") ]); ("b", VStr "2") ]
           [ ("a", VNull); ("c", VArr [] ) ] "a").
  reflexivity.
Defined.

(** X2: a deep merge of a patch that [JSON.parse] returned into an object
    loses no key and invents none: a key is an own key of the result
    exactly when it is an own key of the base or of the patch.  (Nothing
    is said about the order in which the keys are listed.) *)
Theorem deepMerge_keys (b p : obj) (k : string) :
  parsed (VObj p) = true ->
  exists r,
    deepMerge (VObj b) (VObj p) = VObj r /\
    Obj.has r k = Obj.has b k || Obj.has p k.
Proof.
  intro H. apply parsed_keys in H. exists (mergeEntries b p).
  split; [apply deepMerge_obj|]. unfold Obj.has.
  rewrite (own_mergeEntries b p k H).
  destruct (Obj.own p k); [rewrite orb_true_r | rewrite orb_false_r];
    reflexivity.
Qed.

Lemma deepMerge_keys_witness :
  exists r,
    deepMerge (VObj [ ("a", VStr "1"); ("b", VStr "2") ])
      (VObj [ ("c", VStr "3"); ("a", VStr "4") ]) = VObj r /\
    Obj.has r "c" = true.
Proof.
  apply (deepMerge_keys [ ("a", VStr "1"); ("b", VStr "2") ]
           [ ("c", VStr "3"); ("a", VStr "4") ] "c").
  reflexivity.
Defined.

Lemma deepMerge_not_both (b v : value) :
  isPlainObject b && isPlainObject v = false -> deepMerge b v = coalesce v b.
Proof.
  destruct b as [ | |c|n|s|l|bl]; destruct v as [ | |c'|n'|s'|l'|p];
    simpl; intro H; try reflexivity; discriminate H.
Qed.

Lemma deepMerge_self (b : value) : distinctKeys b = true -> deepMerge b b = b.
Proof.
  intro H. destruct b as [ | |c|n|s|l|bl]; try reflexivity.
  change (mergeValue (VObj bl) (VObj bl) = VObj bl).
  apply mergeValue_self. exact H.
Qed.

(** X3: merging a value into itself, or merging [null] or [undefined] into
    it, gives the value back, whenever the keys of its objects are pairwise
    distinct. *)
Theorem deepMerge_identities (b : value) :
  distinctKeys b = true ->
  deepMerge b b = b /\ deepMerge b VNull = b /\ deepMerge b VUndef = b.
Proof.
  intro H. split; [|split].
  - apply deepMerge_self. exact H.
  - destruct b; reflexivity.
  - destruct b; reflexivity.
Qed.

Lemma deepMerge_identities_witness :
  deepMerge (VObj defaultState) (VObj defaultState) = VObj defaultState.
Proof.
  apply (deepMerge_identities (VObj defaultState)). reflexivity.
Defined.

(** X4: a deep merge is idempotent in its patch: merging the result of a
    merge into the same base again changes nothing, for values whose
    objects have pairwise distinct keys. *)
Theorem deepMerge_idempotent (b v : value) :
  distinctKeys b = true -> distinctKeys v = true ->
  deepMerge b (deepMerge b v) = deepMerge b v.
Proof.
  intros Hb Hv.
  destruct (isPlainObject b && isPlainObject v) eqn:E.
  - apply andb_true_iff in E. destruct E as [Eb Ev].
    destruct b as [ | |c|n|s|l|bl]; try discriminate Eb.
    destruct v as [ | |c|n|s|l|p]; try discriminate Ev.
    pose proof (mergeValue_idem (VObj p) (VObj bl) Hb Hv) as H.
    rewrite !mergeValue_obj in H. rewrite !deepMerge_obj.
    rewrite <- (mergeValue_obj bl (mergeEntries bl p)). exact H.
  - rewrite (deepMerge_not_both b v E). unfold coalesce.
    destruct (nullish v) eqn:Nv.
    + apply (deepMerge_self b Hb).
    + apply deepMerge_not_both in E. unfold coalesce in E. rewrite Nv in E.
      exact E.
Qed.

Lemma deepMerge_idempotent_witness :
  deepMerge (VObj defaultState) (deepMerge (VObj defaultState) legacyDocument)
  = deepMerge (VObj defaultState) legacyDocument.
Proof.
  apply (deepMerge_idempotent (VObj defaultState) legacyDocument); reflexivity.
Defined.

End DeepMergeProperties.

(** ** The order of the numbers *)

Module OrderFacts.

Lemma compare_rank (x y : num) :
  x <> Num.NaN -> y <> Num.NaN ->
  SFcompare x y = Some (rankCompare (rank x) (rank y)).
Proof.
  intros Hx Hy.
  destruct x as [sx|sx| |sx mx ex]; try (contradiction Hx; reflexivity);
    destruct y as [sy|sy| |sy my ey]; try (contradiction Hy; reflexivity);
    try destruct sx; try destruct sy; simpl; try reflexivity.
  rewrite Z.compare_opp. rewrite (Z.compare_antisym ex ey).
    change (PosDef.Pos.compare_cont Eq mx my) with (Pos.compare mx my).
    destruct (Z.compare ex ey); reflexivity.
Qed.

Lemma rank_lt_le_false (a b c : Z * Z * Z) :
  rankCompare a b = Lt -> rankCompare b c <> Gt -> rankCompare c a = Lt ->
  False.
Proof. intros H1 H2 H3. rank_cases. Qed.

Lemma rank_le_trans (a b c : Z * Z * Z) :
  rankCompare a b <> Gt -> rankCompare b c <> Gt -> rankCompare a c <> Gt.
Proof. intros H1 H2. rank_cases. Qed.

Lemma leb_rank (x y : num) :
  Num.leb x y = true <->
  x <> Num.NaN /\ y <> Num.NaN /\ rankCompare (rank x) (rank y) <> Gt.
Proof.
  split.
  - intro H. destruct (NumFacts.leb_not_nan x y H) as [Hx Hy].
    split; [exact Hx|]. split; [exact Hy|].
    unfold Num.leb, SFleb in H. rewrite (compare_rank x y Hx Hy) in H.
    destruct (rankCompare (rank x) (rank y)); discriminate.
  - intros (Hx & Hy & H). unfold Num.leb, SFleb.
    rewrite (compare_rank x y Hx Hy).
    destruct (rankCompare (rank x) (rank y)); try reflexivity.
    contradiction H; reflexivity.
Qed.

Lemma ltb_rank (x y : num) :
  Num.ltb x y = true <->
  x <> Num.NaN /\ y <> Num.NaN /\ rankCompare (rank x) (rank y) = Lt.
Proof.
  split.
  - intro H. assert (Hl : Num.leb x y = true).
    { unfold Num.leb, SFleb. unfold Num.ltb, SFltb in H.
      destruct (SFcompare x y) as [[ | | ]|]; try discriminate H; reflexivity. }
    destruct (NumFacts.leb_not_nan x y Hl) as [Hx Hy].
    split; [exact Hx|]. split; [exact Hy|].
    unfold Num.ltb, SFltb in H. rewrite (compare_rank x y Hx Hy) in H.
    destruct (rankCompare (rank x) (rank y)); try discriminate H; reflexivity.
  - intros (Hx & Hy & H). unfold Num.ltb, SFltb.
    rewrite (compare_rank x y Hx Hy), H. reflexivity.
Qed.

(** The order is transitive. *)
Lemma leb_trans (x y z : num) :
  Num.leb x y = true -> Num.leb y z = true -> Num.leb x z = true.
Proof.
  rewrite !leb_rank. intros (Hx & Hy & H1) (_ & Hz & H2).
  split; [exact Hx|]. split; [exact Hz|].
  apply (rank_le_trans _ (rank y)); assumption.
Qed.

(** [x < y <= z] excludes [z <= x]. *)
Lemma ltb_leb_not_leb (x y z : num) :
  Num.ltb x y = true -> Num.leb y z = true -> Num.ltb z x = false.
Proof.
  intros H1 H2. destruct (Num.ltb z x) eqn:H3; [|reflexivity].
  apply ltb_rank in H1. apply leb_rank in H2. apply ltb_rank in H3.
  destruct H1 as (_ & _ & H1). destruct H2 as (_ & _ & H2).
  destruct H3 as (_ & _ & H3). exfalso.
  apply (rank_lt_le_false (rank x) (rank y) (rank z) H1 H2 H3).
Qed.

(** Two numbers other than NaN are comparable. *)
Lemma not_gtb_leb (x y : num) :
  x <> Num.NaN -> y <> Num.NaN -> gtb x y = false -> Num.leb x y = true.
Proof.
  intros Hx Hy H. unfold gtb, Num.ltb, SFltb in H. unfold Num.leb, SFleb.
  rewrite (NumFacts.compare_swap y x).
  destruct (SFcompare y x) as [[ | | ]|] eqn:E; simpl; try reflexivity;
    try discriminate H.
  destruct (NumFacts.compare_none _ _ E); contradiction.
Qed.

Lemma gtb_leb (x y : num) : gtb x y = true -> Num.leb y x = true.
Proof.
  unfold gtb, Num.ltb, SFltb, Num.leb, SFleb.
  destruct (SFcompare y x) as [[ | | ]|]; intro H; try discriminate H; reflexivity.
Qed.

End OrderFacts.

(** ** More on the state migration *)

Section MigrationProperties.
Import ObjFacts MergeFacts IdempotenceFacts OrderFacts.

Variable String_num : num -> string.

Lemma leb_not_ltb (x y : num) : Num.leb x y = true -> Num.ltb y x = false.
Proof.
  unfold Num.leb, SFleb, Num.ltb, SFltb. rewrite (NumFacts.compare_swap x y).
  destruct (SFcompare x y) as [[ | | ]|]; simpl; intro H;
    try discriminate H; reflexivity.
Qed.

Lemma below_current (v : num) (n : Z) :
  Num.ltb (Num.ofZ n) (Num.ofZ 4) = true -> Num.leb (Num.ofZ 4) v = true ->
  Num.ltb v (Num.ofZ n) = false.
Proof. intros H1 H2. apply (ltb_leb_not_leb _ _ _ H1 H2). Qed.

(** X5: a document stored at version 4 or later, 4 being the version of the
    defaults or not, is only merged into the defaults: no step runs, nothing
    is thrown, and its [schemaVersion] is overwritten by that of the
    defaults (a later version is not kept). *)
Theorem migrateState_current_document (raw : value) (defaults : obj) :
  Num.leb (Num.ofZ 4) (incomingVersion raw) = true ->
  migrateState String_num raw defaults
  = Some
      (setMember (deepMerge (VObj defaults) (incomingOf raw)) "schemaVersion"
         (prop defaults "schemaVersion")).
Proof.
  intro H. rewrite migrateState_steps. cbv zeta.
  rewrite (below_current _ 1 eq_refl H), (below_current _ 2 eq_refl H),
    (below_current _ 3 eq_refl H), (leb_not_ltb _ _ H).
  reflexivity.
Qed.

(** X6: a document stored at version 2 or later always migrates: the only
    step that can throw, the price normalisation v1 -> v2, does not run. *)
Theorem migrateState_total_from_v2 (raw : value) (defaults : obj) :
  Num.leb (Num.ofZ 2) (incomingVersion raw) = true ->
  exists m, migrateState String_num raw defaults = Some m.
Proof.
  intro H. rewrite migrateState_steps. cbv zeta.
  rewrite (leb_not_ltb _ _ H). eexists; reflexivity.
Qed.

(** X7: the admin mode never survives the migration of a document stored
    below version 4 (or without a finite version): whatever the document
    holds, the migrated document has [adminMode] false. *)
Theorem migrateState_resets_admin_mode (raw m : value) (defaults : obj) :
  Num.ltb (incomingVersion raw) (Num.ofZ 4) = true ->
  migrateState String_num raw defaults = Some m ->
  member m "adminMode" = VBool false.
Proof.
  intros H E. rewrite migrateState_steps in E. cbv zeta in E. rewrite H in E.
  destruct (if (incomingVersion raw <? Num.ofZ 2)%num then _ else _)
    as [s2|]; [|discriminate E].
  injection E as <-. unfold migrate_v3_v4. simpl. unfold prop.
  rewrite own_assign_other by discriminate.
  rewrite own_assign_same. reflexivity.
Qed.

(** *** Fields that the steps leave alone *)

Lemma untouched_assign (r0 r : obj) (key : string) (x : value) :
  In key migratedKeys -> untouched r0 r ->
  untouched r0 (Obj.assign key x (spread (VObj r) [])).
Proof.
  intros Hk [Hn Ho]. rewrite (spread_self r Hn). split.
  - apply NoDup_keys_assign. exact Hn.
  - intros k Hnk. rewrite own_assign_other; [apply Ho; exact Hnk|].
    intros ->. contradiction.
Qed.

Lemma untouched_migrate (raw m : value) (defaults : obj) :
  NoDup (Obj.keys defaults) ->
  migrateState String_num raw defaults = Some m ->
  exists il mo,
    incomingOf raw = VObj il /\ m = VObj mo /\
    untouched (mergeEntries defaults il) mo.
Proof.
  intros Hd E. rewrite migrateState_steps in E. cbv zeta in E.
  destruct (incomingOf_object raw) as [il Ei]. rewrite Ei in E.
  rewrite deepMerge_obj in E. exists il.
  set (r0 := mergeEntries defaults il) in *.
  set (v := incomingVersion raw) in *. clearbody v.
  assert (H0 : untouched r0 r0).
  { split; [apply NoDup_keys_mergeEntries; exact Hd | reflexivity]. }
  assert (H1 : exists r1,
             (if (v <? Num.ofZ 1)%num then migrate_v0_v1 (VObj r0) else VObj r0)
             = VObj r1 /\ untouched r0 r1).
  { destruct (v <? Num.ofZ 1)%num; [|eauto].
    eexists. split; [reflexivity|]. apply untouched_assign; simpl; auto. }
  destruct H1 as (r1 & E1 & H1). rewrite E1 in E.
  assert (H2 : exists r2,
             (if (v <? Num.ofZ 2)%num
              then migrate_v1_v2 String_num defaults (VObj r1)
              else Some (VObj r1)) = Some (VObj r2) /\ untouched r0 r2).
  { destruct (v <? Num.ofZ 2)%num; [|eauto].
    unfold migrate_v1_v2 in *.
    destruct (normalizePrices String_num _ []) as [normalized|];
      [|discriminate E].
    eexists. split; [reflexivity|]. apply untouched_assign; simpl; auto. }
  destruct H2 as (r2 & E2 & H2). rewrite E2 in E.
  assert (H3 : exists r3,
             (if (v <? Num.ofZ 3)%num then migrate_v2_v3 (VObj r2) else VObj r2)
             = VObj r3 /\ untouched r0 r3).
  { destruct (v <? Num.ofZ 3)%num; [|eauto].
    eexists. split; [reflexivity|]. apply untouched_assign; simpl; auto. }
  destruct H3 as (r3 & E3 & H3). rewrite E3 in E.
  assert (H4 : exists r4,
             (if (v <? Num.ofZ 4)%num then migrate_v3_v4 (VObj r3) else VObj r3)
             = VObj r4 /\ untouched r0 r4).
  { destruct (v <? Num.ofZ 4)%num; [|eauto].
    eexists. split; [reflexivity|]. apply untouched_assign; simpl; auto. }
  destruct H4 as (r4 & E4 & [Hn4 Ho4]). rewrite E4 in E.
  injection E as <-. eexists. split; [exact Ei|]. split; [reflexivity|].
  split.
  - apply NoDup_keys_assign. exact Hn4.
  - intros k Hk. rewrite own_assign_other; [apply Ho4; exact Hk|].
    intros <-. apply Hk. simpl; auto 10.
Qed.

(** X8: for a stored document that [JSON.parse] returned (or [undefined]),
    the version steps change no field other than [potionRowDetailsOpen],
    [prices], [feedbacks], [adminMode] and [schemaVersion]: every other
    field of the migrated document is what the deep merge of the stored
    document into the defaults holds.  In particular a stored value that is
    not a plain object (a text, a number, an array) is in the migrated
    document as it was stored. *)
Theorem migrateState_keeps_other_fields (raw m : value) (defaults : obj)
    (k : string) :
  wellFormed raw = true ->
  distinct (Obj.keys defaults) = true ->
  ~ In k migratedKeys ->
  migrateState String_num raw defaults = Some m ->
  member m k = member (deepMerge (VObj defaults) (incomingOf raw)) k /\
  (forall o v,
     raw = VObj o -> Obj.own o k = Some v -> isPlainObject v = false ->
     member m k = v).
Proof.
  intros Hw Hd Hk E. apply distinct_NoDup in Hd.
  destruct (untouched_migrate raw m defaults Hd E)
    as (il & mo & Ei & -> & [_ Ho]).
  assert (H1 : member (VObj mo) k
               = member (deepMerge (VObj defaults) (incomingOf raw)) k).
  { rewrite Ei, deepMerge_obj. simpl. unfold prop. rewrite (Ho k Hk).
    reflexivity. }
  split; [exact H1|].
  intros o v -> Hv Hp. rewrite H1.
  change (incomingOf (VObj o)) with (VObj o).
  assert (Hdo : NoDup (Obj.keys o)).
  { simpl in Hw. rewrite !andb_true_iff in Hw. destruct Hw as [[Hw _] _].
    apply distinct_NoDup. exact Hw. }
  rewrite deepMerge_obj. simpl.
  unfold prop at 1. rewrite (own_mergeEntries defaults o k Hdo), Hv.
  unfold mergeValue. rewrite Hp, andb_false_r.
  reflexivity.
Qed.

(** *** The prices after the step v1 -> v2 *)

Lemma normalizePrices_cons (k : string) (v : value) (rest acc : obj) :
  normalizePrices String_num ((k, v) :: rest) acc
  = match priceText String_num v with
    | Some t =>
        normalizePrices String_num rest
          (Obj.assign k (VObj [ ("market", VStr t) ]) acc)
    | None => None
    end.
Proof. reflexivity. Qed.

Lemma normalizePrices_marketOnly (entries acc normalized : obj) :
  normalizePrices String_num entries acc = Some normalized ->
  Forall (fun kv => marketOnly (snd kv)) acc ->
  Forall (fun kv => marketOnly (snd kv)) normalized.
Proof.
  revert acc. induction entries as [|[k v] es IH]; intros acc H Hacc.
  - simpl in H. injection H as <-. exact Hacc.
  - rewrite normalizePrices_cons in H.
    destruct (priceText String_num v) as [t|]; [|discriminate H].
    apply (IH _ H).
    apply (Forall_assign (fun kv => marketOnly (snd kv))); [exact Hacc|].
    exists t. reflexivity.
Qed.

Lemma normalizePrices_own (entries acc normalized : obj) (k : string) :
  normalizePrices String_num entries acc = Some normalized ->
  NoDup (Obj.keys entries) ->
  Obj.own normalized k
  = match Obj.own entries k with
    | Some v =>
        option_map (fun t => VObj [ ("market", VStr t) ])
          (priceText String_num v)
    | None => Obj.own acc k
    end.
Proof.
  revert acc. induction entries as [|[k0 v0] es IH]; intros acc H Hn.
  - simpl in H. injection H as <-. reflexivity.
  - rewrite normalizePrices_cons in H.
    destruct (priceText String_num v0) as [t|] eqn:Et; [|discriminate H].
    inversion Hn as [|? ? Hk Hd]; subst. rewrite (IH _ H Hd). simpl.
    destruct (String.eqb_spec k0 k) as [->|Hne].
    + apply own_none in Hk. rewrite Hk, own_assign_same, Et. reflexivity.
    + rewrite (own_assign_other k0 k _ _ Hne). reflexivity.
Qed.

Lemma default_prices :
  exists dp,
    prop defaultState "prices" = VObj dp /\ NoDup (Obj.keys dp) /\
    forall k bv, Obj.own dp k = Some bv -> marketOnly bv.
Proof.
  eexists. split; [reflexivity|]. split.
  - apply distinct_NoDup. reflexivity.
  - intros k bv H. apply own_in in H. simpl in H.
    repeat (destruct H as [H|H];
            [injection H as _ <-; eexists; reflexivity|]).
    contradiction.
Qed.

Lemma marketOnly_merge (b v : value) :
  (b = VUndef \/ marketOnly b) -> marketOnly v -> mergeValue b v = v.
Proof.
  intros [->|[d ->]] [t ->]; reflexivity.
Qed.

(** The steps after v1 -> v2 keep the prices. *)
Lemma later_steps_keep (r : obj) (c3 c4 : bool) (x : value) (k : string) :
  NoDup (Obj.keys r) -> k <> "feedbacks" -> k <> "adminMode" ->
  k <> "schemaVersion" ->
  member
    (setMember
       (if c4
        then migrate_v3_v4 (if c3 then migrate_v2_v3 (VObj r) else VObj r)
        else (if c3 then migrate_v2_v3 (VObj r) else VObj r))
       "schemaVersion" x) k
  = prop r k.
Proof.
  intros Hn H3 H4 H5.
  assert (E3 : exists r3,
             (if c3 then migrate_v2_v3 (VObj r) else VObj r) = VObj r3
             /\ NoDup (Obj.keys r3) /\ prop r3 k = prop r k).
  { destruct c3; [|eauto]. unfold migrate_v2_v3.
    rewrite (spread_self r Hn). eexists. split; [reflexivity|]. split.
    - apply NoDup_keys_assign. exact Hn.
    - unfold prop. rewrite own_assign_other by (intro E; apply H3; subst; reflexivity).
      reflexivity. }
  destruct E3 as (r3 & -> & Hn3 & <-).
  assert (E4 : exists r4,
             (if c4 then migrate_v3_v4 (VObj r3) else VObj r3) = VObj r4
             /\ prop r4 k = prop r3 k).
  { destruct c4; [|eauto]. unfold migrate_v3_v4.
    rewrite (spread_self r3 Hn3). eexists. split; [reflexivity|].
    unfold prop. rewrite own_assign_other by (intro E; apply H4; subst; reflexivity).
    reflexivity. }
  destruct E4 as (r4 & -> & <-). simpl. unfold prop.
  rewrite own_assign_other by (intro E; apply H5; subst; reflexivity).
  reflexivity.
Qed.

Lemma NoDup_keys_copy (s : value) : NoDup (Obj.keys (spread s [])).
Proof. apply NoDup_keys_spread. constructor. Qed.

(** What the migration of a document below version 2 stores as prices: the
    merge of the normalised entries into the default prices. *)
Lemma migrated_prices (raw m : value) :
  Num.ltb (incomingVersion raw) (Num.ofZ 2) = true ->
  migrateState String_num raw defaultState = Some m ->
  exists s1 normalized,
    s1 = (if (incomingVersion raw <? Num.ofZ 1)%num
          then migrate_v0_v1 (deepMerge (VObj defaultState) (incomingOf raw))
          else deepMerge (VObj defaultState) (incomingOf raw)) /\
    normalizePrices String_num
      (ownEntries (orElse (member s1 "prices") (VObj []))) [] = Some normalized /\
    member m "prices"
    = deepMerge (prop defaultState "prices") (VObj normalized).
Proof.
  intros H E. rewrite migrateState_steps in E. cbv zeta in E. rewrite H in E.
  eexists. unfold migrate_v1_v2 in E.
  destruct (normalizePrices String_num _ []) as [normalized|] eqn:En;
    [|discriminate E].
  exists normalized. split; [reflexivity|]. split; [exact En|].
  injection E as <-.
  rewrite later_steps_keep; try discriminate.
  - unfold prop at 1. rewrite own_assign_same. reflexivity.
  - apply NoDup_keys_assign. apply NoDup_keys_copy.
Qed.

(** X9: after the migration of a document stored below version 2 (or
    without a finite version), [prices] is an object and every one of its
    entries is an object with the one property [market], a text: no entry
    keeps a [grossSell] or [buy] field or any other shape. *)
Theorem migrateState_price_shape (raw m : value) :
  Num.ltb (incomingVersion raw) (Num.ofZ 2) = true ->
  migrateState String_num raw defaultState = Some m ->
  exists ps,
    member m "prices" = VObj ps /\
    forall k v, Obj.own ps k = Some v -> marketOnly v.
Proof.
  intros H E.
  destruct (migrated_prices raw m H E) as (s1 & normalized & _ & En & ->).
  destruct default_prices as (dp & -> & Hdn & Hdp).
  rewrite deepMerge_obj. eexists. split; [reflexivity|].
  intros k v Hv.
  pose proof (normalizePrices_marketOnly _ _ _ En (Forall_nil _)) as Hm.
  pose proof (normalizePrices_distinct String_num _ _ _ En eq_refl) as Hn.
  destruct (distinctKeys_obj normalized Hn) as [Hnn _].
  rewrite (own_mergeEntries dp normalized k Hnn) in Hv.
  destruct (Obj.own normalized k) as [v'|] eqn:Ek.
  - injection Hv as <-.
    assert (Hv' : marketOnly v').
    { rewrite Forall_forall in Hm. apply (Hm (k, v')). apply own_in. exact Ek. }
    rewrite marketOnly_merge; [exact Hv' | | exact Hv'].
    unfold prop. destruct (Obj.own dp k) as [bv|] eqn:Eb; [|left; reflexivity].
    right. apply (Hdp k bv Eb).
  - apply (Hdp k v Hv).
Qed.

(** *** Legacy price entries *)

Lemma normalizePrices_texts (entries acc normalized : obj) :
  normalizePrices String_num entries acc = Some normalized ->
  forall k v, In (k, v) entries -> priceText String_num v <> None.
Proof.
  revert acc. induction entries as [|[k0 v0] es IH]; intros acc H k v Hin.
  - contradiction.
  - rewrite normalizePrices_cons in H.
    destruct (priceText String_num v0) as [t|] eqn:Et; [|discriminate H].
    destruct Hin as [Hin|Hin].
    + injection Hin as _ <-. rewrite Et. discriminate.
    + apply (IH _ H k v Hin).
Qed.

(** The entry that a stored price ends as: the text of the stored entry
    merged into the default entry of the same resource. *)
Lemma migrated_price (o ps : obj) (k : string) (v m : value) :
  NoDup (Obj.keys o) ->
  Obj.own o "prices" = Some (VObj ps) ->
  NoDup (Obj.keys ps) ->
  Obj.own ps k = Some v ->
  Num.ltb (incomingVersion (VObj o)) (Num.ofZ 2) = true ->
  migrateState String_num (VObj o) defaultState = Some m ->
  exists t,
    priceText String_num
      (mergeValue (member (prop defaultState "prices") k) v) = Some t /\
    member (member m "prices") k = VObj [ ("market", VStr t) ].
Proof.
  intros Ho Hp Hps Hv H E.
  destruct (migrated_prices _ m H E) as (s1 & normalized & Es1 & En & Em).
  destruct default_prices as (dp & Edp & Hdn & Hdp).
  assert (Hs1 : member s1 "prices" = VObj (mergeEntries dp ps)).
  { subst s1. change (incomingOf (VObj o)) with (VObj o).
    rewrite deepMerge_obj.
    assert (Hr : prop (mergeEntries defaultState o) "prices"
                 = VObj (mergeEntries dp ps)).
    { unfold prop at 1.
      rewrite (own_mergeEntries defaultState o "prices" Ho), Hp, Edp.
      apply mergeValue_obj. }
    destruct (incomingVersion (VObj o) <? Num.ofZ 1)%num; [|exact Hr].
    unfold migrate_v0_v1. rewrite spread_self.
    - simpl. unfold prop at 1. rewrite own_assign_other by discriminate.
      exact Hr.
    - apply NoDup_keys_mergeEntries. apply distinct_NoDup. reflexivity. }
  rewrite Hs1 in En.
  change (ownEntries (orElse (VObj (mergeEntries dp ps)) (VObj [])))
    with (mergeEntries dp ps) in En.
  assert (Hme : Obj.own (mergeEntries dp ps) k
                = Some (mergeValue (prop dp k) v)).
  { rewrite (own_mergeEntries dp ps k Hps), Hv. reflexivity. }
  pose proof (normalizePrices_own _ _ _ k En
                (NoDup_keys_mergeEntries dp ps Hdn)) as Hk.
  rewrite Hme in Hk.
  pose proof (normalizePrices_texts _ _ _ En k _ (own_in _ _ _ Hme)) as Ht.
  rewrite Edp. simpl member.
  destruct (priceText String_num (mergeValue (prop dp k) v)) as [t|];
    [|contradiction Ht; reflexivity].
  exists t. split; [reflexivity|].
  rewrite Em, Edp, deepMerge_obj. simpl. unfold prop at 1.
  pose proof (normalizePrices_distinct String_num _ _ _ En eq_refl) as Hn.
  destruct (distinctKeys_obj normalized Hn) as [Hnn _].
  rewrite (own_mergeEntries dp normalized k Hnn), Hk. simpl.
  rewrite marketOnly_merge; [reflexivity| |exists t; reflexivity].
  unfold prop. destruct (Obj.own dp k) as [bv|] eqn:Eb; [|left; reflexivity].
  right. apply (Hdp k bv Eb).
Qed.

(** X10: the legacy fields of a price entry.  In a document that
    [JSON.parse] returned (no key twice, no key [__proto__], at any depth)
    and that is stored below version 2, an entry of [prices] for a resource
    that the defaults do not list, an object without [market], ends as
    [{market: t}] where [t] is its [grossSell] text, or its [buy] text when
    [grossSell] is missing or [null]. *)
Theorem migrateState_legacy_price_alias (o ps e : obj) (k t : string)
    (m : value) :
  wellFormed (VObj o) = true ->
  Obj.own o "prices" = Some (VObj ps) ->
  Obj.own ps k = Some (VObj e) ->
  Num.ltb (incomingVersion (VObj o)) (Num.ofZ 2) = true ->
  member (prop defaultState "prices") k = VUndef ->
  Obj.own e "market" = None ->
  coalesce (prop e "grossSell") (prop e "buy") = VStr t ->
  migrateState String_num (VObj o) defaultState = Some m ->
  member (member m "prices") k = VObj [ ("market", VStr t) ].
Proof.
  intros Hw Hp Hv H Hd Hm Ht E.
  assert (Ho : NoDup (Obj.keys o)) by (apply parsed_keys; exact Hw).
  assert (Hps : NoDup (Obj.keys ps)).
  { apply parsed_keys. apply (parsed_own o "prices" _ Hw Hp). }
  destruct (migrated_price o ps k (VObj e) m Ho Hp Hps Hv H E)
    as (t' & Et & ->).
  rewrite Hd in Et. rewrite mergeValue_left in Et by reflexivity.
  unfold priceText in Et. simpl in Et. unfold prop at 1 in Et.
  rewrite Hm in Et.
  change (coalesce VUndef (prop e "grossSell")) with (prop e "grossSell") in Et.
  rewrite Ht in Et. simpl in Et.
  injection Et as <-. reflexivity.
Qed.

(** X11: for a resource that the defaults list with a market text [d], a
    legacy entry without [market] does not bring its price along: the deep
    merge has put the default [market] into the entry before the step
    v1 -> v2 reads it, so the entry ends as [{market: d}] and the stored
    [grossSell] and [buy] are dropped. *)
Theorem migrateState_legacy_price_of_known_resource (o ps e : obj)
    (k d : string) (m : value) :
  distinct (Obj.keys o) = true ->
  Obj.own o "prices" = Some (VObj ps) ->
  distinct (Obj.keys ps) = true ->
  Obj.own ps k = Some (VObj e) ->
  distinct (Obj.keys e) = true ->
  Num.ltb (incomingVersion (VObj o)) (Num.ofZ 2) = true ->
  member (prop defaultState "prices") k = VObj [ ("market", VStr d) ] ->
  Obj.own e "market" = None ->
  migrateState String_num (VObj o) defaultState = Some m ->
  member (member m "prices") k = VObj [ ("market", VStr d) ].
Proof.
  intros Ho Hp Hps Hv He H Hd Hm E.
  apply distinct_NoDup in Ho. apply distinct_NoDup in Hps.
  apply distinct_NoDup in He.
  destruct (migrated_price o ps k (VObj e) m Ho Hp Hps Hv H E)
    as (t' & Et & ->).
  rewrite Hd, mergeValue_obj in Et.
  unfold priceText in Et. simpl in Et. unfold prop at 1 in Et.
  rewrite (own_mergeEntries _ e "market" He), Hm in Et. simpl in Et.
  injection Et as <-. reflexivity.
Qed.

End MigrationProperties.

Lemma migrateState_current_document_witness :
  migrateState anyStringOfNumber
    (VObj [ ("schemaVersion", VNum (Num.ofZ 7)); ("adminMode", VBool true);
            ("prices", VObj [ ("ingot", VObj [ ("toString", VNull) ]) ]) ])
    defaultState
  = Some
      (setMember
         (deepMerge (VObj defaultState)
            (incomingOf
               (VObj [ ("schemaVersion", VNum (Num.ofZ 7));
                       ("adminMode", VBool true);
                       ("prices", VObj [ ("ingot", VObj [ ("toString", VNull) ]) ]) ])))
         "schemaVersion" (prop defaultState "schemaVersion")).
Proof.
  apply (migrateState_current_document anyStringOfNumber
           (VObj [ ("schemaVersion", VNum (Num.ofZ 7)); ("adminMode", VBool true);
                   ("prices", VObj [ ("ingot", VObj [ ("toString", VNull) ]) ]) ])
           defaultState).
  vm_compute; reflexivity.
Defined.

Lemma migrateState_total_from_v2_witness :
  exists m,
    migrateState anyStringOfNumber
      (VObj [ ("schemaVersion", VNum (Num.ofZ 2));
              ("prices", VObj [ ("ingot", VObj [ ("toString", VNull) ]) ]) ])
      defaultState = Some m.
Proof.
  apply (migrateState_total_from_v2 anyStringOfNumber
           (VObj [ ("schemaVersion", VNum (Num.ofZ 2));
                   ("prices", VObj [ ("ingot", VObj [ ("toString", VNull) ]) ]) ])
           defaultState).
  vm_compute; reflexivity.
Defined.

Lemma migrateState_resets_admin_mode_witness :
  exists m,
    migrateState anyStringOfNumber
      (VObj [ ("schemaVersion", VStr "4"); ("adminMode", VBool true) ])
      defaultState = Some m /\
    member m "adminMode" = VBool false.
Proof.
  eexists. split; [vm_compute; reflexivity|].
  apply (migrateState_resets_admin_mode anyStringOfNumber
           (VObj [ ("schemaVersion", VStr "4"); ("adminMode", VBool true) ])
           _ defaultState); vm_compute; reflexivity.
Defined.

Lemma migrateState_keeps_other_fields_witness :
  exists m,
    migrateState anyStringOfNumber legacyDocument defaultState = Some m /\
    member m "feePct" = VStr "3".
Proof.
  eexists. split; [vm_compute; reflexivity|].
  refine (proj2 (migrateState_keeps_other_fields anyStringOfNumber
                   legacyDocument _ defaultState "feePct" eq_refl eq_refl _ _)
            _ (VStr "3") eq_refl _ _).
  - simpl. intros [H|[H|[H|[H|[H|[]]]]]]; discriminate H.
  - vm_compute; reflexivity.
  - reflexivity.
  - reflexivity.
Defined.

Lemma migrateState_price_shape_witness :
  exists m,
    migrateState anyStringOfNumber legacyDocument defaultState = Some m /\
    exists ps,
      member m "prices" = VObj ps /\
      forall k v, Obj.own ps k = Some v -> marketOnly v.
Proof.
  eexists. split; [vm_compute; reflexivity|].
  apply (migrateState_price_shape anyStringOfNumber legacyDocument); vm_compute; reflexivity.
Defined.

Lemma migrateState_legacy_price_alias_witness :
  exists m,
    migrateState anyStringOfNumber
      (VObj [ ("prices",
                VObj [ ("relic", VObj [ ("grossSell", VNull);
                                        ("buy", VStr "90") ]) ]) ])
      defaultState = Some m /\
    member (member m "prices") "relic" = VObj [ ("market", VStr "90") ].
Proof.
  eexists. split; [vm_compute; reflexivity|].
  apply (migrateState_legacy_price_alias anyStringOfNumber
           [ ("prices",
               VObj [ ("relic", VObj [ ("grossSell", VNull);
                                       ("buy", VStr "90") ]) ]) ]
           [ ("relic", VObj [ ("grossSell", VNull); ("buy", VStr "90") ]) ]
           [ ("grossSell", VNull); ("buy", VStr "90") ]
           "relic" "90"); vm_compute; reflexivity.
Defined.

Lemma migrateState_legacy_price_of_known_resource_witness :
  exists m,
    migrateState anyStringOfNumber legacyDocument defaultState = Some m /\
    member (member m "prices") "ingot"
    = member (prop defaultState "prices") "ingot".
Proof.
  eexists. split; [vm_compute; reflexivity|].
  apply (migrateState_legacy_price_of_known_resource anyStringOfNumber
           [ ("feePct", VStr "3");
             ("prices",
               VObj [ ("ingot", VObj [ ("grossSell", VStr "5500");
                                       ("buy", VStr "6100") ]) ]) ]
           [ ("ingot", VObj [ ("grossSell", VStr "5500");
                              ("buy", VStr "6100") ]) ]
           [ ("grossSell", VStr "5500"); ("buy", VStr "6100") ]
           "ingot"); vm_compute; reflexivity.
Defined.

(** ** Probabilities and domain rules *)

Module RangeFacts.
Import NumFacts.

(** Two numbers that compare as equal are the same value. *)
Lemma compare_eq_same (x y : num) : SFcompare x y = Some Eq -> (x == y)%num.
Proof.
  unfold Num.same.
  destruct x as [sx|sx| |sx mx ex], y as [sy|sy| |sy my ey]; simpl;
    try destruct sx; try destruct sy; simpl; intro H;
    try discriminate H; auto.
  - destruct (Z.compare ex ey) eqn:E; try discriminate H.
    apply Z.compare_eq in E. subst ey.
    change (PosDef.Pos.compare_cont Eq mx my) with (Pos.compare mx my) in H.
    destruct (Pos.compare mx my) eqn:Em; try discriminate H.
    apply Pos.compare_eq in Em. subst my. auto.
  - destruct (Z.compare ex ey) eqn:E; try discriminate H.
    apply Z.compare_eq in E. subst ey.
    change (PosDef.Pos.compare_cont Eq mx my) with (Pos.compare mx my) in H.
    destruct (Pos.compare mx my) eqn:Em; try discriminate H.
    apply Pos.compare_eq in Em. subst my. auto.
Qed.

Lemma leb_finite_between (lo hi x : num) :
  Num.isFinite lo = true -> Num.isFinite hi = true ->
  Num.leb lo x = true -> Num.leb x hi = true -> Num.isFinite x = true.
Proof.
  unfold Num.leb, SFleb.
  destruct x as [s|s| |s m e]; try reflexivity;
    destruct lo as [sl|sl| |sl ml el]; try discriminate;
    destruct hi as [sh|sh| |sh mh eh]; try discriminate;
    destruct s; simpl; try discriminate; try destruct sl; try destruct sh;
    simpl; discriminate.
Qed.

Lemma signed_nonneg (x : num) : Num.signed false x -> Num.leb Num.zero x = true.
Proof.
  destruct x as [s|s| |s m e]; simpl; intro H; try contradiction;
    subst; reflexivity.
Qed.

Lemma max_zero_not_negative_zero (z : num) :
  Num.max Num.zero z <> S754_zero true.
Proof.
  unfold Num.max.
  destruct z as [s|s| |s m e]; simpl; try destruct s; simpl; discriminate.
Qed.

Lemma clamp01_not_negative_zero (x : num) : clamp01 x <> S754_zero true.
Proof.
  unfold clamp01. destruct (Num.isFinite x); simpl;
    [apply max_zero_not_negative_zero | discriminate].
Qed.

(** [clamp01] changes no number of the unit interval other than [-0]. *)
Lemma clamp01_fixed (c : num) :
  Num.leb Num.zero c = true -> Num.leb c (Num.ofZ 1) = true ->
  c <> S754_zero true -> clamp01 c = c.
Proof.
  intros H0 H1 Hz. unfold clamp01.
  rewrite (leb_finite_between Num.zero (Num.ofZ 1) c eq_refl eq_refl H0 H1).
  simpl negb. cbv iota. unfold Num.min.
  unfold Num.leb, SFleb in H1.
  rewrite (compare_swap c (Num.ofZ 1)).
  destruct (SFcompare c (Num.ofZ 1)) as [[| |]|] eqn:E; try discriminate H1.
  - destruct (compare_eq_same _ _ E) as [->|[_ F]]; [|discriminate F].
    reflexivity.
  - simpl. apply max_zero_exact; assumption.
Qed.

End RangeFacts.

(** X12: [clamp01] always lands in the unit interval; an argument that is
    not finite (NaN, [+Infinity], [-Infinity]) gives exactly 0, an argument
    above 1 gives exactly 1 and a negative argument gives exactly 0; and
    clamping twice is clamping once. *)
Theorem clamp01_unit_interval (x : num) :
  Num.leb Num.zero (clamp01 x) = true /\
  Num.leb (clamp01 x) (Num.ofZ 1) = true /\
  clamp01 (clamp01 x) = clamp01 x /\
  (Num.isFinite x = false -> clamp01 x = Num.zero) /\
  (Num.isFinite x = true -> Num.ltb (Num.ofZ 1) x = true ->
   clamp01 x = Num.ofZ 1) /\
  (Num.isFinite x = true -> Num.ltb x Num.zero = true ->
   clamp01 x = Num.zero).
Proof.
  destruct (clamp01_between x) as [H0 H1].
  split; [exact H0|]. split; [exact H1|]. split; [|split; [|split]].
  - apply RangeFacts.clamp01_fixed;
      [exact H0 | exact H1 | apply RangeFacts.clamp01_not_negative_zero].
  - intro F. unfold clamp01. rewrite F. reflexivity.
  - intros F H. unfold clamp01. rewrite F. simpl negb. cbv iota.
    unfold Num.min. unfold Num.ltb, SFltb in H.
    destruct (SFcompare (Num.ofZ 1) x) as [[| |]|]; try discriminate H.
    reflexivity.
  - intros F H. unfold clamp01. rewrite F. simpl negb. cbv iota.
    destruct x as [s|s| |s m e]; try discriminate F;
      try (destruct s; discriminate H).
    destruct s; [|discriminate H]. reflexivity.
Qed.

(** X13: a probability that already lies in the unit interval passes
    [clamp01] unchanged, up to the sign of zero ([-0] becomes [+0]). *)
Theorem clamp01_fixes_unit_interval (x : num) :
  Num.leb Num.zero x = true -> Num.leb x (Num.ofZ 1) = true ->
  (clamp01 x == x)%num.
Proof.
  intros H0 H1. destruct x as [[|]|s| |s m e];
    try (left; apply RangeFacts.clamp01_fixed;
         [exact H0 | exact H1 | discriminate]).
  right. split; reflexivity.
Qed.

Lemma clamp01_fixes_unit_interval_witness :
  (clamp01 (Num.decimal 15 2) == Num.decimal 15 2)%num.
Proof.
  apply (clamp01_fixes_unit_interval (Num.decimal 15 2)); reflexivity.
Defined.

(** X14: for every level, known or not, the gem rule gives a probability
    of at most 0.10 and a count of 0, 1 or 2, and the guards of
    [miningEVBreakdown] ([clamp01] on the probability, [Math.max(0, .)] on
    the count) leave both as the rule gives them. *)
Theorem gemExpertRule_within_guards (level : num) :
  Num.leb (gem_prob (gemExpertRule level)) (Num.decimal 10 2) = true /\
  In (gem_count (gemExpertRule level)) [Num.zero; Num.ofZ 1; Num.ofZ 2] /\
  clamp01 (gem_prob (gemExpertRule level)) = gem_prob (gemExpertRule level) /\
  Num.max Num.zero (gem_count (gemExpertRule level))
  = gem_count (gemExpertRule level).
Proof.
  unfold gemExpertRule.
  destruct (Num.eqb level (Num.ofZ 1));
    [|destruct (Num.eqb level (Num.ofZ 2));
      [|destruct (Num.eqb level (Num.ofZ 3))]];
    (split; [reflexivity|]); (split; [simpl; auto|]); split; reflexivity.
Qed.

(** X15: for every level (NaN, the infinities and negative levels
    included) the flaming-pick rule gives one ingot and a probability that
    is a number and not negative; a level that is not finite, [+Infinity]
    too, gives probability 0, not the cap of level 10. *)
Theorem flamingPickRule_never_negative (level : num) :
  flame_ingots (flamingPickRule level) = Num.ofZ 1 /\
  Num.leb Num.zero (flame_prob (flamingPickRule level)) = true /\
  (Num.isFinite level = false ->
   flame_prob (flamingPickRule level) = Num.zero).
Proof.
  unfold flamingPickRule.
  destruct (Num.isFinite level) eqn:Ef; simpl negb; simpl orb.
  - destruct (level <=? Num.zero)%num eqn:E0;
      [repeat split; discriminate|].
    destruct (Num.ofZ 10 <=? level)%num;
      [repeat split; discriminate|].
    split; [reflexivity|]. split; [|discriminate]. simpl flame_prob.
    apply RangeFacts.signed_nonneg.
    destruct level as [s|s| |s m e]; try discriminate Ef;
      try (destruct s; discriminate E0).
    destruct s; [discriminate E0|].
    apply (NumFacts.div_finite_signed false false).
  - repeat split.
Qed.

Module TableFacts.

Lemma shards_below (a : Z) : a < 5 -> shardsPerDigOf a = Num.zero.
Proof.
  intro H. unfold shardsPerDigOf, SAGE_SHARDS_BY_ENH. cbn [table_get].
  repeat match goal with
         | |- context [Z.eqb ?l a] => destruct (Z.eqb_spec l a); [lia|]
         end.
  reflexivity.
Qed.

Lemma shards_above (a : Z) : 15 < a -> shardsPerDigOf a = Num.zero.
Proof.
  intro H. unfold shardsPerDigOf, SAGE_SHARDS_BY_ENH. cbn [table_get].
  repeat match goal with
         | |- context [Z.eqb ?l a] => destruct (Z.eqb_spec l a); [lia|]
         end.
  reflexivity.
Qed.

Lemma level_cases (a : Z) :
  a < 5 \/ 15 < a \/
  In a [5; 6; 7; 8; 9; 10; 11; 12; 13; 14; 15]%Z.
Proof. simpl. lia. Qed.

End TableFacts.

(** X16: a higher enhancement level of the pick never drops fewer shards,
    up to level 15; a level outside the table (below 5 or above 15) drops
    none. *)
Theorem shardsPerDigOf_monotone (a b : Z) :
  a <= b -> b <= 15 ->
  Num.leb (shardsPerDigOf a) (shardsPerDigOf b) = true /\
  (a < 5 -> shardsPerDigOf a = Num.zero) /\
  (forall c, 15 < c -> shardsPerDigOf c = Num.zero).
Proof.
  intros Hab Hb. split; [|split; [apply TableFacts.shards_below
                                 | apply TableFacts.shards_above]].
  destruct (TableFacts.level_cases a) as [Ha|[Ha|Ha]]; [| lia |].
  - rewrite (TableFacts.shards_below a Ha).
    destruct (TableFacts.level_cases b) as [Hb'|[Hb'|Hb']]; [| lia |].
    + rewrite (TableFacts.shards_below b Hb'). reflexivity.
    + simpl in Hb'.
      repeat (destruct Hb' as [<-|Hb']; [reflexivity|]). contradiction.
  - destruct (TableFacts.level_cases b) as [Hb'|[Hb'|Hb']]; [| lia |].
    + simpl in Ha. lia.
    + simpl in Ha, Hb'.
      repeat (destruct Ha as [<-|Ha];
              [repeat (destruct Hb' as [<-|Hb']; [reflexivity || lia|]);
               contradiction|]).
      contradiction.
Qed.

Lemma shardsPerDigOf_monotone_witness :
  Num.leb (shardsPerDigOf 7) (shardsPerDigOf 8) = true /\
  (7 < 5 -> shardsPerDigOf 7 = Num.zero) /\
  (forall c, 15 < c -> shardsPerDigOf c = Num.zero).
Proof.
  apply (shardsPerDigOf_monotone 7 8); lia.
Defined.

(** ** Text fields *)

Module TrimFacts.

Local Open Scope string_scope.

Lemma trimEnd_head (c : ascii) (t : string) :
  trimEnd (String c t) = "" -> isSpace c = true.
Proof.
  simpl. destruct (trimEnd t); [|discriminate].
  destruct (isSpace c); [reflexivity | discriminate].
Qed.

(** A text whose trimmed form is empty consists of white space. *)
Lemma blank_trimStart (w : string) : trim w = "" -> trimStart w = "".
Proof.
  unfold trim. induction w as [|c w IH]; [reflexivity|]. simpl.
  destruct (isSpace c) eqn:E; [exact IH|].
  intro H. apply trimEnd_head in H. congruence.
Qed.

Lemma blank_trimEnd (w : string) : trimStart w = "" -> trimEnd w = "".
Proof.
  induction w as [|c w IH]; [reflexivity|]. simpl.
  destruct (isSpace c) eqn:E; [|discriminate].
  intro H. rewrite (IH H). reflexivity.
Qed.

Lemma trimStart_blank_app (w s : string) :
  trimStart w = "" -> trimStart (w ++ s) = trimStart s.
Proof.
  induction w as [|c w IH]; [reflexivity|]. simpl.
  destruct (isSpace c); [exact IH | discriminate].
Qed.

Lemma trimEnd_app_blank (s w : string) :
  trimStart w = "" -> trimEnd (s ++ w) = trimEnd s.
Proof.
  intro H. induction s as [|c s IH]; simpl.
  - apply blank_trimEnd. exact H.
  - rewrite IH. reflexivity.
Qed.

Lemma trim_app_blank (s w : string) :
  trimStart w = "" -> trim (s ++ w) = trim s.
Proof.
  intro H. unfold trim. induction s as [|c s IH].
  - simpl. rewrite H. reflexivity.
  - change (String c s ++ w) with (String c (s ++ w)).
    cbn [trimStart]. destruct (isSpace c); [exact IH|].
    apply (trimEnd_app_blank (String c s) w H).
Qed.

Lemma trim_blank_app (w s : string) :
  trimStart w = "" -> trim (w ++ s) = trim s.
Proof.
  intro H. unfold trim. rewrite (trimStart_blank_app w s H). reflexivity.
Qed.

End TrimFacts.

Section FieldProperties.

Variable Number_str : string -> num.
Variable String_num : num -> string.

Local Open Scope string_scope.

(** X17: white space around a text plays no part in [toNum]: a text
    between two blank texts (texts whose trimmed form is empty) gives the
    number, or the fallback, that the text alone gives. *)
Theorem toNum_ignores_outer_space (before s after : string) (fallback : num) :
  trim before = "" -> trim after = "" ->
  toNum Number_str (VStr (before ++ s ++ after)) fallback
  = toNum Number_str (VStr s) fallback.
Proof.
  intros Hb Ha. apply TrimFacts.blank_trimStart in Hb.
  apply TrimFacts.blank_trimStart in Ha. unfold toNum.
  rewrite (TrimFacts.trim_blank_app before _ Hb),
    (TrimFacts.trim_app_blank s after Ha).
  reflexivity.
Qed.

End FieldProperties.

Lemma toNum_ignores_outer_space_witness :
  toNum (fun _ => Num.ofZ 12) (VStr ("  " ++ "12" ++ " ")) Num.zero
  = toNum (fun _ => Num.ofZ 12) (VStr "12") Num.zero.
Proof.
  apply (toNum_ignores_outer_space (fun _ => Num.ofZ 12) "  " "12" " ");
    reflexivity.
Defined.

Module BoundFacts.
Import NumFacts.

Lemma min_cases (x y : num) :
  Num.min x y = x \/ Num.min x y = y \/ Num.min x y = Num.NaN.
Proof.
  unfold Num.min. destruct (SFcompare x y) as [[| |]|]; auto.
  destruct x as [[|]|s| |s m e]; auto.
Qed.

Lemma compare_finite (x y : num) :
  Num.isFinite x = true -> Num.isFinite y = true -> SFcompare x y <> None.
Proof.
  destruct x as [sx|sx| |sx mx ex], y as [sy|sy| |sy my ey]; simpl;
    try discriminate.
Qed.

Lemma max_finite (x y : num) :
  Num.isFinite x = true -> Num.isFinite y = true ->
  Num.isFinite (Num.max x y) = true.
Proof.
  intros Hx Hy. pose proof (compare_finite x y Hx Hy) as Hc.
  unfold Num.max. destruct (SFcompare x y) as [[| |]|]; try assumption.
  - destruct x as [[|]|s| |s m e]; assumption.
  - contradiction.
Qed.

Lemma min_finite (x y : num) :
  Num.isFinite x = true -> Num.isFinite y = true ->
  Num.isFinite (Num.min x y) = true.
Proof.
  intros Hx Hy. pose proof (compare_finite x y Hx Hy) as Hc.
  unfold Num.min. destruct (SFcompare x y) as [[| |]|]; try assumption.
  - destruct x as [[|]|s| |s m e]; assumption.
  - contradiction.
Qed.

(** [Math.max(lo, x)] is at least [lo]. *)
Lemma max_lower (lo x : num) :
  lo <> Num.NaN -> x <> Num.NaN -> Num.leb lo (Num.max lo x) = true.
Proof.
  intros Hl Hx. unfold Num.max.
  destruct (SFcompare lo x) as [[| |]|] eqn:E.
  - destruct lo as [[|]|s| |s m e]; try (apply leb_refl; assumption).
    unfold Num.leb, SFleb. rewrite E. reflexivity.
  - unfold Num.leb, SFleb. rewrite E. reflexivity.
  - apply leb_refl. exact Hl.
  - destruct (compare_none _ _ E); contradiction.
Qed.

(** [Math.max(lo, x)] is [x] for an [x] that is at least [lo]. *)
Lemma max_of_larger (lo x : num) :
  Num.leb lo x = true -> (Num.max lo x == x)%num.
Proof.
  unfold Num.leb, SFleb, Num.max. intro H.
  destruct (SFcompare lo x) as [[| |]|] eqn:E; try discriminate H.
  - destruct (RangeFacts.compare_eq_same _ _ E) as [->|[Hz Hz']].
    + destruct x as [[|]|s| |s m e]; left; reflexivity.
    + destruct lo as [[|]|s| |s m e]; try discriminate Hz;
        [left; reflexivity | right; split; assumption].
  - left. reflexivity.
Qed.

(** [Math.min(hi, x)] is [x] for an [x] that is at most [hi]. *)
Lemma min_of_smaller (hi x : num) :
  Num.leb x hi = true -> (Num.min hi x == x)%num.
Proof.
  unfold Num.leb, SFleb, Num.min. intro H.
  rewrite (compare_swap x hi).
  destruct (SFcompare x hi) as [[| |]|] eqn:E; try discriminate H; simpl.
  - destruct (RangeFacts.compare_eq_same _ _ E) as [->|[Hz Hz']].
    + destruct hi as [[|]|s| |s m e]; left; reflexivity.
    + destruct hi as [[|]|s| |s m e]; try discriminate Hz';
        [right; split; assumption | left; reflexivity].
  - left. reflexivity.
Qed.

End BoundFacts.

Module BlurFacts.
Import NumFacts.

Lemma finiteNumber_finite (v : value) (n : num) :
  finiteNumber v = Some n -> Num.isFinite n = true.
Proof.
  destruct v as [ | |b|x|s|l|o]; try discriminate. simpl.
  destruct (Num.isFinite x) eqn:E; [|discriminate].
  intro H. injection H as <-. exact E.
Qed.

Lemma leb_same_l (x x' y : num) :
  (x == x')%num -> Num.leb x y = Num.leb x' y.
Proof.
  intros [->|[Hx Hx']]; [reflexivity|].
  destruct x as [sx|sx| |sx mx ex]; try discriminate Hx.
  destruct x' as [sx'|sx'| |sx' mx' ex']; try discriminate Hx'.
  reflexivity.
Qed.

End BlurFacts.

Section BlurProperties.

Variable Number_str : string -> num.
Variable String_num : num -> string.

Local Open Scope string_scope.

(** The number that [sanitizeOnBlur] reaches lies within the bounds of the
    field. *)
Lemma blurNumber_bounds (value min max : value) (r : num) :
  blurNumber Number_str value min max = Some r ->
  Num.isFinite r = true /\
  (forall h, finiteNumber max = Some h -> Num.leb r h = true) /\
  (forall l, finiteNumber min = Some l ->
     (forall h, finiteNumber max = Some h -> Num.leb l h = true) ->
     Num.leb l r = true) /\
  ((forall l, finiteNumber min = Some l ->
      Num.leb l (toNum Number_str value Num.NaN) = true) ->
   (forall h, finiteNumber max = Some h ->
      Num.leb (toNum Number_str value Num.NaN) h = true) ->
   (r == toNum Number_str value Num.NaN)%num).
Proof.
  unfold blurNumber. set (n := toNum Number_str value Num.NaN).
  destruct (Num.isFinite n) eqn:En; [|discriminate]. simpl negb. cbv iota.
  set (v1 := match finiteNumber min with
             | Some lo => Num.max lo n
             | None => n
             end).
  assert (F1 : Num.isFinite v1 = true).
  { unfold v1. destruct (finiteNumber min) as [lo|] eqn:El; [|exact En].
    apply BoundFacts.max_finite;
      [apply (BlurFacts.finiteNumber_finite _ _ El) | exact En]. }
  assert (L1 : forall l, finiteNumber min = Some l -> Num.leb l v1 = true).
  { intros l El. unfold v1. rewrite El. apply BoundFacts.max_lower.
    - apply NumFacts.finite_not_nan.
      apply (BlurFacts.finiteNumber_finite _ _ El).
    - apply NumFacts.finite_not_nan. exact En. }
  assert (S1 : (forall l, finiteNumber min = Some l -> Num.leb l n = true) ->
               (v1 == n)%num).
  { intro Hl. unfold v1. destruct (finiteNumber min) as [lo|];
      [|apply NumFacts.same_refl].
    apply BoundFacts.max_of_larger. apply Hl. reflexivity. }
  destruct (finiteNumber max) as [hi|] eqn:Eh.
  - pose proof (BlurFacts.finiteNumber_finite _ _ Eh) as Fh.
    intro H. injection H as <-.
    pose proof (BoundFacts.min_finite hi v1 Fh F1) as Fr.
    split; [exact Fr|]. split; [|split].
    + intros h Hh. injection Hh as <-.
      apply NumFacts.min_le; apply NumFacts.finite_not_nan; assumption.
    + intros l El Hlh.
      destruct (BoundFacts.min_cases hi v1) as [->|[->| E]].
      * apply Hlh. reflexivity.
      * apply L1. exact El.
      * rewrite E in Fr. discriminate Fr.
    + intros Hl Hh.
      apply (NumFacts.same_trans _ v1); [|apply S1; exact Hl].
      apply BoundFacts.min_of_smaller.
      rewrite (BlurFacts.leb_same_l v1 n hi (S1 Hl)). apply Hh. reflexivity.
  - intro H. injection H as <-.
    split; [exact F1|]. split; [discriminate|]. split.
    + intros l El _. apply L1. exact El.
    + intros Hl _. apply S1. exact Hl.
Qed.

(** X18: what a field hands to [onChange] when it loses the focus.  A text
    that is no finite number becomes the empty text.  Any other text
    becomes the text of a finite number that is at most [max] (when [max]
    is a finite number) and at least [min] (when [min] is a finite number
    and does not exceed [max]); a number that is within the bounds is kept,
    up to the sign of zero. *)
Theorem sanitizeOnBlur_within_bounds (value min max : value) :
  (Num.isFinite (toNum Number_str value Num.NaN) = false /\
   sanitizeOnBlur Number_str String_num value min max = "") \/
  (exists r,
     sanitizeOnBlur Number_str String_num value min max = String_num r /\
     Num.isFinite r = true /\
     (forall h, finiteNumber max = Some h -> Num.leb r h = true) /\
     (forall l, finiteNumber min = Some l ->
        (forall h, finiteNumber max = Some h -> Num.leb l h = true) ->
        Num.leb l r = true) /\
     ((forall l, finiteNumber min = Some l ->
         Num.leb l (toNum Number_str value Num.NaN) = true) ->
      (forall h, finiteNumber max = Some h ->
         Num.leb (toNum Number_str value Num.NaN) h = true) ->
      (r == toNum Number_str value Num.NaN)%num)).
Proof.
  unfold sanitizeOnBlur.
  destruct (blurNumber Number_str value min max) as [r|] eqn:E.
  - right. exists r. split; [reflexivity|].
    apply (blurNumber_bounds value min max r E).
  - left. split; [|reflexivity]. unfold blurNumber in E.
    destruct (Num.isFinite (toNum Number_str value Num.NaN));
      [discriminate E | reflexivity].
Qed.

(** X19: the expected-value breakdown of a page never divides by zero:
    whatever the state holds for the stamina per dig and the shards per
    ingot (missing, blank, negative, not a number), the breakdown uses
    finite values of at least 1, and a replacement probability between 0
    and 1. *)
Theorem page_breakdown_denominators (s : obj) (shards fee : num)
    (gemRule : GemRule) (flameRule : FlameRule) :
  let b :=
    miningEVBreakdown (pageEVInput Number_str s shards gemRule flameRule fee) in
  Num.isFinite (ev_staminaPerDig b) = true /\
  Num.leb (Num.ofZ 1) (ev_staminaPerDig b) = true /\
  Num.isFinite (ev_shardsPerIngot b) = true /\
  Num.leb (Num.ofZ 1) (ev_shardsPerIngot b) = true /\
  Num.leb Num.zero (pFlame b) = true /\
  Num.leb (pFlame b) (Num.ofZ 1) = true.
Proof.
  cbv zeta. unfold miningEVBreakdown, pageEVInput. simpl.
  pose proof (toNum_isFinite Number_str (prop s "staminaPerDig") (Num.ofZ 10)
                eq_refl) as F1.
  pose proof (toNum_isFinite Number_str (prop s "shardsPerIngot") (Num.ofZ 16)
                eq_refl) as F2.
  split; [apply BoundFacts.max_finite; [reflexivity | exact F1]|].
  split; [apply BoundFacts.max_lower;
          [discriminate | apply NumFacts.finite_not_nan; exact F1]|].
  split; [apply BoundFacts.max_finite; [reflexivity | exact F2]|].
  split; [apply BoundFacts.max_lower;
          [discriminate | apply NumFacts.finite_not_nan; exact F2]|].
  apply clamp01_between.
Qed.

End BlurProperties.

(** ** Crafting on the ingot page *)

Module CraftFacts.




End CraftFacts.

Section CraftProperties.

Variable Number_str : string -> num.
Variable modes : list (string * string).
Variable prices : obj.
Variable feeRate : num.

Local Open Scope string_scope.


End CraftProperties.


(** ** Supply modes *)

Module ModeFacts.
Import ObjFacts.
Section Copies.
Context {A : Type}.
Implicit Types (o acc es : list (string * A)).

Lemma copy_all_new acc es :
  NoDup (Obj.keys acc ++ Obj.keys es) ->
  fold_left (fun a kv => Obj.assign (fst kv) (snd kv) a) es acc = acc ++ es.
Proof.
  revert acc. induction es as [|[k v] es IH]; intros acc H; simpl.
  - rewrite app_nil_r. reflexivity.
  - assert (Hk : ~ In k (Obj.keys acc)).
    { intro Hin. apply NoDup_remove_2 in H. apply H. apply in_or_app; auto. }
    rewrite (assign_absent _ _ _ Hk). rewrite IH.
    + rewrite <- app_assoc. reflexivity.
    + unfold Obj.keys. rewrite map_app. simpl. rewrite <- app_assoc. exact H.
Qed.

(** [{...o}] is [o]. *)
Lemma copyOf_self o : NoDup (Obj.keys o) -> copyOf o = o.
Proof. intro H. apply (copy_all_new [] o). exact H. Qed.

(** Assigning one value to each key of a list, on a copy each time. *)
Lemma own_assign_each (x : A) (ks : list string) acc (k : string) :
  NoDup (Obj.keys acc) ->
  NoDup (Obj.keys
           (fold_left (fun a key => Obj.assign key x (copyOf a)) ks acc)) /\
  Obj.own (fold_left (fun a key => Obj.assign key x (copyOf a)) ks acc) k
  = if existsb (String.eqb k) ks then Some x else Obj.own acc k.
Proof.
  revert acc. induction ks as [|k0 ks IH]; intros acc H; simpl.
  - split; [exact H | reflexivity].
  - rewrite (copyOf_self acc H).
    destruct (IH (Obj.assign k0 x acc) (NoDup_keys_assign k0 x acc H))
      as [Hn Ho].
    split; [exact Hn|]. rewrite Ho.
    destruct (existsb (String.eqb k) ks); [rewrite orb_true_r; reflexivity|].
    rewrite orb_false_r. destruct (String.eqb_spec k k0) as [->|Hne].
    + apply own_assign_same.
    + apply own_assign_other. intro E. apply Hne. symmetry. exact E.
Qed.

End Copies.
End ModeFacts.

Section ModeProperties.
Import ObjFacts.

Local Open Scope string_scope.

(** X21: a bulk choice other than ["custom"] sets the mode of each of the
    ten listed materials, to buy for ["all_buy"] and to owned for any other
    choice, and leaves the mode of every other resource as it was. *)
Theorem applyModePreset_modes (v : string) (modes : list (string * string))
    (k : string) :
  distinct (Obj.keys modes) = true ->
  v <> "custom" ->
  Obj.own (applyModePreset v modes) k
  = if existsb (String.eqb k) materialKeysForUI
    then Some (if String.eqb v "all_buy" then "buy" else "owned")
    else Obj.own modes k.
Proof.
  intros H Hv. apply distinct_NoDup in H. unfold applyModePreset.
  destruct (String.eqb_spec v "custom") as [E|_]; [contradiction|].
  rewrite (ModeFacts.copyOf_self modes H).
  apply (ModeFacts.own_assign_each _ materialKeysForUI modes k H).
Qed.

(** X22: the mode select of a material shows the option that was last
    chosen for it: after the choice of one of the options 0, 1 and 2 for
    the material [k], the select of [k] shows that option, and the selects
    of the other materials show what they showed before. *)
Theorem mode_select_round_trip (modes : list (string * string)) (k : string)
    (v : num) :
  distinct (Obj.keys modes) = true ->
  In v [Num.zero; Num.ofZ 1; Num.ofZ 2] ->
  choiceOfMode (setMode modes k v) k = v /\
  forall k', k' <> k ->
    choiceOfMode (setMode modes k v) k' = choiceOfMode modes k'.
Proof.
  intros H Hv. apply distinct_NoDup in H. unfold setMode, choiceOfMode.
  rewrite (ModeFacts.copyOf_self modes H). split.
  - rewrite own_assign_same.
    destruct Hv as [<-|[<-|[<-|[]]]]; reflexivity.
  - intros k' Hk. rewrite own_assign_other; [reflexivity|].
    intro E. apply Hk. symmetry. exact E.
Qed.

(** X23: a stored mode that is none of the three names is shown by the
    mode select as owned (option 0) but priced by the crafting comparison
    as an opportunity cost, the net sale value of the material. *)
Theorem unknown_mode_shown_owned_priced_opportunity
    (modes : list (string * string)) (k m : string) (market fee : num) :
  Obj.own modes k = Some m ->
  m <> "" -> m <> "owned" -> m <> "buy" -> m <> "opportunity" ->
  choiceOfMode modes k = Num.zero /\
  unitCostByMode (modeOf modes k) market fee
  = netSell (Num.max Num.zero market) fee.
Proof.
  intros Hm H0 H1 H2 H3. unfold choiceOfMode, modeOf, unitCostByMode.
  rewrite Hm.
  destruct (String.eqb_spec m "") as [E|_]; [contradiction|].
  destruct (String.eqb_spec m "owned") as [E|_]; [contradiction|].
  destruct (String.eqb_spec m "buy") as [E|_]; [contradiction|].
  destruct (String.eqb_spec m "opportunity") as [E|_]; [contradiction|].
  split; reflexivity.
Qed.

End ModeProperties.

Lemma applyModePreset_modes_witness :
  Obj.own (applyModePreset "all_buy" [ ("ingot", "opportunity"); ("relic", "owned") ])
    "ingot"
  = Some "buy".
Proof.
  apply (applyModePreset_modes "all_buy"
           [ ("ingot", "opportunity"); ("relic", "owned") ] "ingot");
    [reflexivity | discriminate].
Defined.

Lemma mode_select_round_trip_witness :
  choiceOfMode (setMode [ ("ingot", "opportunity") ] "ingot" (Num.ofZ 1)) "ingot"
  = Num.ofZ 1 /\
  forall k', k' <> "ingot" ->
    choiceOfMode (setMode [ ("ingot", "opportunity") ] "ingot" (Num.ofZ 1)) k'
    = choiceOfMode [ ("ingot", "opportunity") ] k'.
Proof.
  apply (mode_select_round_trip [ ("ingot", "opportunity") ] "ingot" (Num.ofZ 1));
    [reflexivity | simpl; auto].
Defined.

Lemma unknown_mode_shown_owned_priced_opportunity_witness :
  choiceOfMode [ ("ingot", "sell") ] "ingot" = Num.zero /\
  unitCostByMode (modeOf [ ("ingot", "sell") ] "ingot") (Num.ofZ 100)
    (Num.decimal 3 2)
  = netSell (Num.max Num.zero (Num.ofZ 100)) (Num.decimal 3 2).
Proof.
  apply (unknown_mode_shown_owned_priced_opportunity [ ("ingot", "sell") ]
           "ingot" "sell" (Num.ofZ 100) (Num.decimal 3 2));
    [reflexivity | discriminate ..].
Defined.

(** ** The potion page *)

Module PotionFacts.
Import NumFacts OrderFacts.

Lemma signed_not_nan (s : bool) (x : num) : Num.signed s x -> x <> Num.NaN.
Proof. intros H E. rewrite E in H. exact H. Qed.

Lemma binary_normalize_not_nan (m e : Z) (szero : bool) :
  binary_normalize Num.prec Num.emax m e szero <> Num.NaN.
Proof.
  unfold binary_normalize. destruct m as [|p|p]; [discriminate| |];
    unfold binary_round;
    destruct (shl_align p e _) as [mz ez];
    [apply (signed_not_nan false) | apply (signed_not_nan true)];
    apply binary_round_aux_signed; lia.
Qed.

(** The product of a number and a finite number other than zero is a
    number. *)
Lemma mul_not_nan (x y : num) :
  x <> Num.NaN -> Num.isFinite y = true -> Num.isZero y = false ->
  (x * y)%num <> Num.NaN.
Proof.
  intros Hx Hy Hz.
  destruct y as [sy|sy| |sy my ey]; try discriminate Hy; try discriminate Hz.
  destruct x as [sx|sx| |sx mx ex]; try discriminate;
    [contradiction Hx; reflexivity|].
  unfold Num.mul, SFmul. apply (signed_not_nan (xorb sx sy)).
  apply binary_round_aux_signed. lia.
Qed.

(** A number less a finite number is a number. *)
Lemma sub_not_nan (x c : num) :
  x <> Num.NaN -> Num.isFinite c = true -> (x - c)%num <> Num.NaN.
Proof.
  intros Hx Hc.
  destruct c as [sc|sc| |sc mc ec]; try discriminate Hc;
    destruct x as [sx|sx| |sx mx ex];
    try (contradiction Hx; reflexivity); unfold Num.sub, SFsub;
    first [ apply binary_normalize_not_nan
          | destruct sx, sc; discriminate
          | discriminate ].
Qed.

(** The row that the reduction of [bestRow] ends with. *)
Lemma best_of_fold (rows : list PotionRow) (acc : PotionRow) :
  row_profit acc <> Num.NaN ->
  (forall r, In r rows -> row_profit r <> Num.NaN) ->
  let b :=
    fold_left
      (fun acc cur => if gtb (row_profit cur) (row_profit acc) then cur else acc)
      rows acc in
  (b = acc \/ In b rows) /\
  Num.leb (row_profit acc) (row_profit b) = true /\
  forall r, In r rows -> Num.leb (row_profit r) (row_profit b) = true.
Proof.
  revert acc. induction rows as [|cur rest IH]; intros acc Ha Hr; cbv zeta.
  - simpl. split; [left; reflexivity|]. split; [apply leb_refl; exact Ha|].
    intros r [].
  - cbn [fold_left].
    assert (Hc : row_profit cur <> Num.NaN) by (apply Hr; left; reflexivity).
    set (acc' := if gtb (row_profit cur) (row_profit acc) then cur else acc).
    assert (Ha' : row_profit acc' <> Num.NaN).
    { unfold acc'. destruct (gtb _ _); assumption. }
    assert (L1 : Num.leb (row_profit acc) (row_profit acc') = true).
    { unfold acc'. destruct (gtb _ _) eqn:E;
        [apply gtb_leb; exact E | apply leb_refl; exact Ha]. }
    assert (L2 : Num.leb (row_profit cur) (row_profit acc') = true).
    { unfold acc'. destruct (gtb _ _) eqn:E;
        [apply leb_refl; exact Hc | apply not_gtb_leb; assumption]. }
    destruct (IH acc' Ha' (fun r Hin => Hr r (or_intror Hin)))
      as (Hb & Hab & Hall).
    split; [|split].
    + destruct Hb as [Hb|Hb]; [|right; right; exact Hb].
      rewrite Hb. unfold acc'. destruct (gtb _ _); [right; left|left];
        reflexivity.
    + apply (leb_trans _ _ _ L1 Hab).
    + intros r [<-|Hin]; [apply (leb_trans _ _ _ L2 Hab) | apply Hall; exact Hin].
Qed.

(** No comparison with NaN succeeds: the reduction keeps its start. *)
Lemma fold_of_nan (rows : list PotionRow) (acc : PotionRow) :
  row_profit acc = Num.NaN ->
  fold_left
    (fun acc cur => if gtb (row_profit cur) (row_profit acc) then cur else acc)
    rows acc = acc.
Proof.
  intro Ha. induction rows as [|cur rest IH]; [reflexivity|].
  cbn [fold_left]. unfold gtb at 1. rewrite Ha.
  replace (Num.ltb Num.NaN (row_profit cur)) with false; [exact IH|].
  reflexivity.
Qed.

End PotionFacts.

(** X24: the best row of a table is a row of the table, and no row of
    the table has a higher profit, when every profit is a number. *)
Theorem bestRow_maximal (rows : list PotionRow) (b : PotionRow) :
  (forall r, In r rows -> row_profit r <> Num.NaN) ->
  bestRow rows = Some b ->
  In b rows /\
  forall r, In r rows -> Num.leb (row_profit r) (row_profit b) = true.
Proof.
  intros Hr E. destruct rows as [|first rest]; [discriminate E|].
  unfold bestRow in E. injection E as <-.
  destruct (PotionFacts.best_of_fold (first :: rest) first
              (Hr first (or_introl eq_refl)) Hr) as (Hb & _ & Hall).
  split; [|exact Hall].
  destruct Hb as [Hb|Hb]; [left; symmetry; exact Hb | exact Hb].
Qed.

Section PotionProperties.

Variable Number_str : string -> num.

(** X25: the best row of the potion page.  Potion prices that are [null]
    or [undefined] make the computation of the rows throw: there are no
    rows and no best row.  For any other potion prices (an object with
    missing, blank or unreadable prices, which count as 0, or a value that
    is no object) there are four rows and a best row: when the value per
    stamina is a number, the best row is one of the rows and no row has a
    higher profit; when the value per stamina is NaN, every profit is NaN
    and the best row is the first row. *)
Theorem potion_best_row (p : value) (totalPerStamina : num) :
  (nullish p = true ->
   potionRows Number_str p totalPerStamina = None /\
   potionBest Number_str p totalPerStamina = None) /\
  (nullish p = false ->
   exists rows b,
     potionRows Number_str p totalPerStamina = Some rows /\
     potionBest Number_str p totalPerStamina = Some b /\
     map row_key rows = [ "p100"; "p300"; "p500"; "p700" ]%string /\
     (totalPerStamina <> Num.NaN ->
      In b rows /\
      forall r, In r rows -> Num.leb (row_profit r) (row_profit b) = true) /\
     (totalPerStamina = Num.NaN ->
      row_key b = "p100"%string /\
      forall r, In r rows -> row_profit r = Num.NaN)).
Proof.
  split.
  - intro Hn. unfold potionBest, potionRows. rewrite Hn. split; reflexivity.
  - intro Hn. unfold potionBest, potionRows. rewrite Hn.
    pose proof (fun k => toNum_isFinite Number_str (member p k) Num.zero eq_refl)
      as F.
    eexists. eexists. split; [reflexivity|]. split; [reflexivity|].
    split; [reflexivity|].
    match goal with
    | |- (_ -> In _ ?l /\ _) /\ _ => set (rows := l)
    end.
    assert (N : totalPerStamina <> Num.NaN ->
                forall r, In r rows -> row_profit r <> Num.NaN).
    { intros Ht r Hin. unfold rows in Hin. cbn [map In] in Hin.
      destruct Hin as [<-|[<-|[<-|[<-|[]]]]]; cbn [row_profit];
        (apply PotionFacts.sub_not_nan; [|apply F]);
        apply PotionFacts.mul_not_nan; try exact Ht; reflexivity. }
    split.
    + intro Ht.
      destruct (PotionFacts.best_of_fold rows
                  (hd {| row_key := ""; row_stamina := Num.zero;
                         row_cost := Num.zero; row_revenue := Num.zero;
                         row_profit := Num.zero |} rows))
        as (Hb & _ & Hall).
      * apply (N Ht). left. reflexivity.
      * apply (N Ht).
      * split; [|exact Hall].
        destruct Hb as [Hb|Hb]; [|exact Hb]. left. symmetry. exact Hb.
    + intros ->. split.
      * unfold rows. cbn [map]. rewrite PotionFacts.fold_of_nan; reflexivity.
      * intros r Hin. unfold rows in Hin. cbn [map In] in Hin.
        destruct Hin as [<-|[<-|[<-|[<-|[]]]]]; reflexivity.
Qed.

(** The stored document [{potionPrices: null}] is well formed and keeps its
    [null] through the migration, so the state of the potion page can hold
    potion prices for which the rows throw. *)
Example null_potion_prices_survive_migration :
  wellFormed (VObj [ ("potionPrices", VNull) ]) = true /\
  exists m,
    migrateState anyStringOfNumber (VObj [ ("potionPrices", VNull) ])
      defaultState = Some m /\
    member m "potionPrices" = VNull /\
    potionBest Number_str (member m "potionPrices") Num.zero = None.
Proof.
  split; [reflexivity|]. eexists. split; [vm_compute; reflexivity|].
  split; reflexivity.
Qed.

End PotionProperties.

Lemma bestRow_maximal_witness :
  let rows :=
    [ {| row_key := "p100"; row_stamina := Num.ofZ 100; row_cost := Num.ofZ 50;
         row_revenue := Num.ofZ 70; row_profit := Num.ofZ 20 |};
      {| row_key := "p300"; row_stamina := Num.ofZ 300; row_cost := Num.ofZ 150;
         row_revenue := Num.ofZ 210; row_profit := Num.ofZ 60 |} ] in
  In {| row_key := "p300"; row_stamina := Num.ofZ 300; row_cost := Num.ofZ 150;
        row_revenue := Num.ofZ 210; row_profit := Num.ofZ 60 |} rows /\
  forall r, In r rows -> Num.leb (row_profit r) (Num.ofZ 60) = true.
Proof.
  apply (bestRow_maximal
           [ {| row_key := "p100"; row_stamina := Num.ofZ 100;
                row_cost := Num.ofZ 50; row_revenue := Num.ofZ 70;
                row_profit := Num.ofZ 20 |};
             {| row_key := "p300"; row_stamina := Num.ofZ 300;
                row_cost := Num.ofZ 150; row_revenue := Num.ofZ 210;
                row_profit := Num.ofZ 60 |} ]
           {| row_key := "p300"; row_stamina := Num.ofZ 300;
              row_cost := Num.ofZ 150; row_revenue := Num.ofZ 210;
              row_profit := Num.ofZ 60 |}).
  - intros r [<-|[<-|[]]]; discriminate.
  - reflexivity.
Defined.

(** ** Updates of the state *)

Module UpdateFacts.
Import ObjFacts.
Section Assignments.
Context {A : Type}.
Implicit Types (o : list (string * A)) (k : string) (v w : A).

(** Assigning the value that a property has changes nothing. *)
Lemma assign_own k v o : Obj.own o k = Some v -> Obj.assign k v o = o.
Proof.
  induction o as [|[k' v'] o IH]; simpl; [discriminate|].
  destruct (String.eqb k' k) eqn:E.
  - intro H. injection H as ->. reflexivity.
  - intro H. rewrite (IH H). reflexivity.
Qed.

(** The later of two assignments to a property is the one that counts. *)
Lemma assign_assign k v w o :
  Obj.assign k w (Obj.assign k v o) = Obj.assign k w o.
Proof.
  induction o as [|[k' v'] o IH]; simpl.
  - rewrite String.eqb_refl. reflexivity.
  - destruct (String.eqb k' k) eqn:E; simpl; rewrite E; [reflexivity|].
    rewrite IH. reflexivity.
Qed.

End Assignments.
End UpdateFacts.

Section UpdateProperties.
Import ObjFacts MergeFacts IdempotenceFacts.

Variable String_num : num -> string.

Local Open Scope string_scope.

(** X26: opening and closing the details of a potion row.  A toggle sets
    the flag of the row to the negation of its truth value and leaves the
    flags of the other rows as they are; two toggles of a row whose flag is
    a boolean give back the state as it was. *)
Theorem toggleRow_twice (o d : obj) (key : string) :
  distinct (Obj.keys o) = true ->
  Obj.own o "potionRowDetailsOpen" = Some (VObj d) ->
  distinct (Obj.keys d) = true ->
  member (member (toggleRow key (VObj o)) "potionRowDetailsOpen") key
  = VBool (negb (truthy (prop d key))) /\
  (forall k, k <> key ->
     member (member (toggleRow key (VObj o)) "potionRowDetailsOpen") k
     = prop d k) /\
  (forall b, Obj.own d key = Some (VBool b) ->
     toggleRow key (toggleRow key (VObj o)) = VObj o).
Proof.
  intros Ho Hd Hdd. apply distinct_NoDup in Ho. apply distinct_NoDup in Hdd.
  assert (T : forall (o' d' : obj),
             NoDup (Obj.keys o') ->
             Obj.own o' "potionRowDetailsOpen" = Some (VObj d') ->
             NoDup (Obj.keys d') ->
             toggleRow key (VObj o')
             = VObj
                 (Obj.assign "potionRowDetailsOpen"
                    (VObj
                       (Obj.assign key (VBool (negb (truthy (prop d' key)))) d'))
                    o')).
  { intros o' d' Ho' Hd' Hdd'. unfold toggleRow. simpl member.
    unfold prop at 1 2 3. rewrite Hd'. simpl nullish. cbv iota.
    rewrite (spread_self o' Ho'), (spread_self d' Hdd'). reflexivity. }
  rewrite (T o d Ho Hd Hdd).
  assert (M : forall x : value,
             member (VObj (Obj.assign "potionRowDetailsOpen" x o))
               "potionRowDetailsOpen" = x).
  { intro x. simpl. unfold prop. rewrite own_assign_same. reflexivity. }
  rewrite M. split; [|split].
  - simpl. unfold prop at 1. rewrite own_assign_same. reflexivity.
  - intros k Hk. simpl. unfold prop at 1.
    rewrite own_assign_other; [reflexivity|].
    intro E. apply Hk. symmetry. exact E.
  - intros b Hb.
    rewrite (T _ (Obj.assign key (VBool (negb (truthy (prop d key)))) d)).
    + unfold prop at 1. rewrite own_assign_same.
      unfold prop. rewrite Hb. simpl truthy. rewrite negb_involutive.
      rewrite !UpdateFacts.assign_assign.
      rewrite (UpdateFacts.assign_own key (VBool b) d Hb).
      rewrite (UpdateFacts.assign_own _ _ o Hd). reflexivity.
    + apply NoDup_keys_assign. exact Ho.
    + apply own_assign_same.
    + apply NoDup_keys_assign. exact Hdd.
Qed.

(** X27: a snapshot of the shared price document replaces each of the six
    price fields by the field of the snapshot, as a whole and without
    merging it into the local field, unless the snapshot lacks the field
    or has [null] there; every other field of the state is left as it is. *)
Theorem applyPriceSnapshot_field (data o : obj) (k : string) :
  distinct (Obj.keys o) = true ->
  member (applyPriceSnapshot data (VObj o)) k
  = if existsb (String.eqb k) sharedPriceKeys
    then coalesce (prop data k) (prop o k)
    else prop o k.
Proof.
  intro Ho. apply distinct_NoDup in Ho. unfold applyPriceSnapshot.
  rewrite (spread_self o Ho). simpl member. unfold sharedPriceKeys.
  cbn [existsb].
  repeat match goal with
         | |- context [String.eqb k ?key] =>
             destruct (String.eqb_spec k key) as [->|?];
             [unfold prop at 1;
              rewrite ?own_assign_same;
              repeat (rewrite own_assign_other by discriminate;
                      rewrite ?own_assign_same);
              reflexivity|]
         end.
  simpl orb. cbv iota. unfold prop at 1.
  repeat (rewrite own_assign_other by congruence). reflexivity.
Qed.

(** X28: whatever document the storage holds, once parsed, the state that
    the application starts with carries the schema version of the defaults: a migrated document
    has it assigned last, and a document whose migration throws is
    replaced by the defaults. *)
Theorem loadState_schema_version (parsed : value) (initialValue : obj) :
  member (loadState String_num parsed initialValue) "schemaVersion"
  = prop initialValue "schemaVersion".
Proof.
  unfold loadState. rewrite migrateState_steps. cbv zeta.
  destruct (incomingOf_object parsed) as [il ->]. rewrite deepMerge_obj.
  set (v := incomingVersion parsed).
  destruct (v <? Num.ofZ 1)%num, (v <? Num.ofZ 2)%num, (v <? Num.ofZ 3)%num,
    (v <? Num.ofZ 4)%num;
    unfold migrate_v1_v2, migrate_v0_v1, migrate_v2_v3, migrate_v3_v4;
    try (destruct (normalizePrices String_num _ []); [|reflexivity]);
    simpl; unfold prop at 1; rewrite own_assign_same; reflexivity.
Qed.

End UpdateProperties.

Lemma toggleRow_twice_witness :
  toggleRow "p300"
    (toggleRow "p300"
       (VObj [ ("potionRowDetailsOpen",
                 VObj [ ("p100", VBool false); ("p300", VBool true) ]);
               ("feePct", VStr "3") ]))
  = VObj [ ("potionRowDetailsOpen",
             VObj [ ("p100", VBool false); ("p300", VBool true) ]);
           ("feePct", VStr "3") ].
Proof.
  refine (proj2 (proj2 (toggleRow_twice
                          [ ("potionRowDetailsOpen",
                              VObj [ ("p100", VBool false); ("p300", VBool true) ]);
                            ("feePct", VStr "3") ]
                          [ ("p100", VBool false); ("p300", VBool true) ]
                          "p300" _ _ _)) true _); reflexivity.
Defined.

Lemma applyPriceSnapshot_field_witness :
  member
    (applyPriceSnapshot
       [ ("prices", VObj [ ("ingot", price "6500") ]) ]
       (VObj [ ("prices", VObj [ ("ingot", price "6000"); ("relic", price "9") ]);
               ("feePct", VStr "3") ]))
    "prices"
  = VObj [ ("ingot", price "6500") ].
Proof.
  apply (applyPriceSnapshot_field
           [ ("prices", VObj [ ("ingot", price "6500") ]) ]
           [ ("prices", VObj [ ("ingot", price "6000"); ("relic", price "9") ]);
             ("feePct", VStr "3") ]
           "prices").
  reflexivity.
Defined.
